(** * FileMetadata: the metadata store, its backups, the safety gate and search

    A shallow embedding of the core of the repository:
    - [utils_access_safety.py]   (class [AccessSafety]),
    - [models_metadata_model.py] (class [MetadataModel]),
    - [utils_metadata_manager.py] (class [MetadataManager]),
    - [models_search_model.py]   (class [SearchModel]),
    over a small model of the Python values, of the pandas operations and of
    the file system these classes use.

    Conventions of the embedding.
    - A Python method that mutates [self] or the file system is a computation
      in the monad [M S A := S -> exc A * S]: the state is threaded
      explicitly and an exception keeps the state reached when it was raised,
      as in Python.  [try_except] is the [try: ... except Exception as e:]
      block every public method is wrapped in.
    - A string is the UTF-8 encoding of the Python [str].  On ASCII
      strings [str.lower], [len] and the matching of the regular
      expressions made of ordinary characters and the dot are computed
      here; as soon as a string is not ASCII they are the host's
      ([Py.Unicode], [Re.Engine]), and a property that needs to know
      their result says that its text is ASCII.
    - A table is its set of columns and its list of rows; dtypes are not
      recorded.
    - Library calls whose result no property below depends on are fields
      of the classes [Os.Path] (path functions), [Re.Engine] (regular
      expressions beyond ordinary characters and the dot), [Pd.Host]
      ([select_dtypes], [sort_values]), [SearchModel.Repr] ([str] of
      the search parameters) and [SetUp.Excel] (what [pd.read_excel]
      makes of a spreadsheet).
    - The file system is reliable: a write to an existing directory and the
      removal of a listed file succeed, so that [save_database] returns
      [True] and the properties of the calls that write describe them on
      a disk that takes the write.  Reading the size of a file that does
      not exist raises [OSError], as [os.path.getsize] does.
    - [os.access] answers [True] for a file that exists and that the
      class [AccessChecks.Permissions] lets read.
    - Of [MetadataModel], [get_statistics] is left out; of
      [MetadataManager], [get_unique_values] and the set-up of its
      storage. *)

From Stdlib Require Import ZArith Ascii String List Lia.
From stdpp Require Import base option list strings gmap sorting pretty.

Local Open Scope string_scope.
Local Open Scope Z_scope.

(** ** Python values and exceptions *)

Module Py.

(** [datetime.datetime], to the second. *)
Record datetime := Datetime {
  year : N; month : N; day : N;
  hour : N; minute : N; second : N }.

#[global] Instance datetime_eq_dec : EqDecision datetime.
Proof. solve_decision. Defined.

(** The objects found in a cell of the table or in a record (a [Dict]):
    text, a number ([file_size]), a time stamp, or the missing value
    ([NaN], what pandas puts where a row has no entry for a column). *)
Inductive value :=
  | VStr (s : string)
  | VInt (n : Z)
  | VTime (t : datetime)
  | VNaN.

#[global] Instance value_eq_dec : EqDecision value.
Proof. solve_decision. Defined.

Inductive exn :=
  | KeyError (key : string)
  | OSError (path : string)
  | TypeError
  | AttributeError (attr : string)
  | ReError.

#[global] Instance exn_eq_dec : EqDecision exn.
Proof. solve_decision. Defined.

(** The outcome of an expression that may raise. *)
Inductive exc (A : Type) :=
  | Ok (a : A)
  | Raise (e : exn).
Arguments Ok {A} a.
Arguments Raise {A} e.

#[global] Instance exc_eq_dec {A} `{EqDecision A} : EqDecision (exc A).
Proof. solve_decision. Defined.

#[global] Instance exc_ret : MRet exc := fun A a => Ok a.
#[global] Instance exc_bind : MBind exc := fun A B k m =>
  match m with
  | Ok a => k a
  | Raise e => Raise e
  end.

(** The state-and-exception monad of a method body. *)
Definition M (S A : Type) : Type := S -> exc A * S.

#[global] Instance M_ret {S} : MRet (M S) := fun A a s => (Ok a, s).
#[global] Instance M_bind {S} : MBind (M S) := fun A B k m s =>
  match m s with
  | (Ok a, s') => k a s'
  | (Raise e, s') => (Raise e, s')
  end.

Definition get {S} : M S S := fun s => (Ok s, s).
Definition gets {S A} (f : S -> A) : M S A := fun s => (Ok (f s), s).
Definition modify {S} (f : S -> S) : M S unit := fun s => (Ok tt, f s).
Definition raise {S A} (e : exn) : M S A := fun s => (Raise e, s).
Definition lift {S A} (r : exc A) : M S A := fun s => (r, s).

(** [try: body  except Exception as e: handler e]. *)
Definition try_except {S A} (body : M S A) (handler : exn -> M S A) : M S A :=
  fun s =>
    match body s with
    | (Ok a, s') => (Ok a, s')
    | (Raise e, s') => handler e s'
    end.

(** [for x in xs: body x]. *)
Fixpoint for_each {S A} (xs : list A) (body : A -> M S unit) : M S unit :=
  match xs with
  | [] => mret tt
  | x :: xs' => body x;; for_each xs' body
  end.

(** [respects R m]: whatever [m] returns or raises, the state it leaves
    is related by [R] to the state it started from.  [total m]: [m] lets
    no exception out. *)
Definition respects {S A} (R : relation S) (m : M S A) : Prop :=
  forall s, R s (m s).2.

Definition total {S A} (m : M S A) : Prop :=
  forall s, exists a, (m s).1 = Ok a.

(** *** Strings *)

(** A string is the UTF-8 encoding of a Python [str].  [s.isascii()]:
    every character of [s] is below 128, and then it is one byte. *)
Fixpoint isascii (s : string) : bool :=
  match s with
  | EmptyString => true
  | String c s' => (nat_of_ascii c <? 128)%nat && isascii s'
  end.

(** Beyond ASCII, [str.lower] and [len] follow the Unicode tables of the
    host: [str_lower s] and [str_len s] are what they give for a string
    that is not ASCII. *)
Class Unicode := {
  str_lower : string -> string;
  str_len : string -> nat }.

(** On an ASCII string [str.lower] changes the letters [A] to [Z] and
    nothing else. *)
Definition lower_ascii (c : ascii) : ascii :=
  let n := nat_of_ascii c in
  if bool_decide (65 <= n <= 90)%nat then ascii_of_nat (n + 32) else c.

Fixpoint lower_bytes (s : string) : string :=
  match s with
  | EmptyString => EmptyString
  | String c s' => String (lower_ascii c) (lower_bytes s')
  end.

(** [s.lower()]. *)
Definition lower `{Unicode} (s : string) : string :=
  if isascii s then lower_bytes s else str_lower s.

(** [len(s)], the number of characters. *)
Definition len_str `{Unicode} (s : string) : nat :=
  if isascii s then String.length s else str_len s.

(** [needle in hay]: in UTF-8 a string occurs in another as a sequence
    of characters exactly when it occurs as a sequence of bytes. *)
Fixpoint contains (needle hay : string) : bool :=
  String.prefix needle hay
  || match hay with
     | EmptyString => false
     | String _ hay' => contains needle hay'
     end.

(** [s.startswith(p)]. *)
Definition startswith (s p : string) : bool := String.prefix p s.

(** Truth value of an object, as [if value:] takes it. *)
Definition truthy (v : value) : bool :=
  match v with
  | VStr s => negb (String.eqb s "")
  | VInt n => negb (n =? 0)
  | VTime _ => true
  | VNaN => true
  end.

(** *** Time stamps *)

Definition digit (n : N) : ascii := ascii_of_N (48 + n mod 10).

Definition pad2 (n : N) : string :=
  String (digit (n / 10)) (String (digit n) EmptyString).

Definition pad4 (n : N) : string :=
  String (digit (n / 1000)) (String (digit (n / 100))
    (String (digit (n / 10)) (String (digit n) EmptyString))).

(** [t.strftime("%Y%m%d_%H%M%S")]. *)
Definition strftime (t : datetime) : string :=
  pad4 (year t) +:+ pad2 (month t) +:+ pad2 (day t) +:+ "_" +:+
  pad2 (hour t) +:+ pad2 (minute t) +:+ pad2 (second t).

(** [str(t)], the ISO form with a space. *)
Definition str_datetime (t : datetime) : string :=
  pad4 (year t) +:+ "-" +:+ pad2 (month t) +:+ "-" +:+ pad2 (day t) +:+ " " +:+
  pad2 (hour t) +:+ ":" +:+ pad2 (minute t) +:+ ":" +:+ pad2 (second t).

(** [str(v)]. *)
Definition str (v : value) : string :=
  match v with
  | VStr s => s
  | VInt n => pretty n
  | VTime t => str_datetime t
  | VNaN => "nan"
  end.

(** Chronological order, and the fields a [datetime] can hold (of the
    years, those [%Y] writes with four digits on every platform). *)
Definition datetime_key (t : datetime) : N :=
  (((((year t * 100 + month t) * 100 + day t) * 100 + hour t) * 100
    + minute t) * 100 + second t)%N.

Definition datetime_le (t1 t2 : datetime) : Prop :=
  (datetime_key t1 <= datetime_key t2)%N.

Definition datetime_valid (t : datetime) : Prop :=
  (1000 <= year t <= 9999 /\ month t <= 12 /\ day t <= 31 /\
   hour t <= 23 /\ minute t <= 59 /\ second t <= 59)%N.

(** Comparing field by field, the first difference deciding. *)
Definition lex (c1 c2 : comparison) : comparison :=
  match c1 with Eq => c2 | _ => c1 end.

Definition lex_fields (t1 t2 : datetime) : comparison :=
  lex (year t1 ?= year t2)%N (lex (month t1 ?= month t2)%N
    (lex (day t1 ?= day t2)%N (lex (hour t1 ?= hour t2)%N
      (lex (minute t1 ?= minute t2)%N (second t1 ?= second t2)%N)))).

(** *** Ordering of values and [sorted] *)

Inductive kind := KStr | KInt | KTime | KFloat.

#[global] Instance kind_eq_dec : EqDecision kind.
Proof. solve_decision. Defined.

Definition kind_of (v : value) : kind :=
  match v with
  | VStr _ => KStr
  | VInt _ => KInt
  | VTime _ => KTime
  | VNaN => KFloat
  end.

Definition kind_rank (k : kind) : nat :=
  match k with KStr => 0 | KInt => 1 | KTime => 2 | KFloat => 3 end.

(** [a <= b] between two objects of one kind.  Objects of two kinds are
    never compared by [sorted] below, which raises first; ranking the
    kinds makes the relation total. *)
Definition value_le (a b : value) : Prop :=
  match a, b with
  | VStr s1, VStr s2 => String.le s1 s2
  | VInt n1, VInt n2 => n1 <= n2
  | VTime t1, VTime t2 => datetime_le t1 t2
  | _, _ => (kind_rank (kind_of a) <= kind_rank (kind_of b))%nat
  end.

#[global] Instance value_le_dec : RelDecision value_le.
Proof.
  intros [s1|n1|t1|] [s2|n2|t2|]; simpl; unfold datetime_le; apply _.
Defined.

(** All the objects of the list are of one kind. *)
Definition homogeneous (vs : list value) : bool :=
  match vs with
  | [] => true
  | v :: vs' => forallb (fun w => bool_decide (kind_of w = kind_of v)) vs'
  end.

(** [sorted(vs)] for a list without missing values: comparing a string
    with a number or a time stamp raises [TypeError], and any sort has to
    compare across the kinds when two are present. *)
Definition sorted (vs : list value) : exc (list value) :=
  if homogeneous vs then Ok (merge_sort value_le vs) else Raise TypeError.

End Py.

(** ** Regular expressions, as [re] and pandas' [str.contains] read them *)

Module Re.
Import Py.

(** The characters [re] gives a meaning of their own. *)
Definition special (c : ascii) : bool :=
  existsb (Ascii.eqb c) (list_ascii_of_string ".^$*+?{}[]\|()").

(** The patterns interpreted here: ordinary characters and the dot. *)
Inductive atom :=
  | Lit (c : ascii)
  | Dot.

Fixpoint parse (pat : string) : option (list atom) :=
  match pat with
  | EmptyString => Some []
  | String c pat' =>
      if Ascii.eqb c "." then cons Dot <$> parse pat'
      else if special c then None
      else cons (Lit c) <$> parse pat'
  end.

(** A pattern without special characters, and the atoms it is read as. *)
Fixpoint plain (pat : string) : bool :=
  match pat with
  | EmptyString => true
  | String c pat' => negb (special c) && plain pat'
  end.

Fixpoint literal (pat : string) : list atom :=
  match pat with
  | EmptyString => []
  | String c pat' => Lit c :: literal pat'
  end.

(** One character of an ASCII string against one atom of an ASCII
    pattern; the dot takes anything but a newline, and with
    [re.IGNORECASE] two ASCII characters match when they are one letter
    in either case. *)
Definition atom_matches (ignorecase : bool) (a : atom) (c : ascii) : bool :=
  match a with
  | Lit x =>
      if ignorecase then Ascii.eqb (lower_ascii x) (lower_ascii c)
      else Ascii.eqb x c
  | Dot => negb (Ascii.eqb c "010")
  end.

Fixpoint match_here (ignorecase : bool) (atoms : list atom) (s : string) : bool :=
  match atoms, s with
  | [], _ => true
  | _ :: _, EmptyString => false
  | a :: atoms', String c s' =>
      atom_matches ignorecase a c && match_here ignorecase atoms' s'
  end.

(** [re.search]: a match starting anywhere. *)
Fixpoint search (ignorecase : bool) (atoms : list atom) (s : string) : bool :=
  match_here ignorecase atoms s
  || match s with
     | EmptyString => false
     | String _ s' => search ignorecase atoms s'
     end.

(** The rest is the host's engine.  Patterns using the other special
    characters: [compile_general ignorecase pat] is its matcher, or [None]
    when [re.compile] raises [re.error].  A pattern of the fragment above
    always compiles, and the fragment is interpreted here when the pattern
    and the string searched are both ASCII; when one of them is not,
    characters are no longer bytes and letter case follows the Unicode
    tables: [search_general ignorecase pat s] tells whether the host finds
    a match of [pat] in [s]. *)
Class Engine := {
  compile_general : bool -> string -> option (string -> bool);
  search_general : bool -> string -> string -> bool }.

Definition compile `{Engine} (ignorecase : bool) (pat : string)
  : exc (string -> bool) :=
  match parse pat with
  | Some atoms =>
      Ok (fun s =>
            if isascii pat && isascii s then search ignorecase atoms s
            else search_general ignorecase pat s)
  | None =>
      match compile_general ignorecase pat with
      | Some matcher => Ok matcher
      | None => Raise ReError
      end
  end.

End Re.

(** ** The pandas operations the classes use *)

Module Pd.
Import Py.

(** A row, and a record handed to [pd.DataFrame([record])]: a dictionary
    from column names to objects. *)
Abbreviation row := (gmap string value).

(** A table.  The order of the columns is not recorded (nothing below
    reads it); a row with no entry for a column holds [NaN] there. *)
Record DataFrame := {
  columns : gset string;
  rows : list row }.

#[global] Instance DataFrame_eq_dec : EqDecision DataFrame.
Proof. solve_decision. Defined.

(** [pd.DataFrame()]. *)
Definition empty : DataFrame := {| columns := ∅; rows := [] |}.

(** [pd.DataFrame(columns=cs)]. *)
Definition of_columns (cs : list string) : DataFrame :=
  {| columns := list_to_set cs; rows := [] |}.

(** [pd.DataFrame([record])]. *)
Definition of_record (record : row) : DataFrame :=
  {| columns := dom record; rows := [record] |}.

(** [len(df)]. *)
Definition len (df : DataFrame) : nat := length (rows df).

Definition cell (c : string) (r : row) : value := default VNaN (r !! c).

(** [df[c]]: the column, or [KeyError]. *)
Definition getitem (df : DataFrame) (c : string) : exc (list value) :=
  if decide (c ∈ columns df) then Ok (cell c <$> rows df)
  else Raise (KeyError c).

(** [df[mask]]: the rows where the mask holds. *)
Definition select (df : DataFrame) (mask : list bool) : DataFrame :=
  {| columns := columns df;
     rows := (filter (fun p => p.2 = true) (zip (rows df) mask)).*1 |}.

(** [pd.concat([df1, df2], ignore_index=True)]. *)
Definition concat (df1 df2 : DataFrame) : DataFrame :=
  {| columns := columns df1 ∪ columns df2;
     rows := rows df1 ++ rows df2 |}.

(** [col != v] and [col == v], element by element ([NaN] equals nothing). *)
Definition ne (col : list value) (v : value) : list bool :=
  (fun x => negb (bool_decide (x = v /\ x <> VNaN))) <$> col.

Definition eq (col : list value) (v : value) : list bool :=
  (fun x => bool_decide (x = v /\ x <> VNaN)) <$> col.

(** [col.isin(vs)]: membership; a missing cell is found among [vs] when
    [vs] holds a missing value. *)
Definition isin (col : list value) (vs : list value) : list bool :=
  (fun x => bool_decide (x ∈ vs)) <$> col.

(** [col.dropna()], [col.unique()] (first occurrences, in order). *)
Definition dropna (col : list value) : list value :=
  filter (fun x => x <> VNaN) col.

Fixpoint unique (col : list value) : list value :=
  match col with
  | [] => []
  | x :: col' => x :: filter (fun y => y <> x) (unique col')
  end.

(** The [.str] accessor is refused ([AttributeError]) on a column of
    numbers or of time stamps; it is there on text, on a column mixing
    kinds, and on a column with no value at all (taken with the [object]
    dtype of the table [create_new_database] builds). *)
Definition str_accessor (col : list value) : exc unit :=
  match dropna col with
  | [] => Ok tt
  | v :: vs =>
      if bool_decide (kind_of v <> KStr) && homogeneous (v :: vs)
      then Raise (AttributeError "str")
      else Ok tt
  end.

(** [col.str.contains(pat, case=..., na=False)]: [pat] is a regular
    expression ([regex=True] is the default) searched in every text cell;
    a cell that is not text gives [NaN], which [na=False] turns to
    [False]. *)
Definition str_contains `{Re.Engine} (col : list value) (pat : string)
    (case : bool) : exc (list bool) :=
  str_accessor col;;
  matcher ← Re.compile (negb case) pat;
  mret ((fun x => match x with VStr s => matcher s | _ => false end) <$> col).

(** The dtype-driven operations, left to the host:
    [df.select_dtypes(include=['object'])] (the names of the columns kept)
    and [df.sort_values(by=c, ascending=b)]. *)
Class Host := {
  select_dtypes_object : DataFrame -> list string;
  sort_values : DataFrame -> string -> bool -> exc DataFrame }.

End Pd.

(** ** The host: paths, files, the clock and the log *)

Module Os.
Import Py Pd.

(** [os.path.normpath], [basename], [dirname] and the extension part of
    [splitext]; their results are stored or compared, never inspected. *)
Class Path := {
  normpath : string -> string;
  basename : string -> string;
  dirname : string -> string;
  splitext_ext : string -> string }.

Record FileStat := { st_size : Z; st_mtime : datetime }.

Inductive level := INFO | WARNING | ERROR.

(** One call of [logging.warning] or [logging.error]: the fixed text of
    the message, and the path and the exception interpolated in it. *)
Inductive log_arg := LogPath (path : string) | LogExn (e : exn).
Record log_record := { levelname : level; msg : string; args : list log_arg }.

#[global] Instance level_eq_dec : EqDecision level.
Proof. solve_decision. Defined.
#[global] Instance log_arg_eq_dec : EqDecision log_arg.
Proof. solve_decision. Defined.
#[global] Instance log_record_eq_dec : EqDecision log_record.
Proof. solve_decision. Defined.

(** What the store sees of the machine: the files it may be asked to
    index, the spreadsheet at [excel_path] (if it exists), the directory
    [backup_dir] (file name to content), the successive readings of
    [datetime.now()], and the log. *)
Record World := {
  files : gmap string FileStat;
  excel_file : option DataFrame;
  backup_files : gmap string DataFrame;
  clock : nat -> datetime;
  clock_reads : nat;
  log : list log_record }.

Definition set_excel_file (x : option DataFrame) (w : World) : World :=
  {| files := files w; excel_file := x; backup_files := backup_files w;
     clock := clock w; clock_reads := clock_reads w; log := log w |}.

Definition set_backup_files (b : gmap string DataFrame) (w : World) : World :=
  {| files := files w; excel_file := excel_file w; backup_files := b;
     clock := clock w; clock_reads := clock_reads w; log := log w |}.

Definition tick (w : World) : World :=
  {| files := files w; excel_file := excel_file w;
     backup_files := backup_files w;
     clock := clock w; clock_reads := S (clock_reads w); log := log w |}.

Definition add_log (r : log_record) (w : World) : World :=
  {| files := files w; excel_file := excel_file w;
     backup_files := backup_files w;
     clock := clock w; clock_reads := clock_reads w; log := log w ++ [r] |}.

(** An object together with the machine it runs on. *)
Record Obj (T : Type) := { world : World; self : T }.
Arguments world {T} o.
Arguments self {T} o.

Definition on_world {T} (f : World -> World) (o : Obj T) : Obj T :=
  {| world := f (world o); self := self o |}.

Definition on_self {T} (f : T -> T) (o : Obj T) : Obj T :=
  {| world := world o; self := f (self o) |}.

Section Calls.
Context {T : Type}.

(** [datetime.now()]: the next reading. *)
Definition datetime_now : M (Obj T) datetime := fun o =>
  (Ok (clock (world o) (clock_reads (world o))), on_world tick o).

(** [os.path.getsize(path)], [os.path.getmtime(path)]. *)
Definition getsize (path : string) : M (Obj T) Z := fun o =>
  match files (world o) !! path with
  | Some f => (Ok (st_size f), o)
  | None => (Raise (OSError path), o)
  end.

Definition getmtime (path : string) : M (Obj T) datetime := fun o =>
  match files (world o) !! path with
  | Some f => (Ok (st_mtime f), o)
  | None => (Raise (OSError path), o)
  end.

Definition logging (lv : level) (text : string) (a : list log_arg)
  : M (Obj T) unit :=
  modify (on_world (add_log {| levelname := lv; msg := text; args := a |})).

(** [os.listdir(backup_dir)], in no particular order. *)
Definition listdir_backup_dir : M (Obj T) (list string) :=
  gets (fun o => (map_to_list (backup_files (world o))).*1).

(** [os.remove(os.path.join(backup_dir, name))]. *)
Definition remove_backup (name : string) : M (Obj T) unit := fun o =>
  match backup_files (world o) !! name with
  | Some _ =>
      (Ok tt, on_world (set_backup_files (delete name (backup_files (world o)))) o)
  | None => (Raise (OSError name), o)
  end.

(** [df.to_excel(backup_path, index=False)], [df.to_excel(excel_path,
    index=False)]. *)
Definition to_excel_backup (name : string) (df : DataFrame) : M (Obj T) unit :=
  modify (fun o =>
    on_world (set_backup_files (<[name := df]> (backup_files (world o)))) o).

Definition to_excel (df : DataFrame) : M (Obj T) unit :=
  modify (on_world (set_excel_file (Some df))).

(** [os.path.exists(excel_path)]. *)
Definition excel_exists : M (Obj T) bool :=
  gets (fun o => bool_decide (is_Some (excel_file (world o)))).
End Calls.

End Os.

(** ** [utils_access_safety.py] *)

Module AccessSafety.
Import Py Os.

Record t := { read_only_paths : gset string }.

Section Methods.
Context `{Unicode} `{Path}.

Definition set_protected_paths (paths : list string) : t :=
  {| read_only_paths := list_to_set (normpath <$> paths) |}.

Definition is_protected_path (self : t) (path : string) : bool :=
  let normalized_path := normpath path in
  existsb (fun protected => startswith normalized_path protected)
          (elements (read_only_paths self)).
End Methods.

End AccessSafety.

(** ** [models_metadata_model.py] *)

Module MetadataModel.
Import Py Pd Os.

Record t := {
  safety : AccessSafety.t;
  metadata_df : DataFrame;
  metadata_cache : gmap string row }.

Definition set_metadata_df (df : DataFrame) (m : t) : t :=
  {| safety := safety m; metadata_df := df;
     metadata_cache := metadata_cache m |}.

Definition set_metadata_cache (c : gmap string row) (m : t) : t :=
  {| safety := safety m; metadata_df := metadata_df m; metadata_cache := c |}.

(** A search criterion: one object, or a list of objects. *)
Inductive criterion :=
  | Scalar (v : value)
  | Values (vs : list value).

#[global] Instance criterion_eq_dec : EqDecision criterion.
Proof. solve_decision. Defined.

Definition criterion_truthy (c : criterion) : bool :=
  match c with
  | Scalar v => truthy v
  | Values vs => negb (bool_decide (vs = []))
  end.

Definition schema : list string :=
  [ "file_path"; "file_name"; "file_location"; "file_extension";
    "file_size"; "date_added"; "last_modified";
    "project_number"; "department"; "area";
    "type"; "source"; "revision"; "issue_status"; "work_status";
    "scale"; "paper_size";
    "applicable_codes"; "equipment_tags"; "related_documents";
    "priority"; "milestone"; "contract_phase"; "budget_code";
    "deliverable_id"; "approved_by"; "comments" ].

Abbreviation state := (Obj t).

Section Methods.
Context `{Unicode} `{Path} `{Re.Engine}.

Definition the_df : M state DataFrame := gets (fun o => metadata_df (self o)).
Definition assign_df (df : DataFrame) : M state unit :=
  modify (on_self (set_metadata_df df)).

Definition save_database : M state bool :=
  try_except
    (df ← the_df;
     to_excel df;;
     mret true)
    (fun e =>
       logging ERROR "Error saving metadata: " [LogExn e];;
       mret false).

Definition create_new_database : M state unit :=
  assign_df (of_columns schema);;
  save_database;;
  mret tt.

Fixpoint cleanup_loop (max_backups : nat) (backups : list string)
  : M state unit :=
  match backups with
  | [] => mret tt
  | oldest :: rest =>
      if decide (max_backups < length backups)%nat
      then remove_backup oldest;; cleanup_loop max_backups rest
      else mret tt
  end.

(** The names are sorted as [os.path.join(backup_dir, f)], that is with
    one and the same prefix in front, which does not change their order. *)
Definition cleanup_old_backups (max_backups : nat) : M state unit :=
  try_except
    (names ← listdir_backup_dir;
     let backups := merge_sort String.le names in
     cleanup_loop max_backups backups)
    (fun e => logging ERROR "Error cleaning up backups: " [LogExn e]).

Definition backup_current_metadata : M state unit :=
  try_except
    (present ← excel_exists;
     if present : bool then
       now ← datetime_now;
       let timestamp := strftime now in
       let backup_path := "metadata_backup_" +:+ timestamp +:+ ".xlsx" in
       df ← the_df;
       to_excel_backup backup_path df;;
       cleanup_old_backups 10
     else mret tt)
    (fun e => logging ERROR "Error creating metadata backup: " [LogExn e]).

(** The dictionary [add_files_basic_metadata] builds for one file. *)
Definition basic_record (file_path : string) (size : Z)
    (date_added mtime : datetime) : row :=
  list_to_map
    [ ("file_path", VStr file_path);
      ("file_name", VStr (basename file_path));
      ("file_location", VStr (dirname file_path));
      ("file_extension", VStr (lower (splitext_ext file_path)));
      ("file_size", VInt size);
      ("date_added", VTime date_added);
      ("last_modified", VTime mtime);
      ("project_number", VStr ""); ("department", VStr "");
      ("area", VStr ""); ("type", VStr ""); ("source", VStr "");
      ("revision", VStr ""); ("issue_status", VStr "");
      ("work_status", VStr ""); ("scale", VStr "");
      ("paper_size", VStr ""); ("applicable_codes", VStr "");
      ("equipment_tags", VStr ""); ("related_documents", VStr "");
      ("priority", VStr ""); ("milestone", VStr "");
      ("contract_phase", VStr ""); ("budget_code", VStr "");
      ("deliverable_id", VStr ""); ("approved_by", VStr "");
      ("comments", VStr "") ].

Definition basic_metadata (file_path : string) : M state row :=
  size ← getsize file_path;
  date_added ← datetime_now;
  mtime ← getmtime file_path;
  mret (basic_record file_path size date_added mtime).

(** [self.metadata_df = self.metadata_df[self.metadata_df['file_path']
    != file_path]]. *)
Definition remove_existing_entry (file_path : string) : M state unit :=
  df ← the_df;
  col ← lift (getitem df "file_path");
  assign_df (select df (ne col (VStr file_path))).

(** [self.metadata_df = pd.concat([self.metadata_df,
    pd.DataFrame([metadata])], ignore_index=True)]. *)
Definition add_entry (metadata : row) : M state unit :=
  df ← the_df;
  assign_df (concat df (of_record metadata)).

Definition add_files_basic_metadata (file_paths : list string)
  : M state bool :=
  try_except
    (backup_current_metadata;;
     for_each file_paths (fun file_path =>
       metadata ← basic_metadata file_path;
       remove_existing_entry file_path;;
       add_entry metadata);;
     save_database)
    (fun e =>
       logging ERROR "Error adding basic metadata: " [LogExn e];;
       mret false).

Definition get_metadata (file_path : string) : M state (option row) :=
  try_except
    (cache ← gets (fun o => metadata_cache (self o));
     match cache !! file_path with
     | Some cached => mret (Some cached)
     | None =>
         df ← the_df;
         col ← lift (getitem df "file_path");
         let file_data := select df (eq col (VStr file_path)) in
         match rows file_data with
         | [] => mret None
         | first :: _ =>
             let metadata :=
               list_to_map ((fun c => (c, cell c first))
                              <$> elements (columns file_data)) in
             modify (on_self (fun m =>
               set_metadata_cache (<[file_path := metadata]> (metadata_cache m)) m));;
             mret (Some metadata)
         end
     end)
    (fun e =>
       logging ERROR "Error retrieving metadata for "
               [LogPath file_path; LogExn e];;
       mret None).

(** One turn of the loop of [search_metadata]. *)
Definition search_step (result : DataFrame) (term : string * criterion)
  : exc DataFrame :=
  let '(field, value) := term in
  if criterion_truthy value then
    match value with
    | Values vs =>
        col ← getitem result field;
        mret (select result (isin col vs))
    | Scalar v =>
        col ← getitem result field;
        mask ← str_contains col (str v) false;
        mret (select result mask)
    end
  else mret result.

Fixpoint search_loop (result : DataFrame)
    (search_terms : list (string * criterion)) : exc DataFrame :=
  match search_terms with
  | [] => mret result
  | term :: rest =>
      result' ← search_step result term;
      search_loop result' rest
  end.

Definition search_metadata (search_terms : list (string * criterion))
  : M state DataFrame :=
  try_except
    (df ← the_df;
     lift (search_loop df search_terms))
    (fun e =>
       logging ERROR "Error searching metadata: " [LogExn e];;
       mret Pd.empty).

Definition get_unique_values (field : string) : M state (list value) :=
  try_except
    (df ← the_df;
     if decide (field ∈ columns df) then
       col ← lift (getitem df field);
       lift (sorted (unique (dropna col)))
     else mret [])
    (fun e =>
       logging ERROR "Error getting unique values: " [LogExn e];;
       mret []).

Definition update_metadata (file_path : string) (metadata : row)
  : M state bool :=
  try_except
    (protected ← gets (fun o =>
       AccessSafety.is_protected_path (safety (self o)) file_path);
     if protected : bool then
       logging WARNING "Attempted to update protected file metadata: "
               [LogPath file_path];;
       mret false
     else
       now ← datetime_now;
       let metadata := <["last_modified" := VTime now]> metadata in
       remove_existing_entry file_path;;
       add_entry metadata;;
       modify (on_self (fun m =>
         set_metadata_cache (<[file_path := metadata]> (metadata_cache m)) m));;
       backup_current_metadata;;
       save_database)
    (fun e =>
       logging ERROR "Error updating metadata for "
               [LogPath file_path; LogExn e];;
       mret false).

Definition clear_cache : M state unit :=
  modify (on_self (set_metadata_cache ∅)).

Definition get_file_count : M state nat :=
  gets (fun o => len (metadata_df (self o))).
End Methods.

End MetadataModel.

(** ** [utils_metadata_manager.py]

    The attributes of [MetadataManager] its methods touch ([safety],
    [metadata_df], [metadata_cache]) are those of [MetadataModel], and the
    spreadsheet [metadata_file] and the directory [backup_dir] take the
    places of [excel_path] and [backup_dir]; the same record is its
    state.  [cleanup_old_backups] and [search_metadata] are, line for
    line, those of [MetadataModel]. *)

Module MetadataManager.
Import Py Pd Os.
Import MetadataModel (t, safety, metadata_df, metadata_cache,
  set_metadata_cache, criterion, the_df, basic_metadata,
  remove_existing_entry, add_entry).

Abbreviation state := (Obj t).

Section Methods.
Context `{Unicode} `{Path} `{Re.Engine}.

Definition cleanup_old_backups : nat -> M state unit :=
  MetadataModel.cleanup_old_backups.

Definition backup_current_metadata : M state unit :=
  try_except
    (now ← datetime_now;
     let timestamp := strftime now in
     let backup_path := "metadata_backup_" +:+ timestamp +:+ ".xlsx" in
     df ← the_df;
     to_excel_backup backup_path df;;
     cleanup_old_backups 10)
    (fun e => logging ERROR "Error creating metadata backup: " [LogExn e]).

(** The class defines no [save_database]: [self.save_database()] raises
    [AttributeError], which the handler turns into [False]. *)
Definition add_files_basic_metadata (file_paths : list string)
  : M state bool :=
  try_except
    (backup_current_metadata;;
     for_each file_paths (fun file_path =>
       metadata ← basic_metadata file_path;
       remove_existing_entry file_path;;
       add_entry metadata);;
     raise (AttributeError "save_database"))
    (fun e =>
       logging ERROR "Error adding basic metadata: " [LogExn e];;
       mret false).

Definition update_metadata (file_path : string) (metadata : row)
  : M state bool :=
  try_except
    (protected ← gets (fun o =>
       AccessSafety.is_protected_path (safety (self o)) file_path);
     if protected : bool then
       logging WARNING "Attempted to update metadata for protected path: "
               [LogPath file_path];;
       mret false
     else
       now ← datetime_now;
       let metadata := <["modified_date" := VTime now]> metadata in
       let metadata := <["file_path" := VStr file_path]> metadata in
       remove_existing_entry file_path;;
       add_entry metadata;;
       modify (on_self (fun m =>
         set_metadata_cache (<[file_path := metadata]> (metadata_cache m)) m));;
       backup_current_metadata;;
       df ← the_df;
       to_excel df;;
       mret true)
    (fun e =>
       logging ERROR "Error updating metadata for "
               [LogPath file_path; LogExn e];;
       mret false).

Definition search_metadata (criteria : list (string * criterion))
  : M state DataFrame :=
  MetadataModel.search_metadata criteria.

Definition clear_cache : M state unit :=
  modify (on_self (set_metadata_cache ∅)).
End Methods.

End MetadataManager.

(** ** A Python [dict] whose order is read

    [search_cache] is trimmed by position ([list(cache.keys())[:-50]]), so
    it is kept as the list of its items in insertion order. *)

Module Dict.
Import Py.

Section Operations.
Context {V : Type}.

Abbreviation dict := (list (string * V)).

Definition keys (d : dict) : list string := d.*1.

(** [key in d], [d[key]]. *)
Definition mem (key : string) (d : dict) : bool :=
  bool_decide (key ∈ keys d).

Fixpoint get (key : string) (d : dict) : option V :=
  match d with
  | [] => None
  | (k, v) :: d' => if decide (k = key) then Some v else get key d'
  end.

Definition getitem (key : string) (d : dict) : exc V :=
  match get key d with
  | Some v => Ok v
  | None => Raise (KeyError key)
  end.

(** [d[key] = v]: a key already there keeps its place, a new one goes
    last. *)
Fixpoint set (key : string) (v : V) (d : dict) : dict :=
  match d with
  | [] => [(key, v)]
  | (k, w) :: d' =>
      if decide (k = key) then (k, v) :: d' else (k, w) :: set key v d'
  end.

(** [del d[key]]. *)
Definition del (key : string) (d : dict) : exc dict :=
  if mem key d then Ok (filter (fun kv => kv.1 <> key) d)
  else Raise (KeyError key).
End Operations.

End Dict.

(** ** [models_search_model.py] *)

Module SearchModel.
Import Py Pd Os.
Import MetadataModel (criterion, Scalar, Values, criterion_truthy).

(** The dictionary [search_params].  [text], [sort_by] and [sort_order]
    are read with [.get], [filters] with [search_params['filters']]:
    [None] stands for a key that is not there.  For [filters], a value
    that is [None] or an empty dictionary is [Some []]. *)
Record search_params := {
  text : option string;
  filters : option (list (string * criterion));
  sort_by : option string;
  sort_order : option string }.

(** [str(search_params)], the key of the cache. *)
Class Repr := { repr : search_params -> string }.

Inductive signal :=
  | searchStarted
  | searchCompleted (results : DataFrame)
  | searchError (e : exn).

#[global] Instance signal_eq_dec : EqDecision signal.
Proof. solve_decision. Defined.

Record history_entry := {
  params : search_params;
  timestamp : datetime;
  results_count : nat }.

(** The object; [metadata_model] is the store it was built on (the one
    object the rest of the program mutates), [emitted] the signals sent so
    far. *)
Record t := {
  metadata_model : MetadataModel.t;
  search_history : list history_entry;
  max_history : nat;
  search_cache : list (string * DataFrame);
  emitted : list signal }.

Definition set_metadata_model (m : MetadataModel.t) (x : t) : t :=
  {| metadata_model := m; search_history := search_history x;
     max_history := max_history x; search_cache := search_cache x;
     emitted := emitted x |}.

Definition set_search_history (h : list history_entry) (x : t) : t :=
  {| metadata_model := metadata_model x; search_history := h;
     max_history := max_history x; search_cache := search_cache x;
     emitted := emitted x |}.

Definition set_search_cache (c : list (string * DataFrame)) (x : t) : t :=
  {| metadata_model := metadata_model x; search_history := search_history x;
     max_history := max_history x; search_cache := c;
     emitted := emitted x |}.

Definition add_emitted (sg : signal) (x : t) : t :=
  {| metadata_model := metadata_model x; search_history := search_history x;
     max_history := max_history x; search_cache := search_cache x;
     emitted := emitted x ++ [sg] |}.

(** [SearchModel(metadata_model)]. *)
Definition init (m : MetadataModel.t) : t :=
  {| metadata_model := m; search_history := []; max_history := 50;
     search_cache := []; emitted := [] |}.

Abbreviation state := (Obj t).

Section Methods.
Context `{Unicode} `{Path} `{Re.Engine} `{Host} `{Repr}.

Definition emit (sg : signal) : M state unit :=
  modify (on_self (add_emitted sg)).

Definition the_cache : M state (list (string * DataFrame)) :=
  gets (fun o => search_cache (self o)).

Definition store_df : M state DataFrame :=
  gets (fun o => MetadataModel.metadata_df (metadata_model (self o))).

(** A method of the store, run on [self.metadata_model]. *)
Definition on_store {A} (m : M (Obj MetadataModel.t) A) : M state A :=
  fun o =>
    let '(r, o') :=
      m {| world := world o; self := metadata_model (self o) |} in
    (r, {| world := world o';
           self := set_metadata_model (self o') (self o) |}).

(** [mask |= df[column].astype(str).str.lower().str.contains(text_search,
    na=False)], over the columns of [select_dtypes]. *)
Fixpoint text_mask (df : DataFrame) (text_search : string)
    (cols : list string) (mask : list bool) : exc (list bool) :=
  match cols with
  | [] => mret mask
  | column :: cols' =>
      col ← getitem df column;
      hit ← str_contains ((fun v => VStr (lower (str v))) <$> col)
                         text_search true;
      text_mask df text_search cols' (zip_with orb mask hit)
  end.

Definition _build_search_query (search_params : search_params)
  : M state DataFrame :=
  let text_search := lower (default "" (text search_params)) in
  df ← store_df;
  if decide (text_search = "") then mret df
  else
    mask ← lift (text_mask df text_search (select_dtypes_object df)
                           (replicate (len df) false));
    mret (select df mask).

(** One turn of the loop of [_apply_filters]. *)
Definition filter_step (filtered_df : DataFrame) (f : string * criterion)
  : exc DataFrame :=
  let '(field, value) := f in
  if criterion_truthy value && negb (bool_decide (value = Scalar (VStr "All")))
  then
    match value with
    | Values vs =>
        col ← getitem filtered_df field;
        mret (select filtered_df (isin col vs))
    | Scalar v =>
        col ← getitem filtered_df field;
        mret (select filtered_df (eq col v))
    end
  else mret filtered_df.

Fixpoint filter_loop (filtered_df : DataFrame)
    (filters : list (string * criterion)) : exc DataFrame :=
  match filters with
  | [] => mret filtered_df
  | f :: rest =>
      filtered_df' ← filter_step filtered_df f;
      filter_loop filtered_df' rest
  end.

Definition _apply_filters (df : DataFrame)
    (filters : list (string * criterion)) : exc DataFrame :=
  if bool_decide (filters = []) then mret df
  else filter_loop df filters.

Definition _sort_results (df : DataFrame) (sort_by : option string)
    (sort_order : string) : exc DataFrame :=
  match sort_by with
  | Some by_ =>
      if negb (String.eqb by_ "") && bool_decide (by_ ∈ columns df) then
        let ascending := String.eqb (lower sort_order) "asc" in
        sort_values df by_ ascending
      else mret df
  | None => mret df
  end.

Definition cache_results (cache_key : string) (results : DataFrame)
  : M state unit :=
  modify (on_self (fun x =>
    set_search_cache (Dict.set cache_key results (search_cache x)) x));;
  cache ← the_cache;
  if decide (100 < length cache)%nat then
    let all_keys := Dict.keys cache in
    let oldest_keys := take (length all_keys - 50) all_keys in
    for_each oldest_keys (fun key =>
      cache ← the_cache;
      cache' ← lift (Dict.del key cache);
      modify (on_self (set_search_cache cache')))
  else mret tt.

Definition _update_search_history (search_params : search_params)
  : M state unit :=
  now ← datetime_now;
  cache ← the_cache;
  results ← lift (Dict.getitem (repr search_params) cache);
  let entry := {| params := search_params; timestamp := now;
                  results_count := len results |} in
  modify (on_self (fun x => set_search_history (entry :: search_history x) x));;
  history ← gets (fun o => search_history (self o));
  limit ← gets (fun o => max_history (self o));
  if decide (limit < length history)%nat then
    modify (on_self (set_search_history (removelast history)))
  else mret tt.

Definition execute_search (search_params : search_params) : M state unit :=
  try_except
    (emit searchStarted;;
     let cache_key := repr search_params in
     cache ← the_cache;
     match Dict.get cache_key cache with
     | Some cached => emit (searchCompleted cached)
     | None =>
         query_result ← _build_search_query search_params;
         filters ← lift (match filters search_params with
                         | Some f => Ok f
                         | None => Raise (KeyError "filters")
                         end);
         filtered_results ← lift (_apply_filters query_result filters);
         sorted_results ← lift (_sort_results filtered_results
                                  (sort_by search_params)
                                  (default "asc" (sort_order search_params)));
         cache_results cache_key sorted_results;;
         _update_search_history search_params;;
         emit (searchCompleted sorted_results)
     end)
    (fun e =>
       logging ERROR "Search error: " [LogExn e];;
       emit (searchError e)).

Definition clear_search_cache : M state unit :=
  modify (on_self (set_search_cache [])).

Definition clear_search_history : M state unit :=
  modify (on_self (set_search_history [])).
End Methods.

End SearchModel.

(** ** The search cache, as [cache_results] trims it *)

Module CacheOps.
Import Py Pd Os SearchModel.

Definition with_cache (c : list (string * DataFrame)) (st : state) : state :=
  on_self (set_search_cache c) st.

(** The body of the loop [for key in oldest_keys: del
    self.search_cache[key]]. *)
Definition del_body (key : string) : M state unit :=
  cache ← gets (fun o => search_cache (self o));
  cache' ← lift (Dict.del key cache);
  modify (on_self (set_search_cache cache')).

End CacheOps.

(** ** The backup directory, as [cleanup_old_backups] reads it *)

Module BackupDir.
Import Py Pd Os.

(** The name [backup_current_metadata] gives the backup made at [now]. *)
Definition backup_name (now : datetime) : string :=
  "metadata_backup_" +:+ strftime now +:+ ".xlsx".

Definition with_backups {T} (b : gmap string DataFrame) (o : Obj T) : Obj T :=
  on_world (set_backup_files b) o.

(** [sorted(os.listdir(backup_dir))]. *)
Definition sorted_names (b : gmap string DataFrame) : list string :=
  merge_sort String.le (map_to_list b).*1.

(** The names beyond the newest [max_backups], oldest first, and the
    directory without them. *)
Definition doomed (max_backups : nat) (b : gmap string DataFrame)
  : list string :=
  take (length (sorted_names b) - max_backups) (sorted_names b).

Definition prune (max_backups : nat) (b : gmap string DataFrame)
  : gmap string DataFrame :=
  foldl (fun acc name => delete name acc) b (doomed max_backups b).

(** The bound on the directory, as a relation between the states before
    and after a call. *)
Definition bounded {T} (s s' : Obj T) : Prop :=
  (size (backup_files (world s)) <= 10 ->
   size (backup_files (world s')) <= 10)%nat.

End BackupDir.

(** ** Rows by path *)

Module Rows.
Import Py Pd.

(** A row is keyed by [file_path]: that is what its [file_path] cell
    holds. *)
Definition keyed (file_path : string) (r : row) : Prop :=
  cell "file_path" r = VStr file_path.

#[global] Instance keyed_dec p r : Decision (keyed p r).
Proof. unfold keyed. apply _. Defined.

(** The number of records the table holds for a path. *)
Definition count_path (file_path : string) (df : DataFrame) : nat :=
  length (filter (keyed file_path) (rows df)).

(** What the two assignments "remove existing entry" and "add entry" make
    of a table. *)
Definition replace_row (file_path : string) (record : row) (df : DataFrame)
  : DataFrame :=
  concat (select df (ne (cell "file_path" <$> rows df) (VStr file_path)))
         (of_record record).

End Rows.

(** ** What the mutating methods make of the store *)

Module Effects.
Import Py Pd Os Rows MetadataModel.

Section Effects.
Context `{Unicode} `{Path} `{Re.Engine}.

(** The record [update_metadata] stores: the caller's, stamped with the
    reading of the clock. *)
Definition stamped (st : state) (metadata : row) : row :=
  <["last_modified" := VTime (clock (world st) (clock_reads (world st)))]>
    metadata.

(** The store after the in-memory part of a successful [update_metadata]:
    the clock read once, the row replaced, the cache entry written. *)
Definition updated (file_path : string) (metadata : row) (st : state)
  : state :=
  on_self (fun m =>
    set_metadata_cache
      (<[file_path := stamped st metadata]> (metadata_cache m))
      (set_metadata_df
         (replace_row file_path (stamped st metadata) (metadata_df m)) m))
    (on_world tick st).

(** The body of the loop of [add_files_basic_metadata], and the store
    after one turn of it for a file that exists. *)
Definition add_body (file_path : string) : M state unit :=
  metadata ← basic_metadata file_path;
  remove_existing_entry file_path;;
  add_entry metadata.

Definition added (st : state) (file_path : string) : state :=
  match files (world st) !! file_path with
  | Some f =>
      on_self (set_metadata_df
        (replace_row file_path
           (basic_record file_path (st_size f)
              (clock (world st) (clock_reads (world st))) (st_mtime f))
           (metadata_df (self st))))
        (on_world tick st)
  | None => st
  end.

(** The record a call of [add_files_basic_metadata] that takes the store
    from [st] to [st'] builds for a file: the size and the time of
    modification the file system gives, the time the clock gave at one
    of the readings of the call, and the fields of the form blank. *)
Definition indexed_anew (st st' : state) (file_path : string) (r : row)
  : Prop :=
  exists f n,
    files (world st) !! file_path = Some f /\
    (clock_reads (world st) <= n < clock_reads (world st'))%nat /\
    r = basic_record file_path (st_size f) (clock (world st) n) (st_mtime f).

(** The same for [MetadataManager.update_metadata], which stamps
    [modified_date] and writes [file_path] into the record. *)
Definition manager_stamped (file_path : string) (st : state) (metadata : row)
  : row :=
  <["file_path" := VStr file_path]>
    (<["modified_date" := VTime (clock (world st) (clock_reads (world st)))]>
       metadata).

Definition manager_updated (file_path : string) (metadata : row) (st : state)
  : state :=
  on_self (fun m =>
    set_metadata_cache
      (<[file_path := manager_stamped file_path st metadata]> (metadata_cache m))
      (set_metadata_df
         (replace_row file_path (manager_stamped file_path st metadata)
            (metadata_df m)) m))
    (on_world tick st).

End Effects.

End Effects.

(** ** Callers and the reading of the specification *)

(** Any finite sequence of mutating calls on the store, as the main
    window issues them ([handle_files_added], [handle_metadata_changed]). *)
Module Caller.
Import Py Pd Os.

Inductive call :=
  | AddBasic (file_paths : list string)
  | Update (file_path : string) (metadata : row).

Section Run.
Context `{Unicode} `{Path} `{Re.Engine}.

Definition run_call (c : call) : M (Obj MetadataModel.t) bool :=
  match c with
  | AddBasic file_paths => MetadataModel.add_files_basic_metadata file_paths
  | Update file_path metadata =>
      MetadataModel.update_metadata file_path metadata
  end.

Fixpoint run_calls (cs : list call) (st : Obj MetadataModel.t)
  : Obj MetadataModel.t :=
  match cs with
  | [] => st
  | c :: cs' => run_calls cs' (run_call c st).2
  end.

(** The same calls, made on the store a [SearchModel] was built on. *)
Context `{Host} `{SearchModel.Repr}.

Fixpoint run_calls_under_search (cs : list call) (st : Obj SearchModel.t)
  : Obj SearchModel.t :=
  match cs with
  | [] => st
  | c :: cs' =>
      run_calls_under_search cs' (SearchModel.on_store (run_call c) st).2
  end.
End Run.

End Caller.

(** What section 4.2 of the specification says of [search]: a list-valued
    criterion is membership, a scalar one is case-insensitive containment
    of the given text, an empty one is skipped, and the criteria are
    taken together. *)
Module Spec.
Import Py Pd.
Import MetadataModel (criterion, Scalar, Values, criterion_truthy).

Section Reading.
Context `{Unicode}.

Definition icontains (needle hay : string) : bool :=
  contains (lower needle) (lower hay).

Definition text_contains (needle : string) (x : value) : bool :=
  match x with
  | VStr s => icontains needle s
  | _ => false
  end.

Definition criterion_holds (r : row) (term : string * criterion) : bool :=
  let '(field, value) := term in
  if criterion_truthy value then
    match value with
    | Values vs => bool_decide (cell field r ∈ vs)
    | Scalar v => text_contains (str v) (cell field r)
    end
  else true.

Definition search (df : DataFrame) (terms : list (string * criterion))
  : list row :=
  filter (fun r => forallb (criterion_holds r) terms = true) (rows df).

(** The table with the rows one criterion keeps. *)
Definition narrowed (df : DataFrame) (term : string * criterion) : DataFrame :=
  {| columns := columns df;
     rows := filter (fun r => criterion_holds r term = true) (rows df) |}.

End Reading.

End Spec.

(** ** The rows [search_metadata] keeps, as the code reads the criteria *)

Module Criteria.
Import Py Pd.
Import MetadataModel (criterion, Scalar, Values, criterion_truthy).

(** A scalar criterion as [str.contains(str(value), case=False,
    na=False)] reads it: the given text is a regular expression, searched
    with the letter case ignored in a cell that is text; a cell that is
    not text is not kept, and a text that is no regular expression keeps
    no row. *)
Definition text_matches `{Re.Engine} (pat : string) (x : value) : bool :=
  match Re.compile true pat, x with
  | Ok matcher, VStr s => matcher s
  | _, _ => false
  end.

(** What a criterion asks of a row, the rows a list of criteria keeps
    and the table one criterion leaves, for a reading [scalar] of the
    scalar criteria. *)
Definition holds (scalar : string -> value -> bool) (r : row)
    (term : string * criterion) : bool :=
  let '(field, value) := term in
  if criterion_truthy value then
    match value with
    | Values vs => bool_decide (cell field r ∈ vs)
    | Scalar v => scalar (str v) (cell field r)
    end
  else true.

Definition kept (scalar : string -> value -> bool) (df : DataFrame)
    (terms : list (string * criterion)) : list row :=
  filter (fun r => forallb (holds scalar r) terms = true) (rows df).

Definition narrowed (scalar : string -> value -> bool) (df : DataFrame)
    (term : string * criterion) : DataFrame :=
  {| columns := columns df;
     rows := filter (fun r => holds scalar r term = true) (rows df) |}.

End Criteria.

(** ** A host and a store for the examples

    A POSIX machine and paths in normal form, on which [normpath]
    returns its argument.  The examples hold ASCII text only, use no
    pattern outside the fragment [Re.parse] reads and sort nothing they
    depend on, so the host's Unicode tables, its regular expressions and
    the dtype-driven operations are not consulted by them. *)

Module Example.
Import Py Pd Os.

(** [s.rpartition(sep)], when [sep] occurs. *)
Fixpoint split_last (sep : ascii) (s : string) : option (string * string) :=
  match s with
  | EmptyString => None
  | String c s' =>
      match split_last sep s' with
      | Some (before, after) => Some (String c before, after)
      | None => if Ascii.eqb c sep then Some (EmptyString, s') else None
      end
  end.

Definition posix_basename (p : string) : string :=
  match split_last "/" p with
  | Some (_, name) => name
  | None => p
  end.

Definition posix_dirname (p : string) : string :=
  match split_last "/" p with
  | Some (dir, _) => if String.eqb dir "" then "/" else dir
  | None => ""
  end.

Definition posix_ext (p : string) : string :=
  match split_last "." (posix_basename p) with
  | Some (stem, ext) => if String.eqb stem "" then "" else "." +:+ ext
  | None => ""
  end.

#[export] Instance posix : Path := {|
  normpath := fun p => p;
  basename := posix_basename;
  dirname := posix_dirname;
  splitext_ext := posix_ext |}.

#[export] Instance engine : Re.Engine := {|
  Re.compile_general := fun _ _ => None;
  Re.search_general := fun _ _ _ => false |}.

#[export] Instance ascii_text : Unicode := {|
  str_lower := lower_bytes;
  str_len := String.length |}.

Definition is_text (v : value) : bool :=
  match v with VStr _ => true | _ => false end.

Definition by_column (c : string) (r1 r2 : row) : Prop :=
  value_le (cell c r1) (cell c r2).

#[export] Instance by_column_dec c : RelDecision (by_column c).
Proof. intros r1 r2. unfold by_column. apply _. Defined.

#[export] Instance pandas : Host := {|
  select_dtypes_object := fun df =>
    filter (fun c => existsb is_text (cell c <$> rows df) = true)
           (elements (columns df));
  sort_values := fun df c ascending =>
    let present := filter (fun r => cell c r <> VNaN) (rows df) in
    let missing := filter (fun r => cell c r = VNaN) (rows df) in
    if bool_decide (c ∈ columns df) then
      if homogeneous (cell c <$> present) then
        let ordered := merge_sort (by_column c) present in
        Ok {| columns := columns df;
              rows := (if ascending : bool then ordered else reverse ordered)
                        ++ missing |}
      else Raise TypeError
    else Raise (KeyError c) |}.

Definition noon (s : N) : datetime :=
  {| year := 2024; month := 5; day := 17; hour := 12; minute := 0;
     second := s |}.

(** Two local files and one on the protected share; the spreadsheet was
    written by [create_new_database]; no backup yet. *)
Definition machine : World := {|
  files := {[ "/home/u/a.dwg" := {| st_size := 10; st_mtime := noon 1 |};
              "/home/u/b.pdf" := {| st_size := 20; st_mtime := noon 2 |};
              "/net/plan.dwg" := {| st_size := 30; st_mtime := noon 3 |} ]};
  excel_file := Some (of_columns MetadataModel.schema);
  backup_files := ∅;
  clock := fun n => noon (10 + N.of_nat n);
  clock_reads := 0;
  log := [] |}.

Definition store : Obj MetadataModel.t := {|
  world := machine;
  self := {| MetadataModel.safety := AccessSafety.set_protected_paths ["/net"];
             MetadataModel.metadata_df := of_columns MetadataModel.schema;
             MetadataModel.metadata_cache := ∅ |} |}.

(** The record the editor sends for a file: its path and a department;
    and the same with the size as the form shows it, a text. *)
Definition edited (file_path department : string) : row :=
  {[ "file_path" := VStr file_path; "department" := VStr department ]}.

Definition saved_form (file_path department size_text : string) : row :=
  <["file_size" := VStr size_text]> (edited file_path department).

(** The store after the two local files were added and the second was
    edited: one record per file, the first with an empty department and a
    size that is a number, the second in [Civil] with a size that is a
    text. *)
Definition indexed : Obj MetadataModel.t :=
  (MetadataModel.update_metadata "/home/u/b.pdf"
     (saved_form "/home/u/b.pdf" "Civil" "20.0 B")
     (MetadataModel.add_files_basic_metadata
        ["/home/u/a.dwg"; "/home/u/b.pdf"] store).2).2.

(** A rendering of [str(search_params)]: the text, the filters and the
    sort key, in the order the search panel writes them. *)
Definition show_criterion (c : MetadataModel.criterion) : string :=
  match c with
  | MetadataModel.Scalar v => "'" +:+ str v +:+ "'"
  | MetadataModel.Values vs =>
      "[" +:+ String.concat ", " ((fun v => "'" +:+ str v +:+ "'") <$> vs)
          +:+ "]"
  end.

#[export] Instance show_params : SearchModel.Repr := {|
  SearchModel.repr := fun p =>
    "{'text': '" +:+ default "" (SearchModel.text p) +:+ "', 'filters': {"
    +:+ String.concat ", "
          ((fun f => "'" +:+ f.1 +:+ "': " +:+ show_criterion f.2)
             <$> default [] (SearchModel.filters p))
    +:+ "}, 'sort_by': '" +:+ default "" (SearchModel.sort_by p) +:+ "'}" |}.

(** A search model on the indexed store, and one whose cache is full: a
    hundred queries [0] to [99], cached in that order. *)
Definition searching : Obj SearchModel.t :=
  {| world := world indexed; self := SearchModel.init (self indexed) |}.

Definition hundred : list (string * DataFrame) :=
  (fun i : nat => (pretty i, Pd.empty)) <$> seq 0 100.

Definition full : Obj SearchModel.t :=
  on_self (SearchModel.set_search_cache hundred) searching.

Definition civil_query : SearchModel.search_params :=
  {| SearchModel.text := Some "";
     SearchModel.filters := Some [("department", MetadataModel.Scalar (VStr "Civil"))];
     SearchModel.sort_by := None;
     SearchModel.sort_order := None |}.

Definition ghost_query : SearchModel.search_params :=
  {| SearchModel.text := Some "";
     SearchModel.filters := Some [("ghost", MetadataModel.Scalar (VStr "x"))];
     SearchModel.sort_by := None;
     SearchModel.sort_order := None |}.

Definition civil_terms : list (string * MetadataModel.criterion) :=
  [("department", MetadataModel.Scalar (VStr "civ"));
   ("file_path",
    MetadataModel.Values [VStr "/home/u/b.pdf"; VStr "/home/u/c.doc"]);
   ("area", MetadataModel.Scalar (VStr ""))].

(** What a call returned, when it returned. *)
Definition returned {A S : Type} (r : exc A * S) : option A :=
  match r.1 with
  | Ok a => Some a
  | Raise _ => None
  end.

End Example.

(** ** Reading a record of the table *)

Module Lookup.
Import Py Pd Rows.

(** [row.to_dict()] for a row of a table with the given columns. *)
Definition to_dict (columns : gset string) (r : row) : row :=
  list_to_map ((fun c => (c, cell c r)) <$> elements columns).

(** The first record the table holds for a path. *)
Definition first_keyed (file_path : string) (df : DataFrame) : option row :=
  head (filter (keyed file_path) (rows df)).

End Lookup.

(** ** The checks of [utils_access_safety.py] *)

Module AccessChecks.
Import Py Os AccessSafety.

(** The permission part of [os.access(path, os.R_OK)]; the call answers
    [False] for a path that does not exist. *)
Class Permissions := { may_read : string -> bool }.

Section Methods.
Context `{Unicode} `{Path} `{Permissions} {T : Type}.

Definition validate_operation (self : t) (path operation_type : string)
  : M (Obj T) bool :=
  if String.eqb (lower operation_type) "write" && is_protected_path self path
  then
    logging WARNING "Blocked write attempt to protected path: " [LogPath path];;
    mret false
  else mret true.

Definition safe_read_operation (path : string) : M (Obj T) bool :=
  try_except
    (gets (fun o => bool_decide (is_Some (files (world o) !! path))
                    && may_read path))
    (fun e =>
       logging ERROR "Read validation error: " [LogExn e];;
       mret false).

Definition is_modification_operation (operation : string) : bool :=
  let modify_operations : gset string :=
    {[ "write"; "delete"; "move"; "rename"; "create";
       "modify"; "update"; "save"; "edit" ]} in
  bool_decide (lower operation ∈ modify_operations).
End Methods.

End AccessChecks.

(** ** The reading methods of [utils_metadata_manager.py] *)

Module ManagerReads.
Import Py Pd Os AccessChecks.
Import MetadataModel (t, safety, metadata_df, metadata_cache,
  set_metadata_cache, the_df).

Abbreviation state := (Obj t).

Section Methods.
Context `{Unicode} `{Path} `{Permissions}.

Definition create_default_metadata (file_path : string) : M state row :=
  created_date ← datetime_now;
  modified_date ← datetime_now;
  last_indexed ← datetime_now;
  present ← gets (fun o => bool_decide (is_Some (files (world o) !! file_path)));
  file_size ← (if present : bool then getsize file_path else mret 0);
  mret (list_to_map
          [ ("file_path", VStr file_path);
            ("created_date", VTime created_date);
            ("modified_date", VTime modified_date);
            ("last_indexed", VTime last_indexed);
            ("status", VStr "Indexed");
            ("file_size", VInt file_size) ]).

Definition read_metadata (file_path : string) : M state (option row) :=
  try_except
    (readable ← safe_read_operation file_path;
     if negb readable then mret None
     else
       cache ← gets (fun o => metadata_cache (self o));
       match cache !! file_path with
       | Some cached => mret (Some cached)
       | None =>
           df ← the_df;
           col ← lift (getitem df "file_path");
           let file_data := select df (eq col (VStr file_path)) in
           match rows file_data with
           | [] =>
               metadata ← create_default_metadata file_path;
               mret (Some metadata)
           | first :: _ =>
               let metadata :=
                 list_to_map ((fun c => (c, cell c first))
                                <$> elements (columns file_data)) in
               modify (on_self (fun m =>
                 set_metadata_cache
                   (<[file_path := metadata]> (metadata_cache m)) m));;
               mret (Some metadata)
           end
       end)
    (fun e =>
       logging ERROR "Error reading metadata for "
               [LogPath file_path; LogExn e];;
       mret None).
End Methods.

End ManagerReads.

(** ** What a search that is not in the cache computes and records *)

Module Answer.
Import Py Pd Os SearchModel.
Import MetadataModel (criterion, Scalar, Values, criterion_truthy).

(** What one filter of [_apply_filters] asks of a row, and what the free
    text of [_build_search_query] asks of it over the given columns. *)
Definition passes (r : row) (f : string * criterion) : bool :=
  let '(field, value) := f in
  if criterion_truthy value && negb (bool_decide (value = Scalar (VStr "All")))
  then
    match value with
    | Values vs => bool_decide (cell field r ∈ vs)
    | Scalar v => bool_decide (cell field r = v /\ cell field r <> VNaN)
    end
  else true.

Definition mentions `{Unicode} (text_search : string) (cols : list string)
    (r : row) : bool :=
  existsb (fun c => contains text_search (lower (str (cell c r)))) cols.

Section Answer.
Context `{Unicode} `{Path} `{Re.Engine} `{Host} `{Repr}.

(** The three steps of [execute_search] between the look-up in the cache
    and [cache_results], on the table of the store. *)
Definition answer (search_params : search_params) (df : DataFrame)
  : exc DataFrame :=
  let text_search := lower (default "" (text search_params)) in
  query_result ←
    (if decide (text_search = "") then mret df
     else
       mask ← text_mask df text_search (select_dtypes_object df)
                        (replicate (len df) false);
       mret (select df mask));
  filters ← match filters search_params with
            | Some f => Ok f
            | None => Raise (KeyError "filters")
            end;
  filtered_results ← _apply_filters query_result filters;
  _sort_results filtered_results (sort_by search_params)
                (default "asc" (sort_order search_params)).

(** The cache after [cache_results], the history after
    [_update_search_history]. *)
Definition cached (cache_key : string) (results : DataFrame)
    (cache : list (string * DataFrame)) : list (string * DataFrame) :=
  let cache' := Dict.set cache_key results cache in
  if decide (100 < length cache')%nat
  then drop (length cache' - 50) cache' else cache'.

Definition recorded (entry : history_entry) (history : list history_entry)
    (limit : nat) : list history_entry :=
  if decide (limit < length (entry :: history))%nat
  then removelast (entry :: history) else entry :: history.
End Answer.

End Answer.

(** ** Suggestions and popular searches of [models_search_model.py] *)

Module Suggestions.
Import Py Pd Os SearchModel.

(** [list(dict.fromkeys(xs))], and [.unique()] on a column of text: the
    first occurrences, in order. *)
Fixpoint fromkeys (xs : list string) : list string :=
  match xs with
  | [] => []
  | x :: xs' => x :: filter (fun y => y <> x) (fromkeys xs')
  end.

(** [series[mask]] on the values of a column. *)
Definition masked (xs : list string) (mask : list bool) : list string :=
  (filter (fun p => p.2 = true) (zip xs mask)).*1.

(** One value of the dictionary [search_counts]. *)
Record popular := {
  popular_text : string;
  count : nat;
  last_used : datetime }.

#[global] Instance popular_eq_dec : EqDecision popular.
Proof. solve_decision. Defined.

(** The text of a query, as [search['params'].get('text', '')] reads it. *)
Definition text_of (search : history_entry) : string :=
  default "" (text (params search)).

(** [(x['count'], x['last_used']) < (y['count'], y['last_used'])], the
    comparison of the sort keys as tuples. *)
Definition key_lt (x y : popular) : Prop :=
  (count x < count y)%nat \/
  (count x = count y /\
   (datetime_key (last_used x) < datetime_key (last_used y))%N).

#[global] Instance key_lt_dec : RelDecision key_lt.
Proof. intros x y. unfold key_lt. apply _. Defined.

(** [sorted(xs, key=..., reverse=True)]: in descending order of the key,
    the entries with equal keys in the order they came in (the sort is
    stable, and stays so under [reverse=True]). *)
Fixpoint insert_desc (x : popular) (sorted : list popular) : list popular :=
  match sorted with
  | [] => [x]
  | y :: sorted' =>
      if decide (key_lt x y) then y :: insert_desc x sorted'
      else x :: y :: sorted'
  end.

Definition sorted_reverse (xs : list popular) : list popular :=
  foldr insert_desc [] xs.

(** The history entries of one text. *)
Definition searched (search_text : string) (history : list history_entry)
  : list history_entry :=
  filter (fun search => text_of search = search_text) history.

(** The entry [search_counts] ends with for a text: none for the empty
    text or a text never searched, else the number of its searches and
    the time of the first of them in the list, the most recent. *)
Definition entry_of (search_text : string) (history : list history_entry)
  : option popular :=
  if decide (search_text = "") then None
  else
    match searched search_text history with
    | [] => None
    | first :: others =>
        Some {| popular_text := search_text; count := S (length others);
                last_used := timestamp first |}
    end.

(** Not below, in the order of the sort keys. *)
Definition key_ge (x y : popular) : Prop := ~ key_lt x y.

Section Methods.
Context `{Unicode} `{Path} `{Re.Engine} `{Host} `{Repr}.

(** The loop over [search_history] of [get_search_suggestions]. *)
Fixpoint recent_matches (partial_text : string) (history : list history_entry)
  : exc (list string) :=
  match history with
  | [] => mret []
  | search :: rest =>
      if contains (lower partial_text) (lower (text_of search)) then
        suggestion ← match text (params search) with
                     | Some t => Ok t
                     | None => Raise (KeyError "text")
                     end;
        suggestions ← recent_matches partial_text rest;
        mret (suggestion :: suggestions)
      else recent_matches partial_text rest
  end.

(** The loop over the columns of [select_dtypes]. *)
Fixpoint value_matches (df : DataFrame) (partial_text : string)
    (cols : list string) : exc (list string) :=
  match cols with
  | [] => mret []
  | column :: cols' =>
      col ← getitem df column;
      let column_values := str <$> col in
      hit ← str_contains ((fun s => VStr (lower s)) <$> column_values)
                         (lower partial_text) true;
      let matches := fromkeys (masked column_values hit) in
      suggestions ← value_matches df partial_text cols';
      mret (matches ++ suggestions)%list
  end.

Definition get_search_suggestions (partial_text : string)
  : M state (list string) :=
  if decide (len_str partial_text < 2)%nat then mret []
  else
    history ← gets (fun o => search_history (self o));
    recent ← lift (recent_matches partial_text history);
    df ← store_df;
    values ← lift (value_matches df partial_text (select_dtypes_object df));
    mret (take 10 (fromkeys (recent ++ values)%list)).

(** One turn of the loop of [get_popular_searches]. *)
Definition tally (search_counts : list (string * popular))
    (search : history_entry) : list (string * popular) :=
  let search_text := text_of search in
  if decide (search_text = "") then search_counts
  else
    match Dict.get search_text search_counts with
    | Some entry =>
        Dict.set search_text
          {| popular_text := popular_text entry; count := S (count entry);
             last_used := last_used entry |}
          search_counts
    | None =>
        Dict.set search_text
          {| popular_text := search_text; count := 1;
             last_used := timestamp search |}
          search_counts
    end.

Definition get_popular_searches : M state (list popular) :=
  history ← gets (fun o => search_history (self o));
  let search_counts := foldl tally [] history in
  let popular_searches := sorted_reverse search_counts.*2 in
  mret (take 5 popular_searches).
End Methods.

End Suggestions.

(** ** The columns of the table along the calls *)

Module Columns.
Import Py Pd Os MetadataModel.

(** The columns a call finds are there when it returns, and the safety
    gate is the one it found. *)
Definition grows (s s' : state) : Prop :=
  columns (metadata_df (self s)) ⊆ columns (metadata_df (self s')) /\
  safety (self s') = safety (self s).

End Columns.

(** ** The set-up of [models_metadata_model.py] *)

Module SetUp.
Import Py Pd Os MetadataModel.

(** [pd.read_excel] of a spreadsheet does not give back the table
    [to_excel] wrote there: a cell holding the empty text comes back as a
    missing value and the dtypes are inferred anew.  [read_back df] is
    the table pandas reads from the spreadsheet written from [df]. *)
Class Excel := { read_back : DataFrame -> DataFrame }.

Section Methods.
Context `{Unicode} `{Path} `{Re.Engine} `{Excel}.

(** [os.makedirs(name, exist_ok=True)]: the empty path, which is what
    [os.path.dirname] gives for a file name with no directory in front,
    is refused with [FileNotFoundError], an [OSError]; any other
    directory is there afterwards. *)
Definition makedirs (name : string) : M state unit :=
  if decide (name = "") then raise (OSError name) else mret tt.

(** [pd.read_excel(self.excel_path)]. *)
Definition read_excel (excel_path : string) : M state DataFrame :=
  o ← get;
  match excel_file (world o) with
  | Some df => mret (read_back df)
  | None => raise (OSError excel_path)
  end.

(** [setup_model], which [__init__] runs on the [excel_path] it is
    given. *)
Definition setup_model (excel_path : string) : M state unit :=
  try_except
    (makedirs (dirname excel_path);;
     makedirs "metadata_backups";;
     present ← excel_exists;
     if present : bool then
       df ← read_excel excel_path;
       assign_df df
     else create_new_database)
    (fun e =>
       logging ERROR "Error initializing metadata model: " [LogExn e];;
       create_new_database).
End Methods.

End SetUp.

(** ** More of the example store: a readable machine and three searches *)

Module Sample.
Import Py Pd Os Example.

(** Every file may be read. *)
#[export] Instance readable : AccessChecks.Permissions :=
  {| AccessChecks.may_read := fun _ => true |}.

(** Reading the spreadsheet of the examples: the cells that held the
    empty text come back missing. *)
Definition without_blanks (r : row) : row :=
  filter (fun entry => entry.2 <> VStr "") r.

#[export] Instance blanks_missing : SetUp.Excel :=
  {| SetUp.read_back := fun df =>
       {| columns := columns df; rows := without_blanks <$> rows df |} |}.

(** The store with backups made at the given times in its backup
    directory: a full directory, with the ten backups of the seconds 0
    to 9 after noon, all older than the clock of the machine, and one
    that holds twelve, as when files were put there by hand: the same
    ten and two of the minute before. *)
Definition before_noon (s : N) : datetime :=
  {| year := 2024; month := 5; day := 17; hour := 11; minute := 59;
     second := s |}.

Definition backups_of (times : list datetime) : gmap string DataFrame :=
  list_to_map
    ((fun t => (BackupDir.backup_name t, of_columns MetadataModel.schema))
       <$> times).

Definition crowded : Obj MetadataModel.t :=
  BackupDir.with_backups
    (backups_of (noon <$> [0; 1; 2; 3; 4; 5; 6; 7; 8; 9]%N)) store.

Definition overfull : Obj MetadataModel.t :=
  BackupDir.with_backups
    (backups_of (before_noon 58 :: before_noon 59
                   :: (noon <$> [0; 1; 2; 3; 4; 5; 6; 7; 8; 9]%N))) store.

(** The indexed store with two records for the file of the protected
    share, one in [Civil] and one in [Roads], as an earlier session may
    have left them. *)
Definition shared : Obj MetadataModel.t :=
  on_self (fun m =>
    MetadataModel.set_metadata_df
      (concat (concat (MetadataModel.metadata_df m)
                      (of_record (edited "/net/plan.dwg" "Civil")))
              (of_record (edited "/net/plan.dwg" "Roads"))) m)
    indexed.

(** A free-text query, and one with a filter beside the text. *)
Definition text_query (t : string) : SearchModel.search_params :=
  {| SearchModel.text := Some t; SearchModel.filters := Some [];
     SearchModel.sort_by := None; SearchModel.sort_order := None |}.

Definition civil_text_query : SearchModel.search_params :=
  {| SearchModel.text := Some "Civ";
     SearchModel.filters :=
       Some [("department", MetadataModel.Scalar (VStr "Civil"));
             ("area", MetadataModel.Scalar (VStr "All"))];
     SearchModel.sort_by := None; SearchModel.sort_order := None |}.

(** The search model after three searches: [Civ], [dwg], and [Civ] again
    with the filter. *)
Definition after_searches : Obj SearchModel.t :=
  (SearchModel.execute_search civil_text_query
     (SearchModel.execute_search (text_query "dwg")
        (SearchModel.execute_search (text_query "Civ") searching).2).2).2.

(** The one record in [Civil]. *)
Definition civil_rows : DataFrame :=
  select (MetadataModel.metadata_df (self indexed))
         (eq (cell "department" <$> rows (MetadataModel.metadata_df (self indexed)))
             (VStr "Civil")).
End Sample.

(** * Properties *)

(** ** Reasoning about method bodies *)

Module Hoare.
Import Py.

Section Rules.
Context {S : Type} (R : relation S) `{!PreOrder R}.

Lemma respects_ret {A} (a : A) : respects R (mret a : M S A).
Proof. intros s. simpl. reflexivity. Qed.

Lemma respects_gets {A} (f : S -> A) : respects R (gets f).
Proof. intros s. simpl. reflexivity. Qed.

Lemma respects_lift {A} (r : exc A) : respects R (lift r : M S A).
Proof. intros s. simpl. reflexivity. Qed.

Lemma respects_raise {A} e : respects R (raise e : M S A).
Proof. intros s. simpl. reflexivity. Qed.

Lemma respects_modify (f : S -> S) :
  (forall s, R s (f s)) -> respects R (modify f).
Proof. intros Hf s. apply Hf. Qed.

Lemma respects_bind {A B} (m : M S A) (k : A -> M S B) :
  respects R m -> (forall a, respects R (k a)) -> respects R (m ≫= k).
Proof.
  intros Hm Hk s. unfold mbind, M_bind. specialize (Hm s).
  destruct (m s) as [[a|e] s']; simpl in *; [|done].
  etransitivity; [exact Hm | apply Hk].
Qed.

Lemma respects_try_except {A} (body : M S A) (handler : exn -> M S A) :
  respects R body -> (forall e, respects R (handler e)) ->
  respects R (try_except body handler).
Proof.
  intros Hb Hh s. unfold try_except. specialize (Hb s).
  destruct (body s) as [[a|e] s']; simpl in *; [done|].
  etransitivity; [exact Hb | apply Hh].
Qed.

Lemma respects_for_each {A} (xs : list A) (body : A -> M S unit) :
  (forall x, respects R (body x)) -> respects R (for_each xs body).
Proof.
  intros Hb. induction xs as [|x xs IH]; simpl.
  - apply respects_ret.
  - apply respects_bind; auto.
Qed.
End Rules.

Lemma respects_weaken {S A} (R R' : relation S) (m : M S A) :
  (forall s s', R s s' -> R' s s') -> respects R m -> respects R' m.
Proof. intros HR Hm s. apply HR, Hm. Qed.

Lemma total_try_except {S A} (body : M S A) (handler : exn -> M S A) :
  (forall e, total (handler e)) -> total (try_except body handler).
Proof.
  intros Hh s. unfold try_except.
  destruct (body s) as [[a|e] s']; simpl; [eauto | apply Hh].
Qed.

End Hoare.

(** ** Lists *)

Module ListFacts.

Lemma filter_all {A} (P : A -> Prop) `{forall x, Decision (P x)} (l : list A) :
  (forall x, x ∈ l -> P x) -> filter P l = l.
Proof.
  induction l as [|x l IH]; intros Hl; [done|].
  rewrite filter_cons_True by (apply Hl; left).
  rewrite IH; [done|]. intros y Hy. apply Hl. by right.
Qed.

Lemma filter_none {A} (P : A -> Prop) `{forall x, Decision (P x)} (l : list A) :
  (forall x, x ∈ l -> ~ P x) -> filter P l = [].
Proof.
  induction l as [|x l IH]; intros Hl; [done|].
  rewrite filter_cons_False by (apply Hl; left).
  apply IH. intros y Hy. apply Hl. by right.
Qed.

Lemma filter_ext_in {A} (P Q : A -> Prop) `{forall x, Decision (P x)}
    `{forall x, Decision (Q x)} (l : list A) :
  (forall x, x ∈ l -> P x <-> Q x) -> filter P l = filter Q l.
Proof.
  induction l as [|x l IH]; intros Hl; [done|].
  assert (filter P l = filter Q l) as IH'.
  { apply IH. intros y Hy. apply Hl. by right. }
  destruct (decide (P x)) as [Hp|Hp].
  - rewrite !filter_cons_True; [by rewrite IH'|by apply Hl; [left|]|done].
  - rewrite !filter_cons_False; [done| |done].
    intros Hq. apply Hp, Hl; [left|done].
Qed.

End ListFacts.

(** ** Names of backups and the order of time *)

Module TimeStamps.
Import Py BackupDir.

Lemma compare_app (a1 a2 b1 b2 : string) :
  String.length a1 = String.length a2 ->
  String.compare (a1 +:+ b1) (a2 +:+ b2)
  = lex (String.compare a1 a2) (String.compare b1 b2).
Proof.
  revert a2. induction a1 as [|c1 a1 IH]; intros [|c2 a2] Hlen; simpl in *; try done.
  destruct (Ascii.compare c1 c2); simpl; [|done..].
  apply IH. congruence.
Qed.

Lemma compare_refl (s : string) : String.compare s s = Eq.
Proof.
  induction s as [|c s IH]; simpl; [done|].
  unfold Ascii.compare. by rewrite N.compare_refl.
Qed.

Lemma compare_le (s1 s2 : string) :
  String.le s1 s2 <-> String.compare s1 s2 <> Gt.
Proof.
  unfold String.le, String.leb. destruct (String.compare s1 s2); simpl; split; try done.
Qed.

Lemma digit_compare (a b : N) :
  Ascii.compare (digit a) (digit b) = ((a mod 10) ?= (b mod 10))%N.
Proof.
  unfold Ascii.compare, digit.
  assert (forall n, (n mod 10 < 10)%N) as Hlt by (intros n; by apply N.mod_lt).
  rewrite !N_ascii_embedding by (pose proof (Hlt a); pose proof (Hlt b); lia).
  destruct (N.compare_spec (a mod 10) (b mod 10));
    first [apply N.compare_eq_iff | apply N.compare_lt_iff | apply N.compare_gt_iff]; lia.
Qed.

(** Comparing quotient first and remainder next is comparing the numbers. *)
Lemma lex_quot_rem (k qa ra qb rb : N) :
  (ra < k)%N -> (rb < k)%N ->
  lex (qa ?= qb)%N (ra ?= rb)%N = (k * qa + ra ?= k * qb + rb)%N.
Proof.
  intros Hra Hrb.
  destruct (N.compare_spec qa qb) as [Hq|Hq|Hq]; simpl.
  - subst qb. set (q := (k * qa)%N). clearbody q.
    destruct (N.compare_spec ra rb); symmetry;
      first [apply N.compare_eq_iff | apply N.compare_lt_iff | apply N.compare_gt_iff]; lia.
  - symmetry. apply N.compare_lt_iff.
    assert (k * (qa + 1) <= k * qb)%N as Hm by (apply N.mul_le_mono_l; lia).
    rewrite N.mul_add_distr_l, N.mul_1_r in Hm.
    set (x := (k * qa)%N) in *. set (y := (k * qb)%N) in *. clearbody x y. lia.
  - symmetry. apply N.compare_gt_iff.
    assert (k * (qb + 1) <= k * qa)%N as Hm by (apply N.mul_le_mono_l; lia).
    rewrite N.mul_add_distr_l, N.mul_1_r in Hm.
    set (x := (k * qa)%N) in *. set (y := (k * qb)%N) in *. clearbody x y. lia.
Qed.

Lemma lex_div_mod (k a b : N) :
  (0 < k)%N ->
  lex (a / k ?= b / k)%N (a mod k ?= b mod k)%N = (a ?= b)%N.
Proof.
  intros Hk.
  rewrite (lex_quot_rem k) by (apply N.mod_lt; lia).
  by rewrite <- !N.div_mod by lia.
Qed.

Lemma digit_mod (a b : N) : (a mod 10 = b mod 10)%N -> digit a = digit b.
Proof. unfold digit. by intros ->. Qed.

Lemma pad2_compare (a b : N) :
  (a < 100)%N -> (b < 100)%N ->
  String.compare (pad2 a) (pad2 b) = (a ?= b)%N.
Proof.
  intros Ha Hb. unfold pad2. simpl. rewrite !digit_compare.
  rewrite (N.mod_small (a / 10) 10) by (apply N.Div0.div_lt_upper_bound; lia).
  rewrite (N.mod_small (b / 10) 10) by (apply N.Div0.div_lt_upper_bound; lia).
  rewrite <- (lex_div_mod 10 a b) by lia.
  destruct (a / 10 ?= b / 10)%N; simpl; [|done..].
  by destruct (a mod 10 ?= b mod 10)%N.
Qed.

Lemma pad4_split (a : N) : pad4 a = pad2 (a / 100) +:+ pad2 (a mod 100).
Proof.
  unfold pad4, pad2. simpl.
  rewrite (digit_mod (a / 1000) (a / 100 / 10)).
  2:{ by rewrite N.Div0.div_div. }
  rewrite (digit_mod (a / 10) (a mod 100 / 10)).
  2:{ zify. Z.to_euclidean_division_equations. lia. }
  rewrite (digit_mod a (a mod 100)).
  2:{ zify. Z.to_euclidean_division_equations. lia. }
  done.
Qed.

Lemma pad2_length (a : N) : String.length (pad2 a) = 2%nat.
Proof. done. Qed.

Lemma pad4_compare (a b : N) :
  (a < 10000)%N -> (b < 10000)%N ->
  String.compare (pad4 a) (pad4 b) = (a ?= b)%N.
Proof.
  intros Ha Hb. rewrite !pad4_split, compare_app by done.
  rewrite !pad2_compare; try (apply N.mod_lt; lia);
    try (apply N.Div0.div_lt_upper_bound; lia).
  apply lex_div_mod. lia.
Qed.

Lemma lex_Eq_l c : lex Eq c = c.
Proof. done. Qed.

Lemma lex_Eq_r c : lex c Eq = c.
Proof. by destruct c. Qed.

Lemma strftime_compare (t1 t2 : datetime) :
  datetime_valid t1 -> datetime_valid t2 ->
  String.compare (strftime t1) (strftime t2) = lex_fields t1 t2.
Proof.
  intros ([? ?]&?&?&?&?&?) ([? ?]&?&?&?&?&?). unfold strftime, lex_fields.
  rewrite compare_app by done. rewrite pad4_compare by lia. f_equal.
  rewrite compare_app by done. rewrite pad2_compare by lia. f_equal.
  rewrite compare_app by done. rewrite pad2_compare by lia. f_equal.
  rewrite (compare_app "_" "_"), compare_refl, lex_Eq_l by done.
  rewrite compare_app by done. rewrite pad2_compare by lia. f_equal.
  rewrite compare_app by done. rewrite pad2_compare by lia. f_equal.
  apply pad2_compare; lia.
Qed.

Lemma datetime_key_compare (t1 t2 : datetime) :
  datetime_valid t1 -> datetime_valid t2 ->
  (datetime_key t1 ?= datetime_key t2)%N = lex_fields t1 t2.
Proof.
  intros ([? ?]&?&?&?&?&?) ([? ?]&?&?&?&?&?). unfold datetime_key, lex_fields.
  rewrite !(N.mul_comm _ 100).
  rewrite <- !(lex_quot_rem 100) by lia.
  by destruct (year t1 ?= year t2)%N, (month t1 ?= month t2)%N,
    (day t1 ?= day t2)%N, (hour t1 ?= hour t2)%N, (minute t1 ?= minute t2)%N.
Qed.

Lemma strftime_length t : String.length (strftime t) = 15%nat.
Proof. done. Qed.

Lemma backup_name_le (t1 t2 : datetime) :
  datetime_valid t1 -> datetime_valid t2 ->
  String.le (backup_name t1) (backup_name t2) <-> datetime_le t1 t2.
Proof.
  intros Hv1 Hv2. rewrite compare_le. unfold backup_name, datetime_le.
  rewrite (compare_app "metadata_backup_" "metadata_backup_") by done.
  rewrite compare_refl, lex_Eq_l.
  rewrite compare_app by (by rewrite !strftime_length).
  rewrite compare_refl, lex_Eq_r, strftime_compare by done.
  rewrite <- datetime_key_compare by done.
  by rewrite N.compare_le_iff.
Qed.
End TimeStamps.

(** ** The backup directory under the methods of the store *)

Module Backups.
Import Py Pd Os Hoare MetadataModel BackupDir.

Lemma with_backups_id {T} (o : Obj T) : with_backups (backup_files (world o)) o = o.
Proof. by destruct o as [[] ?]. Qed.

Lemma foldl_delete_lookup {V} (l : list string) (b : gmap string V) name :
  foldl (fun acc k => delete k acc) b l !! name
  = if decide (name ∈ l) then None else b !! name.
Proof.
  revert b. induction l as [|x l IH]; intros b; simpl.
  - destruct (decide (name ∈ [])) as [Hin|]; [|done]. by apply elem_of_nil in Hin.
  - rewrite IH. destruct (decide (name ∈ l)) as [Hl|Hl].
    + by rewrite decide_True by (by right).
    + destruct (decide (name = x)) as [->|Hne].
      * rewrite lookup_delete_eq. by rewrite decide_True by left.
      * rewrite lookup_delete_ne by done. rewrite decide_False; [done|].
        intros [?|?]%elem_of_cons; done.
Qed.

Lemma sorted_names_perm (b : gmap string DataFrame) :
  sorted_names b ≡ₚ (map_to_list b).*1.
Proof. apply merge_sort_Permutation. Qed.

Lemma sorted_names_elem_of (b : gmap string DataFrame) name :
  name ∈ sorted_names b <-> is_Some (b !! name).
Proof.
  rewrite sorted_names_perm, list_elem_of_fmap. split.
  - intros [[k v] [-> Hkv]]. apply elem_of_map_to_list in Hkv. by exists v.
  - intros [v Hv]. exists (name, v). split; [done|]. by apply elem_of_map_to_list.
Qed.

Lemma sorted_names_NoDup (b : gmap string DataFrame) : NoDup (sorted_names b).
Proof. rewrite sorted_names_perm. apply NoDup_fst_map_to_list. Qed.

Lemma sorted_names_length (b : gmap string DataFrame) :
  length (sorted_names b) = size b.
Proof. by rewrite sorted_names_perm, length_fmap, length_map_to_list. Qed.

Lemma sorted_names_sorted (b : gmap string DataFrame) :
  StronglySorted String.le (sorted_names b).
Proof. apply (StronglySorted_merge_sort _). Qed.

Lemma doomed_sorted max_backups (b : gmap string DataFrame) :
  StronglySorted String.le (doomed max_backups b).
Proof.
  unfold doomed. pose proof (sorted_names_sorted b) as Hs.
  rewrite <- (take_drop (length (sorted_names b) - max_backups) (sorted_names b)) in Hs.
  by apply StronglySorted_app_1_l in Hs.
Qed.

Lemma prune_lookup max_backups (b : gmap string DataFrame) name :
  prune max_backups b !! name
  = if decide (name ∈ doomed max_backups b) then None else b !! name.
Proof. apply foldl_delete_lookup. Qed.

Lemma prune_kept max_backups (b : gmap string DataFrame) name :
  is_Some (prune max_backups b !! name) <->
  name ∈ drop (length (sorted_names b) - max_backups) (sorted_names b).
Proof.
  rewrite prune_lookup. unfold doomed.
  pose proof (sorted_names_NoDup b) as Hnd.
  pose proof (sorted_names_elem_of b name) as Hin.
  rewrite <- (take_drop (length (sorted_names b) - max_backups) (sorted_names b)) in Hnd, Hin.
  apply NoDup_app in Hnd as (_ & Hdisj & _).
  rewrite elem_of_app in Hin.
  case_decide as Hd; split.
  - by intros [? ?].
  - intros Hk. by destruct (Hdisj name).
  - intros Hs. apply Hin in Hs as [?|?]; done.
  - intros Hk. apply Hin. by right.
Qed.

Lemma doomed_before_kept max_backups (b : gmap string DataFrame) old kept :
  old ∈ doomed max_backups b -> is_Some (prune max_backups b !! kept) ->
  String.le old kept.
Proof.
  intros Hold Hkept%prune_kept. unfold doomed in Hold.
  pose proof (sorted_names_sorted b) as Hs.
  rewrite <- (take_drop (length (sorted_names b) - max_backups) (sorted_names b)) in Hs.
  by eapply (StronglySorted_app_1_elem_of _ _ _ _ _ Hs).
Qed.

Lemma prune_size max_backups (b : gmap string DataFrame) :
  size (prune max_backups b) = (size b `min` max_backups)%nat.
Proof.
  assert (dom (prune max_backups b)
          = list_to_set (drop (length (sorted_names b) - max_backups) (sorted_names b))) as Hdom.
  { apply set_eq. intros name. rewrite elem_of_dom, prune_kept, elem_of_list_to_set. done. }
  rewrite <- size_dom, Hdom, size_list_to_set.
  - rewrite length_drop, sorted_names_length. lia.
  - pose proof (sorted_names_NoDup b) as Hnd.
    rewrite <- (take_drop (length (sorted_names b) - max_backups) (sorted_names b)) in Hnd.
    by apply NoDup_app in Hnd as (_ & _ & ?).
Qed.

Section Proofs.
Context `{Unicode} `{Path} `{Re.Engine}.

Lemma cleanup_loop_for_each max_backups l :
  cleanup_loop max_backups l
  = for_each (take (length l - max_backups) l) remove_backup.
Proof.
  induction l as [|x l IH]; simpl; [done|].
  case_decide as Hlen.
  - replace (S (length l) - max_backups)%nat with (S (length l - max_backups)) by lia.
    simpl. by rewrite IH.
  - by replace (S (length l) - max_backups)%nat with 0%nat by lia.
Qed.

Lemma for_each_remove_backup (l : list string) (st : state) :
  (forall k, k ∈ l -> is_Some (backup_files (world st) !! k)) -> NoDup l ->
  for_each l remove_backup st
  = (Ok tt, with_backups (foldl (fun acc name => delete name acc)
                                (backup_files (world st)) l) st).
Proof.
  revert st. induction l as [|x l IH]; intros st Hin Hnd; simpl.
  - by rewrite with_backups_id.
  - apply NoDup_cons in Hnd as [Hx Hnd].
    unfold mbind, M_bind, remove_backup at 1.
    destruct (Hin x) as [df Hdf]; [left|]. rewrite Hdf.
    rewrite IH; [done| |done].
    intros k Hk. simpl. rewrite lookup_delete_ne; [apply Hin; by right|].
    intros ->. done.
Qed.

Lemma cleanup_old_backups_run max_backups (st : state) :
  cleanup_old_backups max_backups st
  = (Ok tt, with_backups (prune max_backups (backup_files (world st))) st).
Proof.
  unfold cleanup_old_backups, try_except, mbind, M_bind, listdir_backup_dir, gets.
  rewrite cleanup_loop_for_each.
  fold (sorted_names (backup_files (world st))).
  fold (doomed max_backups (backup_files (world st))).
  rewrite for_each_remove_backup; [done| |].
  - intros k Hk. apply sorted_names_elem_of. unfold doomed in Hk.
    rewrite <- (take_drop (length (sorted_names (backup_files (world st))) - max_backups)).
    apply elem_of_app. by left.
  - pose proof (sorted_names_NoDup (backup_files (world st))) as Hnd.
    rewrite <- (take_drop (length (sorted_names (backup_files (world st))) - max_backups)) in Hnd.
    by apply NoDup_app in Hnd as (? & _ & _).
Qed.

Lemma backup_current_metadata_run (st : state) :
  backup_current_metadata st
  = (Ok tt,
     match excel_file (world st) with
     | Some _ =>
         with_backups
           (prune 10 (<[backup_name (clock (world st) (clock_reads (world st)))
                        := metadata_df (self st)]> (backup_files (world st))))
           (on_world tick st)
     | None => st
     end).
Proof.
  unfold backup_current_metadata, try_except, mbind, M_bind, excel_exists, gets.
  destruct (excel_file (world st)) as [x|] eqn:Hx; simpl.
  - rewrite cleanup_old_backups_run. simpl. done.
  - done.
Qed.
End Proofs.

Ltac respects_go :=
  repeat first
    [ assumption
    | match goal with
      | |- PreOrder _ => apply _
      | |- forall _, _ => intro
      | |- respects _ (if ?b then _ else _) => destruct b
      | |- respects _ (match ?x with _ => _ end) => destruct x
      end
    | simple apply @respects_ret | simple apply @respects_gets
    | simple apply @respects_lift | simple apply @respects_raise
    | simple apply @respects_bind
    | simple apply @respects_try_except
    | simple apply @respects_for_each ].

Section Frame.
Context `{Unicode} `{Path} `{Re.Engine}.
Context (R : relation state) `{!PreOrder R}.
Hypothesis Hframe : forall s s' : state,
  backup_files (world s') = backup_files (world s) -> R s s'.
Hypothesis Hbackup : respects R backup_current_metadata.

Lemma respects_datetime_now : respects R datetime_now.
Proof. intros s. by apply Hframe. Qed.

Lemma respects_getsize path : respects R (getsize path).
Proof. intros s. apply Hframe. unfold getsize. by case_match. Qed.

Lemma respects_getmtime path : respects R (getmtime path).
Proof. intros s. apply Hframe. unfold getmtime. by case_match. Qed.

Lemma respects_logging lv text a : respects R (logging lv text a).
Proof. intros s. by apply Hframe. Qed.

Lemma respects_to_excel df : respects R (to_excel df).
Proof. intros s. by apply Hframe. Qed.

Lemma respects_on_self (f : t -> t) : respects R (modify (on_self f)).
Proof. intros s. by apply Hframe. Qed.

Lemma respects_assign_df df : respects R (assign_df df).
Proof. apply respects_on_self. Qed.

Hint Resolve respects_datetime_now respects_getsize respects_getmtime
  respects_logging respects_to_excel respects_on_self respects_assign_df
  : core.

Lemma respects_save_database : respects R save_database.
Proof. unfold save_database, the_df. respects_go; auto. Qed.

Lemma respects_add_files_basic_metadata file_paths :
  respects R (add_files_basic_metadata file_paths).
Proof.
  pose proof respects_save_database.
  unfold add_files_basic_metadata, basic_metadata, remove_existing_entry,
    add_entry, the_df.
  respects_go; auto.
Qed.

Lemma respects_update_metadata file_path metadata :
  respects R (update_metadata file_path metadata).
Proof.
  pose proof respects_save_database.
  unfold update_metadata, remove_existing_entry, add_entry, the_df.
  respects_go; auto.
Qed.
End Frame.

Section Bound.
Context `{Unicode} `{Path} `{Re.Engine}.

#[local] Instance bounded_preorder : PreOrder (@bounded t).
Proof. split; unfold bounded; [intros ?; auto | intros ? ? ? ? ?; auto]. Qed.

Lemma bounded_backup : respects (@bounded t) backup_current_metadata.
Proof.
  intros s Hs. rewrite backup_current_metadata_run. simpl.
  destruct (excel_file (world s)); [|done].
  simpl. rewrite prune_size. lia.
Qed.

Lemma bounded_run_calls cs (st : state) :
  (size (backup_files (world st)) <= 10)%nat ->
  (size (backup_files (world (Caller.run_calls cs st))) <= 10)%nat.
Proof.
  revert st. induction cs as [|c cs IH]; intros st Hst; simpl; [done|].
  apply IH. destruct c; simpl.
  - apply (respects_add_files_basic_metadata (@bounded t)); auto using bounded_backup.
    intros s s' Heq Hs. by rewrite Heq.
  - apply (respects_update_metadata (@bounded t)); auto using bounded_backup.
    intros s s' Heq Hs. by rewrite Heq.
Qed.
End Bound.
End Backups.


(** ** Records under the methods of the store *)

Module Records.
Import Py Pd Os Hoare MetadataModel Rows Effects.

Lemma select_fmap (df : DataFrame) (c : string) (f : value -> bool) :
  rows (select df (f <$> (cell c <$> rows df)))
  = filter (fun r => f (cell c r) = true) (rows df).
Proof.
  unfold select. cbn [rows]. induction (rows df) as [|r l IH]; [done|].
  rewrite !fmap_cons. cbn [zip zip_with].
  destruct (f (cell c r)) eqn:Hf.
  - rewrite !filter_cons_True by done. rewrite fmap_cons. cbn [fst]. by rewrite IH.
  - rewrite !filter_cons_False by (cbn [snd]; congruence). done.
Qed.

Lemma rows_replace_row p record df :
  rows (replace_row p record df)
  = (filter (fun r => ~ keyed p r) (rows df) ++ [record])%list.
Proof.
  unfold replace_row, ne. simpl. f_equal.
  pose proof (select_fmap df "file_path" (fun x => negb (bool_decide (x = VStr p /\ x <> VNaN)))) as Hs.
  unfold select in Hs. simpl in Hs. rewrite Hs.
  apply list_filter_iff. intros r. unfold keyed.
  rewrite negb_true_iff, bool_decide_eq_false. split.
  - intros Hn Hk. apply Hn. split; [done|]. by rewrite Hk.
  - intros Hn [Hk _]. done.
Qed.

Lemma columns_replace_row p record df :
  columns (replace_row p record df) = columns df ∪ dom record.
Proof. done. Qed.

Lemma filter_keyed_others q p (l : list row) :
  length (filter (keyed q) (filter (fun r => ~ keyed p r) l))
  = if decide (q = p) then 0%nat else length (filter (keyed q) l).
Proof.
  induction l as [|r l IH]; [by case_decide|].
  destruct (decide (keyed p r)) as [Hp|Hp].
  - rewrite (filter_cons_False (fun r => ~ keyed p r)) by tauto.
    rewrite IH. case_decide as Hq; [done|].
    rewrite (filter_cons_False (keyed q)); [done|].
    unfold keyed in *. congruence.
  - rewrite (filter_cons_True (fun r => ~ keyed p r)) by done.
    destruct (decide (keyed q r)) as [Hq|Hq].
    + rewrite !(filter_cons_True (keyed q)) by done. simpl. rewrite IH.
      case_decide as Hqp; [|done]. subst. done.
    + rewrite !(filter_cons_False (keyed q)) by done. done.
Qed.

Lemma filter_keyed_others_rows q p (l : list row) :
  filter (keyed q) (filter (fun r => ~ keyed p r) l)
  = if decide (q = p) then [] else filter (keyed q) l.
Proof.
  induction l as [|r l IH]; [by case_decide|].
  destruct (decide (keyed p r)) as [Hp|Hp].
  - rewrite (filter_cons_False (fun r => ~ keyed p r)) by tauto.
    rewrite IH. case_decide as Hq; [done|].
    rewrite (filter_cons_False (keyed q)); [done|].
    unfold keyed in *. congruence.
  - rewrite (filter_cons_True (fun r => ~ keyed p r)) by done.
    destruct (decide (keyed q r)) as [Hq|Hq].
    + rewrite !(filter_cons_True (keyed q)) by done. rewrite IH.
      case_decide as Hqp; [|done]. subst. done.
    + rewrite !(filter_cons_False (keyed q)) by done. done.
Qed.

Lemma keyed_replace_row q p record df :
  filter (keyed q) (rows (replace_row p record df))
  = ((if decide (q = p) then [] else filter (keyed q) (rows df))
     ++ (if decide (keyed q record) then [record] else []))%list.
Proof.
  by rewrite rows_replace_row, filter_app, filter_keyed_others_rows.
Qed.

Lemma count_replace_row q p record df :
  count_path q (replace_row p record df)
  = ((if decide (q = p) then 0 else count_path q df)
     + (if decide (keyed q record) then 1 else 0))%nat.
Proof.
  unfold count_path. rewrite rows_replace_row, filter_app, length_app.
  rewrite filter_keyed_others. f_equal.
  destruct (decide (keyed q record)).
  - by rewrite filter_cons_True.
  - by rewrite filter_cons_False.
Qed.

Section Runs.
Context `{Unicode} `{Path} `{Re.Engine}.

Lemma basic_record_keyed q p size added mtime :
  keyed q (basic_record p size added mtime) <-> q = p.
Proof.
  unfold keyed. replace (cell "file_path" (basic_record p size added mtime)) with (VStr p) by (vm_compute; reflexivity).
  split; congruence.
Qed.

Lemma basic_record_dom p size added mtime :
  "file_path" ∈ dom (basic_record p size added mtime).
Proof. apply elem_of_dom. exists (VStr p). vm_compute. reflexivity. Qed.

#[local] Opaque basic_record.

Lemma backup_current_metadata_ok (st : state) :
  backup_current_metadata st = (Ok tt, (backup_current_metadata st).2).
Proof. by rewrite Backups.backup_current_metadata_run. Qed.

Lemma save_database_run (st : state) :
  save_database st
  = (Ok true, on_world (set_excel_file (Some (metadata_df (self st)))) st).
Proof. done. Qed.

Lemma update_metadata_run file_path metadata (st : state) :
  AccessSafety.is_protected_path (safety (self st)) file_path = false ->
  "file_path" ∈ columns (metadata_df (self st)) ->
  update_metadata file_path metadata st
  = save_database (backup_current_metadata (updated file_path metadata st)).2.
Proof.
  intros Hp Hc.
  unfold update_metadata, try_except, mbind, M_bind, gets.
  rewrite Hp. cbn [datetime_now fst snd].
  unfold remove_existing_entry, add_entry, the_df, assign_df, mbind, M_bind, gets, lift, getitem, modify.
  cbn [on_world world self fst snd]. rewrite decide_True by done.
  cbn [on_self self world].
  match goal with |- context [backup_current_metadata ?s] =>
    replace s with (updated file_path metadata st) by (by destruct st as [[] []])
  end.
  rewrite backup_current_metadata_ok. rewrite save_database_run. done.
Qed.


Lemma add_body_run file_path (st : state) :
  is_Some (files (world st) !! file_path) ->
  "file_path" ∈ columns (metadata_df (self st)) ->
  add_body file_path st = (Ok tt, added st file_path).
Proof.
  intros [f Hf] Hc.
  unfold add_body, added, basic_metadata, mbind, M_bind, getsize, getmtime, datetime_now.
  rewrite Hf. cbn [on_world world self fst snd files tick]. rewrite Hf.
  unfold remove_existing_entry, add_entry, the_df, assign_df, mbind, M_bind, gets, lift, getitem, modify, mret, M_ret.
  cbn [on_world world self fst snd]. rewrite decide_True by done. done.
Qed.

Lemma added_frame (st : state) p :
  files (world (added st p)) = files (world st) /\
  backup_files (world (added st p)) = backup_files (world st) /\
  excel_file (world (added st p)) = excel_file (world st) /\
  log (world (added st p)) = log (world st) /\
  safety (self (added st p)) = safety (self st) /\
  metadata_cache (self (added st p)) = metadata_cache (self st).
Proof. unfold added. by destruct (files (world st) !! p). Qed.

Lemma added_columns (st : state) p :
  "file_path" ∈ columns (metadata_df (self st)) ->
  "file_path" ∈ columns (metadata_df (self (added st p))).
Proof.
  unfold added. destruct (files (world st) !! p); [|done].
  simpl. set_solver.
Qed.

Lemma added_count (st : state) p q :
  is_Some (files (world st) !! p) ->
  count_path q (metadata_df (self (added st p)))
  = if decide (q = p) then 1%nat else count_path q (metadata_df (self st)).
Proof.
  intros [f Hf]. unfold added. rewrite Hf. cbn [on_self self set_metadata_df metadata_df].
  rewrite count_replace_row.
  destruct (decide (q = p)) as [->|Hne].
  - rewrite decide_True; [done|]. by apply basic_record_keyed.
  - rewrite decide_False; [lia|]. by rewrite basic_record_keyed.
Qed.

Lemma add_loop_run file_paths (st : state) :
  (forall p, p ∈ file_paths -> is_Some (files (world st) !! p)) ->
  "file_path" ∈ columns (metadata_df (self st)) ->
  for_each file_paths add_body st = (Ok tt, foldl added st file_paths).
Proof.
  revert st. induction file_paths as [|p l IH]; intros st Hf Hc; [done|].
  cbn [for_each foldl]. unfold mbind, M_bind at 1.
  rewrite add_body_run; [|apply Hf; by left|done].
  apply IH.
  - intros q Hq. destruct (added_frame st p) as (-> & _). apply Hf. by right.
  - by apply added_columns.
Qed.

Lemma added_all_frame file_paths (st : state) :
  files (world (foldl added st file_paths)) = files (world st) /\
  backup_files (world (foldl added st file_paths)) = backup_files (world st) /\
  excel_file (world (foldl added st file_paths)) = excel_file (world st) /\
  log (world (foldl added st file_paths)) = log (world st) /\
  safety (self (foldl added st file_paths)) = safety (self st) /\
  metadata_cache (self (foldl added st file_paths)) = metadata_cache (self st).
Proof.
  revert st. induction file_paths as [|p l IH]; intros st; [done|].
  cbn [foldl]. destruct (IH (added st p)) as (-> & -> & -> & -> & -> & ->).
  apply added_frame.
Qed.

Lemma added_all_count file_paths (st : state) q :
  (forall p, p ∈ file_paths -> is_Some (files (world st) !! p)) ->
  count_path q (metadata_df (self (foldl added st file_paths)))
  = if decide (q ∈ file_paths) then 1%nat
    else count_path q (metadata_df (self st)).
Proof.
  revert st. induction file_paths as [|p l IH]; intros st Hf.
  - cbn [foldl]. rewrite decide_False; [done|]. apply not_elem_of_nil.
  - cbn [foldl]. rewrite IH.
    2:{ intros p' Hp'. destruct (added_frame st p) as (-> & _). apply Hf. by right. }
    rewrite added_count by (apply Hf; by left).
    destruct (decide (q ∈ l)) as [Hl|Hl].
    + rewrite decide_True; [done|by right].
    + destruct (decide (q = p)) as [->|Hne].
      * rewrite decide_True; [done|by left].
      * rewrite decide_False; [done|]. intros [?|?]%elem_of_cons; done.
Qed.

(** The records of a path after the loop: for a listed path, the one
    record built at its last turn. *)
Lemma added_keyed (st : state) p q f :
  files (world st) !! p = Some f ->
  filter (keyed q) (rows (metadata_df (self (added st p))))
  = if decide (q = p)
    then [basic_record p (st_size f)
            (clock (world st) (clock_reads (world st))) (st_mtime f)]
    else filter (keyed q) (rows (metadata_df (self st))).
Proof.
  intros Hf. unfold added. rewrite Hf.
  cbn [on_self self set_metadata_df metadata_df].
  rewrite keyed_replace_row.
  destruct (decide (q = p)) as [->|Hne].
  - rewrite decide_True; [done|]. by apply basic_record_keyed.
  - rewrite decide_False; [by rewrite app_nil_r|]. by rewrite basic_record_keyed.
Qed.

Lemma added_clock (st : state) p :
  is_Some (files (world st) !! p) ->
  clock (world (added st p)) = clock (world st) /\
  clock_reads (world (added st p)) = S (clock_reads (world st)).
Proof. intros [f Hf]. unfold added. by rewrite Hf. Qed.

Lemma added_all_clock file_paths (st : state) :
  (forall p, p ∈ file_paths -> is_Some (files (world st) !! p)) ->
  clock (world (foldl added st file_paths)) = clock (world st) /\
  clock_reads (world (foldl added st file_paths))
  = (clock_reads (world st) + length file_paths)%nat.
Proof.
  revert st. induction file_paths as [|p l IH]; intros st Hf.
  - cbn. split; [done|lia].
  - cbn [foldl length]. destruct (added_clock st p) as [Hc Hn]; [apply Hf; left|].
    destruct (IH (added st p)) as [-> ->].
    { intros q Hq. destruct (added_frame st p) as (-> & _). apply Hf. by right. }
    split; [done|lia].
Qed.

Lemma added_all_others file_paths (st : state) q :
  (forall p, p ∈ file_paths -> is_Some (files (world st) !! p)) ->
  q ∉ file_paths ->
  filter (keyed q) (rows (metadata_df (self (foldl added st file_paths))))
  = filter (keyed q) (rows (metadata_df (self st))).
Proof.
  revert st. induction file_paths as [|p l IH]; intros st Hf Hq; [done|].
  apply not_elem_of_cons in Hq as [Hne Hq]. cbn [foldl].
  rewrite IH; [|intros q' Hq'; destruct (added_frame st p) as (-> & _);
                 apply Hf; by right|done].
  destruct (Hf p) as [f Hfile]; [left|].
  rewrite (added_keyed st p q f Hfile). by rewrite decide_False.
Qed.

Lemma added_all_keyed file_paths (st : state) p :
  (forall q, q ∈ file_paths -> is_Some (files (world st) !! q)) ->
  p ∈ file_paths ->
  exists f n,
    files (world st) !! p = Some f /\
    (clock_reads (world st) <= n
     < clock_reads (world st) + length file_paths)%nat /\
    filter (keyed p) (rows (metadata_df (self (foldl added st file_paths))))
    = [basic_record p (st_size f) (clock (world st) n) (st_mtime f)].
Proof.
  revert st. induction file_paths as [|q l IH]; intros st Hf Hin.
  { by apply elem_of_nil in Hin. }
  cbn [foldl length].
  assert (forall q', q' ∈ l -> is_Some (files (world (added st q)) !! q')) as Hf'.
  { intros q' Hq'. destruct (added_frame st q) as (-> & _). apply Hf. by right. }
  destruct (added_clock st q) as [Hc Hn]; [apply Hf; left|].
  destruct (decide (p ∈ l)) as [Hl|Hl].
  - destruct (IH (added st q) Hf' Hl) as (f & n & Hfile & Hb & Hrows).
    destruct (added_frame st q) as (Hfiles & _).
    exists f, n. rewrite <- Hfiles, <- Hc. split; [done|]. split; [lia|done].
  - apply elem_of_cons in Hin as [->|Hin]; [|done].
    destruct (Hf q) as [f Hfile]; [left|].
    exists f, (clock_reads (world st)). split; [done|]. split; [lia|].
    rewrite added_all_others by done.
    rewrite (added_keyed st q q f Hfile). by rewrite decide_True.
Qed.

(** The loop after a backup: the record of a listed path is built anew
    from a reading of the clock made after the call began. *)
Lemma added_all_anew file_paths (st st0 : state) p :
  (forall q, q ∈ file_paths -> is_Some (files (world st) !! q)) ->
  p ∈ file_paths ->
  files (world st) = files (world st0) ->
  clock (world st) = clock (world st0) ->
  (clock_reads (world st0) <= clock_reads (world st))%nat ->
  exists r,
    (forall st', clock_reads (world st')
                 = clock_reads (world (foldl added st file_paths)) ->
                 indexed_anew st0 st' p r) /\
    filter (keyed p) (rows (metadata_df (self (foldl added st file_paths))))
    = [r].
Proof.
  intros Hf Hin Hfiles Hclock Hreads.
  destruct (added_all_keyed file_paths st p Hf Hin) as (f & n & Hfile & Hn & Hrows).
  destruct (added_all_clock file_paths st Hf) as [_ Hlen].
  eexists. split; [|exact Hrows].
  intros st' Hst'. exists f, n. rewrite <- Hfiles, <- Hclock, Hst', Hlen.
  split; [done|]. split; [lia|done].
Qed.

Lemma add_files_basic_metadata_run file_paths (st : state) :
  (forall p, p ∈ file_paths -> is_Some (files (world st) !! p)) ->
  "file_path" ∈ columns (metadata_df (self st)) ->
  add_files_basic_metadata file_paths st
  = save_database (foldl added (backup_current_metadata st).2 file_paths).
Proof.
  intros Hf Hc.
  unfold add_files_basic_metadata, try_except.
  unfold mbind at 1, M_bind at 1. rewrite backup_current_metadata_ok.
  unfold mbind at 1, M_bind at 1.
  fold add_body. change (fun file_path => add_body file_path) with add_body.
  rewrite add_loop_run.
  - by rewrite save_database_run.
  - rewrite Backups.backup_current_metadata_run. cbn [snd].
    destruct (excel_file (world st)); [|done]. exact Hf.
  - rewrite Backups.backup_current_metadata_run. cbn [snd].
    by destruct (excel_file (world st)).
Qed.

Lemma manager_backup_run (st : state) :
  MetadataManager.backup_current_metadata st
  = (Ok tt,
     BackupDir.with_backups
       (BackupDir.prune 10 (<[BackupDir.backup_name (clock (world st) (clock_reads (world st)))
                    := metadata_df (self st)]> (backup_files (world st))))
       (on_world tick st)).
Proof.
  unfold MetadataManager.backup_current_metadata, try_except, mbind, M_bind.
  cbn [datetime_now the_df gets fst snd to_excel_backup modify].
  unfold MetadataManager.cleanup_old_backups.
  rewrite Backups.cleanup_old_backups_run. done.
Qed.

Lemma manager_update_metadata_run file_path metadata (st : state) :
  AccessSafety.is_protected_path (safety (self st)) file_path = false ->
  "file_path" ∈ columns (metadata_df (self st)) ->
  MetadataManager.update_metadata file_path metadata st
  = save_database
      (MetadataManager.backup_current_metadata
         (manager_updated file_path metadata st)).2.
Proof.
  intros Hp Hc.
  unfold MetadataManager.update_metadata, try_except, mbind, M_bind, gets.
  rewrite Hp. cbn [datetime_now fst snd].
  unfold remove_existing_entry, add_entry, the_df, assign_df, mbind, M_bind, gets, lift, getitem, modify.
  cbn [on_world world self fst snd]. rewrite decide_True by done.
  cbn [on_self self world].
  match goal with |- context [MetadataManager.backup_current_metadata ?s] =>
    replace s with (manager_updated file_path metadata st) by (by destruct st as [[] []])
  end.
  rewrite manager_backup_run. done.
Qed.

Lemma manager_add_run file_paths (st : state) :
  (forall p, p ∈ file_paths -> is_Some (files (world st) !! p)) ->
  "file_path" ∈ columns (metadata_df (self st)) ->
  MetadataManager.add_files_basic_metadata file_paths st
  = (Ok false,
     on_world (add_log {| levelname := ERROR;
                          msg := "Error adding basic metadata: ";
                          args := [LogExn (AttributeError "save_database")] |})
       (foldl added (MetadataManager.backup_current_metadata st).2 file_paths)).
Proof.
  intros Hf Hc.
  unfold MetadataManager.add_files_basic_metadata, try_except.
  unfold mbind at 1, M_bind at 1. rewrite manager_backup_run.
  unfold mbind at 1, M_bind at 1.
  fold add_body. change (fun file_path => add_body file_path) with add_body.
  rewrite add_loop_run; [done| |]; cbn [snd]; done.
Qed.

Lemma keyed_stamped q (st : state) metadata :
  keyed q (stamped st metadata) <-> keyed q metadata.
Proof. unfold keyed, stamped, cell. by rewrite lookup_insert_ne. Qed.

Lemma keyed_manager_stamped q p (st : state) metadata :
  keyed q (manager_stamped p st metadata) <-> q = p.
Proof.
  unfold keyed, manager_stamped, cell. rewrite lookup_insert_eq. simpl.
  split; congruence.
Qed.

(** The backup directory and the log after the two kinds of backup. *)
Lemma backup_current_metadata_frame (st : state) :
  self (backup_current_metadata st).2 = self st /\
  files (world (backup_current_metadata st).2) = files (world st) /\
  excel_file (world (backup_current_metadata st).2) = excel_file (world st) /\
  log (world (backup_current_metadata st).2) = log (world st).
Proof.
  rewrite Backups.backup_current_metadata_run. cbn [snd].
  destruct (excel_file (world st)) eqn:E; simpl; rewrite ?E; done.
Qed.

End Runs.
End Records.

(** ** [search_metadata] against the reading of the specification *)

Module Search.
Import Py Pd Os MetadataModel Spec Criteria ListFacts.

Lemma parse_plain pat : Re.plain pat = true -> Re.parse pat = Some (Re.literal pat).
Proof.
  induction pat as [|c pat IH]; simpl; [done|].
  intros [Hc Hp]%andb_true_iff. apply negb_true_iff in Hc.
  destruct (Ascii.eqb c ".") eqn:E.
  - apply Ascii.eqb_eq in E. subst c. done.
  - rewrite Hc, IH by done. done.
Qed.

Lemma match_here_literal pat s :
  Re.match_here true (Re.literal pat) s
  = String.prefix (lower_bytes pat) (lower_bytes s).
Proof.
  revert s. induction pat as [|c pat IH]; intros s; simpl.
  - by destruct s.
  - destruct s as [|d s]; simpl; [done|]. rewrite IH.
    destruct (ascii_dec (lower_ascii c) (lower_ascii d)) as [->|Hne].
    + by rewrite Ascii.eqb_refl.
    + apply Ascii.eqb_neq in Hne. by rewrite Hne.
Qed.

Lemma search_literal pat s :
  Re.search true (Re.literal pat) s
  = contains (lower_bytes pat) (lower_bytes s).
Proof.
  induction s as [|d s IH]; simpl.
  - by rewrite match_here_literal.
  - by rewrite match_here_literal, IH.
Qed.

Lemma isascii_lower_bytes s :
  isascii s = true -> isascii (lower_bytes s) = true.
Proof.
  induction s as [|c s IH]; simpl; [done|].
  intros [Hc Hs]%andb_true_iff. rewrite IH by done.
  apply Nat.ltb_lt in Hc. rewrite andb_true_r. apply Nat.ltb_lt.
  unfold lower_ascii. case_bool_decide; [|done].
  rewrite nat_ascii_embedding; lia.
Qed.

(** Checking that the cells of some columns are ASCII, row by row. *)
Lemma checked_cells (df : DataFrame) (fields : list string) :
  forallb (fun r => forallb (fun c => isascii (str (cell c r))) fields)
          (rows df) = true ->
  forall c r, c ∈ fields -> r ∈ rows df -> isascii (str (cell c r)) = true.
Proof.
  intros Hall c r Hc Hr. rewrite forallb_forall in Hall.
  apply list_elem_of_In, Hall in Hr. rewrite forallb_forall in Hr.
  by apply Hr, list_elem_of_In.
Qed.

Lemma homogeneous_kind v vs x :
  homogeneous (v :: vs) = true -> x ∈ v :: vs -> kind_of x = kind_of v.
Proof.
  simpl. intros Hh [->|Hx]%elem_of_cons; [done|].
  rewrite forallb_forall in Hh. apply list_elem_of_In, Hh in Hx.
  by apply bool_decide_eq_true in Hx.
Qed.

(** The accessor is refused on a column only when no cell of it is
    text. *)
Lemma str_accessor_raise col e x :
  str_accessor col = Raise e -> x ∈ col -> forall s, x <> VStr s.
Proof.
  unfold str_accessor. destruct (dropna col) as [|v vs] eqn:Hd; [done|].
  destruct (bool_decide (kind_of v <> KStr)) eqn:Hk; simpl; [|done].
  destruct (forallb _ vs) eqn:Hh; [|done]. intros _ Hx s ->.
  apply bool_decide_eq_true in Hk. apply Hk.
  rewrite <- (homogeneous_kind v vs (VStr s)); [done|done|].
  rewrite <- Hd. unfold dropna. apply list_elem_of_filter. by split.
Qed.

Lemma kept_narrowed scalar df term rest :
  kept scalar df (term :: rest) = kept scalar (narrowed scalar df term) rest.
Proof.
  unfold kept, narrowed. cbn [rows forallb].
  rewrite list_filter_filter. apply list_filter_iff. intros r.
  rewrite andb_true_iff. tauto.
Qed.

Lemma select_fmap_df (df : DataFrame) (c : string) (f : value -> bool) :
  select df (f <$> (cell c <$> rows df))
  = {| columns := columns df;
       rows := filter (fun r => f (cell c r) = true) (rows df) |}.
Proof.
  pose proof (Records.select_fmap df c f) as Hs. unfold select in *.
  cbn [rows] in Hs. by rewrite Hs.
Qed.

Section Proofs.
Context `{Unicode} `{Path} `{Re.Engine}.

Lemma text_matches_no_text pat x :
  (forall s, x <> VStr s) -> text_matches pat x = false.
Proof.
  intros Hx. unfold text_matches. destruct (Re.compile true pat); [|done].
  destruct x; try done. by destruct (Hx s).
Qed.

(** On ASCII text a pattern without special characters is found where
    the text holds it, whatever the case of the letters. *)
Lemma text_matches_plain pat s :
  Re.plain pat = true -> isascii pat = true -> isascii s = true ->
  text_matches pat (VStr s) = text_contains pat (VStr s).
Proof.
  intros Hp Hpat Hs. unfold text_matches, text_contains, icontains, lower,
    Re.compile.
  rewrite parse_plain, Hpat, Hs by done. apply search_literal.
Qed.

Lemma str_contains_matches col pat :
  str_contains col pat false
  = match str_accessor col with
    | Ok _ =>
        match Re.compile true pat with
        | Ok _ => Ok (text_matches pat <$> col)
        | Raise e => Raise e
        end
    | Raise e => Raise e
    end.
Proof.
  unfold str_contains, text_matches.
  destruct (str_accessor col); simpl; [|done].
  by destruct (Re.compile true pat).
Qed.

Lemma search_step_narrows df field value :
  field ∈ columns df ->
  match search_step df (field, value) with
  | Ok result => result = narrowed text_matches df (field, value)
  | Raise _ => rows (narrowed text_matches df (field, value)) = []
  end.
Proof.
  intros Hc. unfold search_step, narrowed, holds.
  destruct (criterion_truthy value) eqn:Ht.
  2:{ cbn [mret exc_ret]. rewrite filter_all by done. by destruct df. }
  unfold getitem. rewrite decide_True by done.
  destruct value as [v|vs]; cbn [mbind exc_bind mret exc_ret].
  - rewrite str_contains_matches.
    destruct (str_accessor (cell field <$> rows df)) as [[]|e] eqn:Ha.
    + destruct (Re.compile true (str v)) as [matcher|e] eqn:Hm.
      * apply (select_fmap_df df field (text_matches (str v))).
      * cbn [rows]. apply filter_none. intros r Hr.
        unfold text_matches. by rewrite Hm.
    + cbn [rows]. apply filter_none. intros r Hr.
      rewrite text_matches_no_text; [done|].
      apply (str_accessor_raise _ e (cell field r) Ha).
      apply list_elem_of_fmap. by exists r.
  - apply (select_fmap_df df field (fun x => bool_decide (x ∈ vs))).
Qed.

Lemma search_loop_rows df search_terms :
  (forall field value, (field, value) ∈ search_terms -> field ∈ columns df) ->
  match search_loop df search_terms with
  | Ok result =>
      rows result = kept text_matches df search_terms
      /\ columns result = columns df
  | Raise _ => kept text_matches df search_terms = []
  end.
Proof.
  revert df. induction search_terms as [|[field value] rest IH]; intros df Hc.
  - cbn [search_loop mret exc_ret]. split; [|done].
    unfold kept. by rewrite filter_all.
  - cbn [search_loop]. rewrite kept_narrowed.
    pose proof (search_step_narrows df field value) as Hstep.
    destruct (search_step df (field, value)) as [result|e];
      cbn [mbind exc_bind].
    + assert (result = narrowed text_matches df (field, value)) as ->.
      { apply Hstep. apply (Hc field value). left. }
      specialize (IH (narrowed text_matches df (field, value))).
      destruct (search_loop (narrowed text_matches df (field, value)) rest);
        apply IH.
      all: intros f v Hin; apply (Hc f v); by right.
    + unfold kept. rewrite Hstep; [done|]. apply (Hc field value). left.
Qed.

(** On ASCII text and for scalars without special characters, the rows
    the code keeps are the rows of the reading of the specification. *)
Lemma kept_plain df search_terms :
  (forall field v,
     (field, Scalar v) ∈ search_terms ->
     Re.plain (str v) = true /\ isascii (str v) = true) ->
  (forall field v r s,
     (field, Scalar v) ∈ search_terms -> r ∈ rows df ->
     cell field r = VStr s -> isascii s = true) ->
  kept text_matches df search_terms = Spec.search df search_terms.
Proof.
  intros Hp Ha. unfold Spec.search, kept. apply filter_ext_in.
  intros r Hr. assert (forallb (holds text_matches r) search_terms
                 = forallb (criterion_holds r) search_terms) as ->; [|done].
  induction search_terms as [|[field value] rest IH]; [done|].
  cbn [forallb]. rewrite IH.
  2:{ intros f v Hin. apply (Hp f v). by right. }
  2:{ intros f v r' s Hin. apply (Ha f v). by right. }
  f_equal. unfold holds, criterion_holds.
  destruct (criterion_truthy value); [|done].
  destruct value as [v|vs]; [|done].
  destruct (Hp field v) as [Hplain Hascii]; [left|].
  destruct (cell field r) as [s| | |] eqn:Hcell.
  - apply text_matches_plain; [done|done|].
    apply (Ha field v r s); [left|done|done].
  - by apply text_matches_no_text.
  - by apply text_matches_no_text.
  - by apply text_matches_no_text.
Qed.

End Proofs.

End Search.

(** ** Criteria on columns that are not there *)

Module Missing.
Import Py Pd Os MetadataModel.
Section Proofs.
Context `{Unicode} `{Path} `{Re.Engine}.

Lemma search_step_columns df term result :
  search_step df term = Ok result -> columns result = columns df.
Proof.
  destruct term as [field value]. unfold search_step.
  destruct (criterion_truthy value); [|by intros [= <-]].
  destruct value as [v|vs]; destruct (getitem df field) as [col|e];
    cbn [mbind exc_bind mret exc_ret]; try done.
  - destruct (str_contains col (str v) false); cbn [mbind exc_bind]; [|done].
    by intros [= <-].
  - by intros [= <-].
Qed.

Lemma search_step_missing df field value :
  field ∉ columns df -> criterion_truthy value = true ->
  search_step df (field, value) = Raise (KeyError field).
Proof.
  intros Hc Ht. unfold search_step, getitem. rewrite Ht, decide_False by done.
  by destruct value.
Qed.

Lemma search_loop_missing df search_terms field value :
  field ∉ columns df -> (field, value) ∈ search_terms ->
  criterion_truthy value = true ->
  exists e, search_loop df search_terms = Raise e.
Proof.
  intros Hc Hin Ht. revert df Hc.
  induction search_terms as [|term rest IH]; intros df Hc.
  - by apply elem_of_nil in Hin.
  - cbn [search_loop].
    destruct (search_step df term) as [result|e] eqn:Hs; cbn [mbind exc_bind];
      [|by eexists].
    apply elem_of_cons in Hin as [<-|Hin].
    + by rewrite search_step_missing in Hs.
    + apply IH; [done|]. by rewrite (search_step_columns _ _ _ Hs).
Qed.

Lemma search_loop_skips df before field value after :
  criterion_truthy value = false ->
  search_loop df (before ++ (field, value) :: after)
  = search_loop df (before ++ after).
Proof.
  intros Ht. revert df. induction before as [|term rest IH]; intros df.
  - cbn [app search_loop search_step]. by rewrite Ht.
  - cbn [app search_loop]. destruct (search_step df term); cbn [mbind exc_bind]; [|done].
    apply IH.
Qed.
End Proofs.
End Missing.

(** ** [sorted], [unique] and [dropna] *)

Module Unique.
Import Py Pd Os MetadataModel.

#[global] Instance value_le_total : Total value_le.
Proof.
  intros [s1|n1|t1|] [s2|n2|t2|]; simpl; unfold datetime_le; try lia.
  apply String.le_total.
Qed.

#[global] Instance value_le_trans : Transitive value_le.
Proof.
  intros [s1|n1|t1|] [s2|n2|t2|] [s3|n3|t3|]; simpl; unfold datetime_le; try lia.
  apply (transitivity (R := String.le)).
Qed.

Lemma elem_of_dropna col x : x ∈ dropna col <-> x ∈ col /\ x <> VNaN.
Proof. unfold dropna. rewrite list_elem_of_filter. tauto. Qed.

Lemma elem_of_unique col x : x ∈ unique col <-> x ∈ col.
Proof.
  induction col as [|y col IH]; cbn [unique]; [done|].
  rewrite !elem_of_cons, list_elem_of_filter, IH.
  destruct (decide (x = y)); tauto.
Qed.

Lemma NoDup_unique col : NoDup (unique col).
Proof.
  induction col as [|y col IH]; cbn [unique]; [constructor|].
  constructor.
  - rewrite list_elem_of_filter. tauto.
  - by apply NoDup_filter.
Qed.

End Unique.

(** ** The search cache under [cache_results] *)

Module Cache.
Import Py Pd Os SearchModel CacheOps ListFacts.

Section DictFacts.
Context {V : Type}.
Implicit Types d : list (string * V).

Lemma set_fresh key v d :
  key ∉ Dict.keys d -> Dict.set key v d = (d ++ [(key, v)])%list.
Proof.
  induction d as [|[k w] d IH]; cbn [Dict.set]; [done|].
  unfold Dict.keys. rewrite fmap_cons, not_elem_of_cons. cbn [fst].
  intros [Hne Hd]. rewrite decide_False by done. by rewrite IH.
Qed.

Lemma set_present key v d :
  key ∈ Dict.keys d ->
  Dict.keys (Dict.set key v d) = Dict.keys d /\
  length (Dict.set key v d) = length d.
Proof.
  induction d as [|[k w] d IH]; cbn [Dict.set].
  - intros Hk. by apply elem_of_nil in Hk.
  - unfold Dict.keys in *. rewrite fmap_cons. cbn [fst]. intros Hk.
    destruct (decide (k = key)) as [->|Hne]; [done|].
    apply elem_of_cons in Hk as [->|Hk]; [done|].
    destruct (IH Hk) as [IH1 IH2]. rewrite fmap_cons. cbn [fst length].
    by rewrite IH1, IH2.
Qed.

Lemma get_last key v d :
  key ∉ Dict.keys d -> Dict.get key (d ++ [(key, v)])%list = Some v.
Proof.
  induction d as [|[k w] d IH]; cbn [Dict.get app].
  - intros _. by rewrite decide_True.
  - unfold Dict.keys. rewrite fmap_cons, not_elem_of_cons. cbn [fst].
    intros [Hne Hd]. rewrite decide_False by done. by apply IH.
Qed.

(** Removing the first [n] keys of a dictionary leaves its items from the
    [n]-th on. *)
Lemma filter_take_keys n d :
  NoDup (Dict.keys d) ->
  filter (fun kv : string * V => kv.1 ∉ take n (Dict.keys d)) d = drop n d.
Proof.
  revert n. induction d as [|[k w] d IH]; intros n Hnd.
  - by destruct n.
  - unfold Dict.keys in *. rewrite fmap_cons in *. cbn [fst] in *.
    apply NoDup_cons in Hnd as [Hk Hnd].
    destruct n as [|n]; cbn [take drop].
    + apply filter_all. intros x _. apply not_elem_of_nil.
    + rewrite filter_cons_False by (cbn [fst]; intros Hn; apply Hn; left).
      rewrite <- (IH n Hnd). apply filter_ext_in. intros [k' w'] Hin. cbn [fst].
      rewrite not_elem_of_cons. split; [tauto|]. intros Hn. split; [|done].
      intros ->. apply Hk. apply list_elem_of_fmap. by exists (k, w').
Qed.

Lemma keys_filter (P : string -> Prop) `{forall k, Decision (P k)} d :
  Dict.keys (filter (fun kv : string * V => P kv.1) d)
  = filter P (Dict.keys d).
Proof.
  unfold Dict.keys. induction d as [|[k w] d IH]; [done|].
  rewrite fmap_cons. cbn [fst]. destruct (decide (P k)).
  - rewrite !filter_cons_True by done. rewrite fmap_cons. cbn [fst]. by rewrite IH.
  - rewrite !filter_cons_False by done. done.
Qed.
End DictFacts.

Section Proofs.
Context `{Unicode} `{Path} `{Re.Engine} `{Host} `{Repr}.

Lemma with_cache_id (st : state) : with_cache (search_cache (self st)) st = st.
Proof. by destruct st as [? []]. Qed.

Lemma with_cache_twice c c' (st : state) :
  with_cache c (with_cache c' st) = with_cache c st.
Proof. done. Qed.

Lemma del_loop_run (ks : list string) (st : state) :
  NoDup ks -> (forall k, k ∈ ks -> k ∈ Dict.keys (search_cache (self st))) ->
  for_each ks del_body st
  = (Ok tt, with_cache (filter (fun kv => kv.1 ∉ ks) (search_cache (self st))) st).
Proof.
  revert st. induction ks as [|k ks IH]; intros st Hnd Hin.
  - cbn [for_each mret M_ret]. rewrite filter_all; [by rewrite with_cache_id|].
    intros x _. apply not_elem_of_nil.
  - apply NoDup_cons in Hnd as [Hk Hnd].
    cbn [for_each]. unfold mbind at 1, M_bind at 1.
    unfold del_body at 1, mbind, M_bind, the_cache, gets, lift, Dict.del, Dict.mem.
    rewrite bool_decide_eq_true_2 by (apply Hin; left).
    cbn [modify]. change (on_self (set_search_cache ?c) st) with (with_cache c st).
    rewrite IH; [|done|].
    + cbn [with_cache on_self self search_cache set_search_cache].
      rewrite list_filter_filter, with_cache_twice. f_equal. f_equal.
      apply list_filter_iff. intros [k' v']. cbn [fst]. rewrite not_elem_of_cons. tauto.
    + intros k' Hk'. cbn [with_cache on_self self search_cache set_search_cache].
      pose proof (keys_filter (fun x => x <> k) (search_cache (self st))) as Hkf.
      cbn beta in Hkf. rewrite Hkf. apply list_elem_of_filter. split.
      * intros ->. done.
      * apply Hin. by right.
Qed.

Lemma cache_results_run cache_key results (st : state) :
  let cache := Dict.set cache_key results (search_cache (self st)) in
  NoDup (Dict.keys cache) ->
  cache_results cache_key results st
  = (Ok tt,
     with_cache (if decide (100 < length cache)%nat
                 then drop (length cache - 50) cache else cache) st).
Proof.
  intros cache Hnd. unfold cache_results.
  unfold mbind at 1, M_bind at 1. cbn [modify].
  change (on_self (fun x => set_search_cache (Dict.set cache_key results (search_cache x)) x) st)
    with (with_cache cache st).
  unfold mbind at 1, M_bind at 1. cbn [the_cache gets with_cache on_self self search_cache set_search_cache].
  destruct (decide (100 < length cache)%nat) as [Hlen|Hlen]; [|done].
  fold del_body. change (fun key => del_body key) with del_body.
  rewrite del_loop_run.
  - cbn [with_cache on_self self search_cache set_search_cache].
    rewrite with_cache_twice.
    rewrite filter_take_keys by done.
    unfold Dict.keys. by rewrite length_fmap.
  - rewrite <- (take_drop (length (Dict.keys cache) - 50) (Dict.keys cache)) in Hnd.
    by apply NoDup_app in Hnd as (? & _).
  - intros k Hk. cbn [with_cache on_self self search_cache set_search_cache].
    rewrite <- (take_drop (length (Dict.keys cache) - 50) (Dict.keys cache)).
    apply elem_of_app. by left.
Qed.
End Proofs.
End Cache.

(** ** [execute_search] *)

Module Executing.
Import Py Pd Os MetadataModel SearchModel.
Section Proofs.
Context `{Unicode} `{Path} `{Re.Engine} `{Host} `{Repr}.

Lemma filter_step_columns df f result :
  filter_step df f = Ok result -> columns result = columns df.
Proof.
  destruct f as [field value]. unfold filter_step.
  destruct (criterion_truthy value && _); [|by intros [= <-]].
  destruct value as [v|vs]; destruct (getitem df field) as [col|e];
    cbn [mbind exc_bind mret exc_ret]; try done; by intros [= <-].
Qed.

Lemma filter_loop_missing df fs field value :
  field ∉ columns df -> (field, value) ∈ fs ->
  criterion_truthy value = true -> value <> Scalar (VStr "All") ->
  exists e, filter_loop df fs = Raise e.
Proof.
  intros Hc Hin Ht Hall. revert df Hc.
  induction fs as [|f rest IH]; intros df Hc.
  - by apply elem_of_nil in Hin.
  - cbn [filter_loop].
    destruct (filter_step df f) as [result|e] eqn:Hs; cbn [mbind exc_bind];
      [|by eexists].
    apply elem_of_cons in Hin as [<-|Hin].
    + exfalso. unfold filter_step, getitem in Hs.
      rewrite Ht, bool_decide_eq_false_2, decide_False in Hs by done.
      by destruct value.
    + apply IH; [done|]. by rewrite (filter_step_columns _ _ _ Hs).
Qed.

Lemma apply_filters_missing df fs field value :
  field ∉ columns df -> (field, value) ∈ fs ->
  criterion_truthy value = true -> value <> Scalar (VStr "All") ->
  exists e, _apply_filters df fs = Raise e.
Proof.
  intros Hc Hin Ht Hall. unfold _apply_filters.
  rewrite bool_decide_eq_false_2.
  - by eapply filter_loop_missing.
  - intros ->. by apply elem_of_nil in Hin.
Qed.

Lemma build_search_query_run params (st : state) :
  exists r, _build_search_query params st = (r, st) /\
    forall df, r = Ok df ->
      columns df = columns (metadata_df (metadata_model (self st))).
Proof.
  unfold _build_search_query, mbind, M_bind, store_df, gets.
  destruct (decide (lower (default "" (text params)) = "")).
  - eexists. split; [done|]. by intros df [= <-].
  - unfold lift.
    destruct (text_mask _ _ _ _) as [mask|e].
    + eexists. split; [done|]. by intros df [= <-].
    + eexists. split; [done|]. done.
Qed.

Lemma execute_search_missing params fs field value (st : state) :
  Dict.get (repr params) (search_cache (self st)) = None ->
  filters params = Some fs -> (field, value) ∈ fs ->
  criterion_truthy value = true -> value <> Scalar (VStr "All") ->
  field ∉ columns (metadata_df (metadata_model (self st))) ->
  exists e,
    execute_search params st
    = (Ok tt,
       on_self (add_emitted (searchError e))
         (on_world (add_log {| levelname := ERROR; msg := "Search error: ";
                               args := [LogExn e] |})
            (on_self (add_emitted searchStarted) st))).
Proof.
  intros Hmiss Hfs Hin Ht Hall Hc.
  unfold execute_search, try_except.
  unfold mbind at 1, M_bind at 1, emit at 1. cbn [modify].
  unfold mbind at 1, M_bind at 1, the_cache at 1. cbn [gets on_self self add_emitted search_cache].
  rewrite Hmiss.
  destruct (build_search_query_run params (on_self (add_emitted searchStarted) st))
    as (r & Hr & Hcols).
  unfold mbind at 1, M_bind at 1. rewrite Hr.
  destruct r as [query|e]; [|by exists e].
  rewrite Hfs. unfold mbind at 1, M_bind at 1. cbn [lift].
  destruct (apply_filters_missing query fs field value) as [e He]; try done.
  { by rewrite (Hcols query eq_refl). }
  unfold mbind at 1, M_bind at 1. rewrite He. cbn [lift]. by exists e.
Qed.

Lemma execute_search_hit params cached (st : state) :
  Dict.get (repr params) (search_cache (self st)) = Some cached ->
  execute_search params st
  = (Ok tt, on_self (add_emitted (searchCompleted cached))
              (on_self (add_emitted searchStarted) st)).
Proof.
  intros Hhit. unfold execute_search, try_except.
  unfold mbind at 1, M_bind at 1, emit at 1. cbn [modify].
  unfold mbind at 1, M_bind at 1, the_cache at 1. cbn [gets on_self self add_emitted search_cache].
  by rewrite Hhit.
Qed.

Lemma on_store_frame {A} (m : M (Obj MetadataModel.t) A) (st : state) :
  search_cache (self (on_store m st).2) = search_cache (self st) /\
  search_history (self (on_store m st).2) = search_history (self st) /\
  emitted (self (on_store m st).2) = emitted (self st).
Proof.
  unfold on_store. by destruct (m _) as [r o'].
Qed.

Lemma run_calls_under_search_frame cs (st : state) :
  search_cache (self (Caller.run_calls_under_search cs st)) = search_cache (self st) /\
  search_history (self (Caller.run_calls_under_search cs st)) = search_history (self st) /\
  emitted (self (Caller.run_calls_under_search cs st)) = emitted (self st).
Proof.
  revert st. induction cs as [|c cs IH]; intros st; [done|].
  cbn [Caller.run_calls_under_search].
  destruct (IH (on_store (Caller.run_call c) st).2) as (-> & -> & ->).
  apply on_store_frame.
Qed.
End Proofs.
End Executing.

(** ** [get_metadata], and what [add_files_basic_metadata] leaves alone *)

Module Reading.
Import Py Pd Os Hoare MetadataModel Rows Effects Lookup.

Lemma to_dict_lookup cs r c :
  to_dict cs r !! c = if decide (c ∈ cs) then Some (cell c r) else None.
Proof.
  unfold to_dict. case_decide as Hc.
  - apply elem_of_list_to_map_1.
    + rewrite <- list_fmap_compose. simpl.
      rewrite list_fmap_id. apply NoDup_elements.
    + apply list_elem_of_fmap. exists c. split; [done|]. by apply elem_of_elements.
  - apply not_elem_of_list_to_map_1. rewrite <- list_fmap_compose. simpl.
    rewrite list_fmap_id. by rewrite elem_of_elements.
Qed.

Lemma rows_select_eq df p :
  rows (select df (eq (cell "file_path" <$> rows df) (VStr p)))
  = filter (keyed p) (rows df).
Proof.
  unfold eq.
  rewrite (Records.select_fmap df "file_path"
             (fun x => bool_decide (x = VStr p /\ x <> VNaN))).
  apply list_filter_iff. intros r. unfold keyed.
  rewrite bool_decide_eq_true. split; [tauto|]. intros Hk. split; [done|].
  by rewrite Hk.
Qed.

Section Proofs.
Context `{Unicode} `{Path} `{Re.Engine}.

Lemma get_metadata_hit p cached (st : state) :
  metadata_cache (self st) !! p = Some cached ->
  get_metadata p st = (Ok (Some cached), st).
Proof.
  intros Hc. unfold get_metadata, try_except, mbind, M_bind, gets.
  by rewrite Hc.
Qed.

Lemma get_metadata_miss p (st : state) :
  metadata_cache (self st) !! p = None ->
  "file_path" ∈ columns (metadata_df (self st)) ->
  get_metadata p st
  = match first_keyed p (metadata_df (self st)) with
    | None => (Ok None, st)
    | Some first =>
        let metadata := to_dict (columns (metadata_df (self st))) first in
        (Ok (Some metadata),
         on_self (set_metadata_cache
                    (<[p := metadata]> (metadata_cache (self st)))) st)
    end.
Proof.
  intros Hm Hc. unfold get_metadata, try_except, mbind, M_bind, gets.
  rewrite Hm. unfold the_df, gets, lift, getitem. rewrite decide_True by done.
  cbn [fst snd]. rewrite rows_select_eq. unfold first_keyed.
  destruct (filter (keyed p) (rows (metadata_df (self st)))) as [|first l]; done.
Qed.

Lemma for_each_app {S A} (xs ys : list A) (body : A -> M S unit) (s : S) :
  for_each (xs ++ ys) body s
  = match for_each xs body s with
    | (Ok _, s') => for_each ys body s'
    | (Raise e, s') => (Raise e, s')
    end.
Proof.
  revert s. induction xs as [|x xs IH]; intros s; [done|].
  cbn [app for_each]. unfold mbind, M_bind.
  destruct (body x s) as [[[]|e] s']; [apply IH|done].
Qed.

End Proofs.

(** What a method leaves alone, when every change it makes to the
    machine and to the table is within [R]. *)
Section Frame.
Context `{Unicode} `{Path} `{Re.Engine}.
Context (R : relation state) `{!PreOrder R}.
Hypothesis Hworld : forall (s : state) f, R s (on_world f s).
Hypothesis Hdf : forall (s : state) df, R s (on_self (set_metadata_df df) s).

Lemma keeps_datetime_now : respects R datetime_now.
Proof. intros s. apply Hworld. Qed.

Lemma keeps_getsize path : respects R (getsize path).
Proof. intros s. unfold getsize. by case_match. Qed.

Lemma keeps_getmtime path : respects R (getmtime path).
Proof. intros s. unfold getmtime. by case_match. Qed.

Lemma keeps_logging lv text a : respects R (logging lv text a).
Proof. intros s. apply Hworld. Qed.

Lemma keeps_to_excel df : respects R (to_excel df).
Proof. intros s. apply Hworld. Qed.

Lemma keeps_assign_df df : respects R (assign_df df).
Proof. intros s. apply Hdf. Qed.

Lemma keeps_backup : respects R backup_current_metadata.
Proof.
  intros s. rewrite Backups.backup_current_metadata_run. cbn [snd].
  destruct (excel_file (world s)); [|done].
  apply (Hworld s (fun w => set_backup_files _ (tick w))).
Qed.

Hint Resolve keeps_datetime_now keeps_getsize keeps_getmtime keeps_logging
  keeps_to_excel keeps_assign_df keeps_backup : core.

Lemma keeps_save_database : respects R save_database.
Proof. unfold save_database, the_df. Backups.respects_go; auto. Qed.

Lemma keeps_add_files_basic_metadata file_paths :
  respects R (add_files_basic_metadata file_paths).
Proof.
  pose proof keeps_save_database.
  unfold add_files_basic_metadata, basic_metadata, remove_existing_entry,
    add_entry, the_df.
  Backups.respects_go; auto.
Qed.
End Frame.

End Reading.

(** ** Prefixes and the safety gate *)

Module Gate.
Import Py Os AccessSafety.

Lemma prefix_refl s : String.prefix s s = true.
Proof.
  induction s as [|c s IH]; [done|]. simpl.
  destruct (ascii_dec c c); [done|congruence].
Qed.

Lemma prefix_app s t : String.prefix s (s +:+ t) = true.
Proof.
  induction s as [|c s IH]; simpl; [by destruct t|].
  destruct (ascii_dec c c); [done|congruence].
Qed.

Section Proofs.
Context `{Unicode} `{Path}.

Lemma is_protected_path_iff paths path :
  is_protected_path (set_protected_paths paths) path = true
  <-> exists p, p ∈ paths /\ String.prefix (normpath p) (normpath path) = true.
Proof.
  unfold is_protected_path, set_protected_paths, startswith. cbn [read_only_paths].
  rewrite existsb_exists. split.
  - intros (x & Hx & Hp). apply list_elem_of_In, elem_of_elements in Hx.
    apply elem_of_list_to_set, list_elem_of_fmap in Hx as (p & -> & Hin).
    by exists p.
  - intros (p & Hin & Hp). exists (normpath p). split; [|done].
    apply list_elem_of_In, elem_of_elements, elem_of_list_to_set, list_elem_of_fmap.
    by exists p.
Qed.
End Proofs.
End Gate.

(** ** The steps of [execute_search] *)

Module Answering.
Import Py Pd Os MetadataModel SearchModel Answer ListFacts.

Lemma select_sublist df mask : rows (select df mask) `sublist_of` rows df.
Proof.
  unfold select. cbn [rows]. revert mask.
  induction (rows df) as [|r l IH]; intros [|b mask]; cbn [zip zip_with];
    try apply sublist_nil_l.
  destruct b.
  - rewrite filter_cons_True by done. rewrite fmap_cons. cbn [fst].
    apply sublist_skip, IH.
  - rewrite filter_cons_False by (cbn [snd]; congruence).
    apply sublist_cons, IH.
Qed.

Lemma select_map df (f : row -> bool) :
  select df (f <$> rows df)
  = {| columns := columns df; rows := filter (fun r => f r = true) (rows df) |}.
Proof.
  unfold select. f_equal. induction (rows df) as [|r l IH]; [done|].
  rewrite fmap_cons. cbn [zip zip_with].
  destruct (f r) eqn:Hf.
  - rewrite !filter_cons_True by done. rewrite fmap_cons. cbn [fst]. by rewrite IH.
  - rewrite !filter_cons_False by (cbn [snd]; congruence). done.
Qed.

Lemma match_here_literal_case pat s :
  Re.match_here false (Re.literal pat) s = String.prefix pat s.
Proof.
  revert s. induction pat as [|c pat IH]; intros s; simpl.
  - by destruct s.
  - destruct s as [|d s]; simpl; [done|]. rewrite IH.
    destruct (ascii_dec c d) as [->|Hne].
    + by rewrite Ascii.eqb_refl.
    + apply Ascii.eqb_neq in Hne. by rewrite Hne.
Qed.

Lemma search_literal_case pat s :
  Re.search false (Re.literal pat) s = contains pat s.
Proof.
  induction s as [|d s IH]; simpl.
  - by rewrite match_here_literal_case.
  - by rewrite match_here_literal_case, IH.
Qed.

Lemma zip_with_orb_fmap {A} (f g : A -> bool) (l : list A) :
  zip_with orb (f <$> l) (g <$> l) = (fun x => f x || g x) <$> l.
Proof.
  induction l as [|x l IH]; [done|].
  rewrite !fmap_cons. cbn [zip_with]. by rewrite IH.
Qed.

Section Proofs.
Context `{Unicode} `{Path} `{Re.Engine} `{Host} `{Repr}.

Lemma isascii_lower s : isascii s = true -> isascii (lower s) = true.
Proof.
  intros Hs. unfold lower. rewrite Hs. by apply Search.isascii_lower_bytes.
Qed.

Lemma str_contains_text (col : list value) pat :
  Re.plain pat = true ->
  isascii pat = true ->
  (forall v, v ∈ col -> isascii (str v) = true) ->
  str_contains ((fun v => VStr (lower (str v))) <$> col) pat true
  = Ok ((fun v => contains pat (lower (str v))) <$> col).
Proof.
  intros Hp Hpat Hcol. unfold str_contains, Re.compile.
  rewrite Search.parse_plain by done.
  assert (str_accessor ((fun v => VStr (lower (str v))) <$> col) = Ok tt) as ->.
  { unfold str_accessor. destruct (dropna _) as [|v vs] eqn:Hd; [done|].
    assert (v ∈ dropna ((fun v => VStr (lower (str v))) <$> col)) as Hv
      by (rewrite Hd; left).
    apply Unique.elem_of_dropna in Hv as [Hv _].
    apply list_elem_of_fmap in Hv as (w & -> & _). done. }
  cbn [mbind exc_bind mret exc_ret negb]. f_equal.
  rewrite <- list_fmap_compose. apply list_fmap_ext. intros i v Hv.
  cbn. rewrite Hpat, isascii_lower by (eapply Hcol, list_elem_of_lookup_2, Hv).
  apply search_literal_case.
Qed.

Lemma text_mask_run df text_search cols (f0 : row -> bool) :
  Re.plain text_search = true ->
  isascii text_search = true ->
  (forall c r, c ∈ cols -> r ∈ rows df -> isascii (str (cell c r)) = true) ->
  (forall c, c ∈ cols -> c ∈ columns df) ->
  text_mask df text_search cols (f0 <$> rows df)
  = Ok ((fun r => f0 r || mentions text_search cols r) <$> rows df).
Proof.
  intros Hp Hpat. revert f0. induction cols as [|c cols IH]; intros f0 Ha Hc.
  - cbn [text_mask mret exc_ret]. f_equal. apply list_fmap_ext.
    intros i r _. cbn. by rewrite orb_false_r.
  - cbn [text_mask]. unfold getitem. rewrite decide_True by (apply Hc; left).
    cbn [mbind exc_bind]. rewrite str_contains_text; [|done|done|].
    2:{ intros v (r & -> & Hr)%list_elem_of_fmap. apply Ha; [left|done]. }
    cbn [mbind exc_bind].
    rewrite <- list_fmap_compose.
    assert (zip_with orb (f0 <$> rows df)
              (((fun v => contains text_search (lower (str v))) ∘ cell c)
                 <$> rows df)
            = (fun r => f0 r || contains text_search (lower (str (cell c r))))
                <$> rows df) as ->.
    { apply zip_with_orb_fmap. }
    rewrite IH.
    2:{ intros c' r Hc' Hr. apply Ha; [by right|done]. }
    2:{ intros c' Hc'. apply Hc. by right. }
    f_equal. apply list_fmap_ext. intros i r _. cbn [mentions existsb].
    by rewrite orb_assoc.
Qed.

Lemma filter_step_run df field value :
  (criterion_truthy value = true -> value <> Scalar (VStr "All") ->
   field ∈ columns df) ->
  filter_step df (field, value)
  = Ok {| columns := columns df;
          rows := filter (fun r => passes r (field, value) = true) (rows df) |}.
Proof.
  intros Hc. unfold filter_step, passes.
  destruct (criterion_truthy value) eqn:Ht; cbn [andb].
  2:{ cbn [mret exc_ret]. rewrite filter_all by done. by destruct df. }
  case_bool_decide as Hall; cbn [negb].
  { cbn [mret exc_ret]. rewrite filter_all by done. by destruct df. }
  unfold getitem. rewrite decide_True by (by apply Hc).
  destruct value as [v|vs]; cbn [mbind exc_bind mret exc_ret]; f_equal.
  - unfold eq. rewrite <- list_fmap_compose. apply (select_map df).
  - unfold isin. rewrite <- list_fmap_compose. apply (select_map df).
Qed.

Lemma filter_loop_run df fs :
  (forall field value,
     (field, value) ∈ fs -> criterion_truthy value = true ->
     value <> Scalar (VStr "All") -> field ∈ columns df) ->
  filter_loop df fs
  = Ok {| columns := columns df;
          rows := filter (fun r => forallb (passes r) fs = true) (rows df) |}.
Proof.
  revert df. induction fs as [|[field value] fs IH]; intros df Hc.
  - cbn [filter_loop mret exc_ret]. rewrite filter_all by done. by destruct df.
  - cbn [filter_loop]. rewrite filter_step_run by (apply Hc; left).
    cbn [mbind exc_bind]. rewrite IH.
    2:{ intros f v Hin. cbn [columns]. apply Hc. by right. }
    cbn [columns rows]. f_equal. f_equal.
    rewrite list_filter_filter. apply list_filter_iff. intros r.
    cbn [forallb]. rewrite andb_true_iff. tauto.
Qed.

(** [execute_search] on a query that is not in the cache. *)
Lemma build_search_query_answer params (st : state) :
  _build_search_query params st
  = ((let text_search := lower (default "" (text params)) in
      let df := metadata_df (metadata_model (self st)) in
      if decide (text_search = "") then mret df
      else
        mask ← text_mask df text_search (select_dtypes_object df)
                         (replicate (len df) false);
        mret (select df mask)), st).
Proof.
  unfold _build_search_query, mbind at 1, M_bind, store_df, gets.
  cbn zeta. case_decide; [done|]. unfold lift.
  by destruct (text_mask _ _ _ _).
Qed.

Lemma get_None {V} key (d : list (string * V)) :
  Dict.get key d = None -> key ∉ Dict.keys d.
Proof.
  induction d as [|[k w] d IH]; cbn [Dict.get]; [intros _; apply not_elem_of_nil|].
  case_decide as Hk; [done|]. intros Hd. unfold Dict.keys. rewrite fmap_cons.
  apply not_elem_of_cons. split; [by cbn|]. by apply IH.
Qed.

Lemma cached_fresh key results (cache : list (string * DataFrame)) :
  NoDup (Dict.keys cache) -> key ∉ Dict.keys cache ->
  NoDup (Dict.keys (Dict.set key results cache)) /\
  NoDup (Dict.keys (cached key results cache)) /\
  ((length cache <= 100)%nat -> (length (cached key results cache) <= 100)%nat) /\
  Dict.get key (cached key results cache) = Some results.
Proof.
  intros Hnd Hfresh. unfold cached. rewrite Cache.set_fresh by done.
  assert (NoDup (Dict.keys (cache ++ [(key, results)])%list)) as Hn'.
  { unfold Dict.keys. rewrite fmap_app. apply NoDup_app. split; [done|].
    split; [|apply NoDup_singleton].
    intros k Hk [->|Hn]%elem_of_cons; [done|]. by apply elem_of_nil in Hn. }
  split; [done|]. rewrite length_app. cbn [length].
  case_decide as Hlen.
  - split; [|split].
    + unfold Dict.keys. rewrite fmap_drop.
      rewrite <- (take_drop (length cache + 1 - 50)
                    (Dict.keys (cache ++ [(key, results)])%list)) in Hn'.
      by apply NoDup_app in Hn' as (_ & _ & ?).
    + rewrite length_drop, length_app. cbn [length]. lia.
    + rewrite drop_app_le by lia. apply Cache.get_last. intros Hk.
      apply Hfresh. unfold Dict.keys in *. rewrite fmap_drop in Hk.
      by eapply subseteq_drop.
  - split; [done|]. split; [rewrite length_app; cbn [length]; lia|].
    by apply Cache.get_last.
Qed.

Lemma execute_search_miss params (st : state) :
  Dict.get (repr params) (search_cache (self st)) = None ->
  NoDup (Dict.keys (search_cache (self st))) ->
  execute_search params st
  = (Ok tt,
     match answer params (metadata_df (metadata_model (self st))) with
     | Ok results =>
         on_self (add_emitted (searchCompleted results))
           (on_self (set_search_history
                       (recorded {| params := params;
                                    timestamp := clock (world st)
                                                   (clock_reads (world st));
                                    results_count := len results |}
                                 (search_history (self st))
                                 (max_history (self st))))
              (on_world tick
                 (CacheOps.with_cache
                    (cached (repr params) results (search_cache (self st)))
                    (on_self (add_emitted searchStarted) st))))
     | Raise e =>
         on_self (add_emitted (searchError e))
           (on_world (add_log {| levelname := ERROR; msg := "Search error: ";
                                 args := [LogExn e] |})
              (on_self (add_emitted searchStarted) st))
     end).
Proof.
  intros Hmiss Hnd. pose proof (get_None _ _ Hmiss) as Hfresh.
  unfold execute_search, try_except.
  unfold mbind at 1, M_bind at 1, emit at 1. cbn [modify].
  unfold mbind at 1, M_bind at 1, the_cache at 1.
  cbn [gets on_self self add_emitted search_cache].
  rewrite Hmiss.
  unfold mbind at 1, M_bind at 1. rewrite build_search_query_answer.
  cbn [on_self self add_emitted metadata_model]. cbn zeta.
  unfold answer. cbn zeta.
  match goal with
  | |- context [mbind _ ?q] =>
      match type of q with exc DataFrame => destruct q as [query|e] end
  end; [|done].
  cbn [mbind exc_bind].
  unfold mbind at 1, M_bind at 1. cbn [lift].
  destruct (filters params) as [fs|]; [|done]. cbn [mbind exc_bind].
  unfold mbind at 1, M_bind at 1. cbn [lift].
  destruct (_apply_filters query fs) as [filtered|e]; [|done].
  cbn [mbind exc_bind].
  unfold mbind at 1, M_bind at 1. cbn [lift].
  destruct (_sort_results filtered _ _) as [results|e]; [|done].
  destruct (cached_fresh (repr params) results (search_cache (self st)) Hnd Hfresh)
    as (Hn1 & Hn2 & _ & Hget).
  unfold mbind at 1, M_bind at 1.
  rewrite Cache.cache_results_run by done.
  change (if decide (100 < length (Dict.set (repr params) results
                                     (search_cache (self (on_self (add_emitted searchStarted) st)))))%nat
          then _ else _)
    with (cached (repr params) results (search_cache (self st))).
  unfold mbind at 1, M_bind at 1.
  unfold _update_search_history.
  unfold mbind at 1, M_bind at 1. cbn [datetime_now].
  unfold mbind at 1, M_bind at 1, the_cache at 1.
  cbn [gets on_world on_self self world CacheOps.with_cache search_cache
    set_search_cache add_emitted].
  unfold mbind at 1, M_bind at 1. unfold Dict.getitem. rewrite Hget. cbn [lift].
  unfold mbind, M_bind, gets, modify, emit, modify, recorded.
  cbn [on_world on_self self world search_history set_search_history
    max_history clock clock_reads fst snd].
  unfold CacheOps.with_cache.
  cbn [on_world on_self self world search_history set_search_history
    set_search_cache add_emitted max_history].
  case_decide; reflexivity.
Qed.

End Proofs.
End Answering.

(** ** [search_metadata] narrows the table *)

Module Narrowing.
Import Py Pd Os MetadataModel.
Section Proofs.
Context `{Unicode} `{Path} `{Re.Engine}.

Lemma search_step_sublist df term result :
  search_step df term = Ok result ->
  rows result `sublist_of` rows df /\ columns result = columns df.
Proof.
  destruct term as [field value]. unfold search_step.
  destruct (criterion_truthy value); [|by intros [= <-]].
  destruct value as [v|vs]; destruct (getitem df field) as [col|e];
    cbn [mbind exc_bind mret exc_ret]; try done.
  - destruct (str_contains col (str v) false); cbn [mbind exc_bind]; [|done].
    intros [= <-]. split; [apply Answering.select_sublist|done].
  - intros [= <-]. split; [apply Answering.select_sublist|done].
Qed.

Lemma search_loop_sublist df search_terms result :
  search_loop df search_terms = Ok result ->
  rows result `sublist_of` rows df /\ columns result = columns df.
Proof.
  revert df. induction search_terms as [|term rest IH]; intros df.
  - by intros [= <-].
  - cbn [search_loop].
    destruct (search_step df term) as [step|e] eqn:Hs; cbn [mbind exc_bind];
      [|done].
    intros Hl. apply search_step_sublist in Hs as [Hs1 Hs2].
    apply IH in Hl as [Hl1 Hl2]. split; [by etrans|congruence].
Qed.
End Proofs.
End Narrowing.

(** ** Suggestions, the tally of searches and their order *)

Module Suggesting.
Import Py Pd Os SearchModel Suggestions ListFacts.

Lemma elem_of_fromkeys xs x : x ∈ fromkeys xs <-> x ∈ xs.
Proof.
  induction xs as [|y xs IH]; cbn [fromkeys]; [done|].
  rewrite !elem_of_cons, list_elem_of_filter, IH.
  destruct (decide (x = y)); tauto.
Qed.

Lemma NoDup_fromkeys xs : NoDup (fromkeys xs).
Proof.
  induction xs as [|y xs IH]; cbn [fromkeys]; [constructor|].
  constructor.
  - rewrite list_elem_of_filter. tauto.
  - by apply NoDup_filter.
Qed.

Lemma head_fromkeys xs : head (fromkeys xs) = head xs.
Proof. by destruct xs. Qed.

Lemma elem_of_masked xs mask x : x ∈ masked xs mask -> x ∈ xs.
Proof.
  unfold masked. revert mask. induction xs as [|y xs IH]; intros [|b mask];
    cbn [zip zip_with]; try (by intros ?%elem_of_nil).
  destruct b.
  - rewrite filter_cons_True by done. rewrite fmap_cons. cbn [fst].
    intros [->|Hx]%elem_of_cons; [left|right; by eapply IH].
  - rewrite filter_cons_False by (cbn [snd]; congruence).
    intros Hx. right. by eapply IH.
Qed.

(** What the mask kept is a value the mask is [True] for. *)
Lemma elem_of_masked_fmap {A} (f : A -> string) (g : A -> bool) (l : list A) x :
  x ∈ masked (f <$> l) (g <$> l) -> exists a, a ∈ l /\ x = f a /\ g a = true.
Proof.
  unfold masked. induction l as [|a l IH]; rewrite ?fmap_cons;
    cbn [zip zip_with]; [by intros ?%elem_of_nil|].
  destruct (g a) eqn:Hg.
  - rewrite filter_cons_True by done. rewrite fmap_cons. cbn [fst].
    intros [->|Hx]%elem_of_cons.
    + exists a. split; [left|done].
    + destruct (IH Hx) as (b & Hb & Hf). exists b. split; [by right|done].
  - rewrite filter_cons_False by (cbn [snd]; congruence).
    intros Hx. destruct (IH Hx) as (b & Hb & Hf). exists b.
    split; [by right|done].
Qed.

(** *** The dictionary of counts *)

Section DictFacts.
Context {V : Type}.
Implicit Types d : list (string * V).

Lemma get_set k key v d :
  Dict.get k (Dict.set key v d)
  = if decide (k = key) then Some v else Dict.get k d.
Proof.
  induction d as [|[k' w] d IH]; cbn [Dict.set Dict.get].
  - destruct (decide (key = k)), (decide (k = key)); congruence.
  - destruct (decide (k' = key)) as [->|Hne]; cbn [Dict.get].
    + destruct (decide (key = k)), (decide (k = key)); congruence.
    + destruct (decide (k' = k)) as [->|Hne'].
      * by rewrite decide_False.
      * apply IH.
Qed.

Lemma get_Some k v d : Dict.get k d = Some v -> (k, v) ∈ d.
Proof.
  induction d as [|[k' w] d IH]; cbn [Dict.get]; [done|].
  case_decide as Hk.
  - intros [= ->]. subst. left.
  - intros Hg. right. by apply IH.
Qed.

Lemma elem_of_get k v d : NoDup (Dict.keys d) -> (k, v) ∈ d -> Dict.get k d = Some v.
Proof.
  induction d as [|[k' w] d IH]; intros Hd Hin.
  - by apply elem_of_nil in Hin.
  - unfold Dict.keys in Hd. rewrite fmap_cons in Hd. cbn [fst] in Hd.
    apply NoDup_cons in Hd as [Hk Hd]. cbn [Dict.get].
    apply elem_of_cons in Hin as [[= <- <-]|Hin].
    + by rewrite decide_True.
    + rewrite decide_False; [by apply IH|].
      intros ->. apply Hk. apply list_elem_of_fmap. by exists (k, v).
Qed.

Lemma NoDup_keys_set key v d :
  NoDup (Dict.keys d) -> NoDup (Dict.keys (Dict.set key v d)).
Proof.
  intros Hd. destruct (decide (key ∈ Dict.keys d)) as [Hin|Hin].
  - by destruct (Cache.set_present key v d Hin) as [-> _].
  - rewrite Cache.set_fresh by done. unfold Dict.keys. rewrite fmap_app.
    apply NoDup_app. split; [done|]. split; [|apply NoDup_singleton].
    intros k Hk [->|Hn]%elem_of_cons; [done|]. by apply elem_of_nil in Hn.
Qed.
End DictFacts.

(** *** The order of popularity *)

Lemma key_ge_trans x y z : key_ge x y -> key_ge y z -> key_ge x z.
Proof. unfold key_ge, key_lt. lia. Qed.

Lemma key_lt_ge x y : key_lt x y -> key_ge y x.
Proof. unfold key_ge, key_lt. lia. Qed.

Lemma insert_desc_perm x l : insert_desc x l ≡ₚ x :: l.
Proof.
  induction l as [|y l IH]; cbn [insert_desc]; [done|].
  case_decide; [|done]. rewrite IH. apply Permutation_swap.
Qed.

Lemma sorted_reverse_perm l : sorted_reverse l ≡ₚ l.
Proof.
  induction l as [|x l IH]; [done|]. cbn [sorted_reverse foldr].
  rewrite insert_desc_perm. by f_equiv.
Qed.

Lemma insert_desc_sorted x l :
  StronglySorted key_ge l -> StronglySorted key_ge (insert_desc x l).
Proof.
  induction 1 as [|y l Hl IH Hy]; cbn [insert_desc].
  - repeat constructor.
  - case_decide as Hlt.
    + constructor; [done|]. rewrite insert_desc_perm.
      constructor; [by apply key_lt_ge|done].
    + constructor; [by constructor|]. constructor; [done|].
      eapply Forall_impl; [exact Hy|]. intros z Hz. by eapply key_ge_trans.
Qed.

Lemma sorted_reverse_sorted l : StronglySorted key_ge (sorted_reverse l).
Proof.
  induction l as [|x l IH]; [constructor|]. by apply insert_desc_sorted.
Qed.

(** *** The tally *)

Lemma tally_spec history :
  let search_counts := foldl tally [] history in
  NoDup (Dict.keys search_counts) /\
  forall search_text,
    Dict.get search_text search_counts = entry_of search_text history.
Proof.
  induction history as [|search history IH] using rev_ind.
  - cbn. split; [constructor|]. intros t. unfold entry_of. by case_decide.
  - cbn zeta in *. rewrite foldl_app. cbn [foldl].
    destruct IH as [Hnd Hget]. set (d := foldl tally [] history) in *.
    assert (forall t, searched t (history ++ [search])
                      = (searched t history
                           ++ if decide (text_of search = t) then [search] else [])%list)
      as Hs.
    { intros t. unfold searched. by rewrite filter_app. }
    unfold tally. case_decide as He.
    { split; [done|]. intros t. rewrite Hget. unfold entry_of.
      case_decide as Ht; [done|]. rewrite Hs.
      rewrite decide_False by congruence. by rewrite app_nil_r. }
    rewrite Hget.
    assert (forall t, t <> text_of search ->
                      entry_of t (history ++ [search]) = entry_of t history) as Hother.
    { intros t Ht. unfold entry_of. case_decide; [done|]. rewrite Hs.
      rewrite decide_False by congruence. by rewrite app_nil_r. }
    destruct (searched (text_of search) history) as [|first others] eqn:Hh.
    + assert (entry_of (text_of search) history = None) as ->.
      { unfold entry_of. rewrite decide_False by done. by rewrite Hh. }
      split; [by apply NoDup_keys_set|]. intros t. rewrite get_set.
      case_decide as Ht; [|by rewrite Hget, Hother].
      subst t. unfold entry_of. rewrite decide_False by done.
      rewrite Hs, Hh, decide_True by done. done.
    + assert (entry_of (text_of search) history
              = Some {| popular_text := text_of search;
                        count := S (length others);
                        last_used := timestamp first |}) as ->.
      { unfold entry_of. rewrite decide_False by done. by rewrite Hh. }
      cbn [popular_text count last_used].
      split; [by apply NoDup_keys_set|]. intros t. rewrite get_set.
      case_decide as Ht; [|by rewrite Hget, Hother].
      subst t. unfold entry_of. rewrite decide_False by done.
      rewrite Hs, Hh, decide_True by done. cbn [app].
      rewrite length_app. cbn [length]. do 3 f_equal. lia.
Qed.

Lemma elem_of_tally history x :
  x ∈ (foldl tally [] history).*2
  <-> entry_of (popular_text x) history = Some x.
Proof.
  destruct (tally_spec history) as [Hnd Hget]. cbn zeta in *.
  rewrite list_elem_of_fmap. split.
  - intros ([k v] & -> & Hin). cbn [snd].
    apply elem_of_get in Hin; [|done]. rewrite Hget in Hin.
    assert (popular_text v = k) as ->; [|done].
    unfold entry_of in Hin. case_decide; [done|].
    destruct (searched k history); by simplify_eq.
  - intros Hx. exists (popular_text x, x). split; [done|].
    apply get_Some. by rewrite Hget.
Qed.

Lemma NoDup_tally_texts history :
  NoDup (popular_text <$> (foldl tally [] history).*2).
Proof.
  destruct (tally_spec history) as [Hnd Hget]. cbn zeta in *.
  replace (popular_text <$> (foldl tally [] history).*2)
    with (Dict.keys (foldl tally [] history)); [done|].
  unfold Dict.keys. rewrite <- list_fmap_compose.
  symmetry. apply list_fmap_ext. intros i [k v] Hin%list_elem_of_lookup_2. cbn.
  assert (v ∈ (foldl tally [] history).*2) as Hv.
  { apply list_elem_of_fmap. by exists (k, v). }
  apply elem_of_tally in Hv.
  apply elem_of_get in Hin; [|done]. rewrite Hget in Hin.
  unfold entry_of in Hin. case_decide; [done|].
  destruct (searched k history); by simplify_eq.
Qed.

Section Proofs.
Context `{Unicode} `{Path} `{Re.Engine} `{Host} `{Repr}.

Lemma recent_matches_elem partial history recent s :
  recent_matches partial history = Ok recent -> s ∈ recent ->
  exists search, search ∈ history /\ text (params search) = Some s /\
                 contains (lower partial) (lower s) = true.
Proof.
  revert recent. induction history as [|search rest IH]; intros recent.
  - intros [= <-] Hs. by apply elem_of_nil in Hs.
  - cbn [recent_matches].
    destruct (contains (lower partial) (lower (text_of search))) eqn:Hc.
    + unfold text_of in Hc.
      destruct (text (params search)) as [t|] eqn:Ht; cbn [mbind exc_bind]; [|done].
      destruct (recent_matches partial rest) as [l|e]; cbn [mbind exc_bind]; [|done].
      intros [= <-] [->|Hs]%elem_of_cons.
      * exists search. split; [left|]. by split.
      * destruct (IH l eq_refl Hs) as (e & He & Hr). exists e. split; [by right|done].
    + intros Hr Hs. destruct (IH recent Hr Hs) as (e & He & Hr').
      exists e. split; [by right|done].
Qed.

Lemma recent_matches_head partial history recent :
  recent_matches partial history = Ok recent ->
  head recent
  = text_of <$> head (filter (fun search =>
      contains (lower partial) (lower (text_of search)) = true) history).
Proof.
  revert recent. induction history as [|search rest IH]; intros recent.
  - by intros [= <-].
  - cbn [recent_matches].
    destruct (contains (lower partial) (lower (text_of search))) eqn:Hc.
    + rewrite filter_cons_True by done.
      destruct (text (params search)) as [t|] eqn:Ht; cbn [mbind exc_bind]; [|done].
      destruct (recent_matches partial rest) as [l|e]; cbn [mbind exc_bind]; [|done].
      intros [= <-]. cbn. unfold text_of. by rewrite Ht.
    + rewrite filter_cons_False by congruence. apply IH.
Qed.

Lemma value_matches_elem df partial cols values s :
  value_matches df partial cols = Ok values -> s ∈ values ->
  exists c r matcher,
    c ∈ cols /\ r ∈ rows df /\ s = str (cell c r) /\
    Re.compile false (lower partial) = Ok matcher /\
    matcher (lower s) = true.
Proof.
  revert values. induction cols as [|c cols IH]; intros values.
  - intros [= <-] Hs. by apply elem_of_nil in Hs.
  - cbn [value_matches]. unfold getitem. case_decide as Hc; [|done].
    cbn [mbind exc_bind]. unfold str_contains.
    destruct (str_accessor _) as [[]|e]; cbn [mbind exc_bind negb]; [|done].
    destruct (Re.compile false (lower partial)) as [matcher|e] eqn:Hm;
      cbn [mbind exc_bind mret exc_ret]; [|done].
    destruct (value_matches df partial cols) as [l|e]; cbn [mbind exc_bind]; [|done].
    intros [= <-] [Hs|Hs]%elem_of_app.
    + apply (proj1 (elem_of_fromkeys _ _)) in Hs.
      rewrite <- !list_fmap_compose in Hs.
      apply elem_of_masked_fmap in Hs as (r & Hr & -> & Hhit).
      exists c, r, matcher. split; [left|]. by repeat split.
    + destruct (IH l eq_refl Hs) as (c' & r & m & Hc' & Hr).
      exists c', r, m. split; [by right|done].
Qed.

(** On ASCII text a pattern without special characters is found, the
    case of the letters counting, exactly where the text holds it. *)
Lemma compile_plain_case pat matcher s :
  Re.plain pat = true -> isascii pat = true -> isascii s = true ->
  Re.compile false pat = Ok matcher -> matcher s = contains pat s.
Proof.
  intros Hp Hpat Hs. unfold Re.compile. rewrite Search.parse_plain by done.
  intros [= <-]. rewrite Hpat, Hs. apply Answering.search_literal_case.
Qed.

End Proofs.
End Suggesting.

(** ** Columns under the methods of the store *)

Module Schema.
Import Py Pd Os Hoare MetadataModel Columns.

#[local] Instance grows_preorder : PreOrder grows.
Proof.
  split.
  - intros s. by split.
  - intros x y z [Hxy1 Hxy2] [Hyz1 Hyz2]. split; [by etrans|congruence].
Qed.

Section Proofs.
Context `{Unicode} `{Path} `{Re.Engine}.

Lemma grows_world (s : state) f : grows s (on_world f s).
Proof. by split. Qed.

Lemma grows_datetime_now : respects grows datetime_now.
Proof. intros s. apply grows_world. Qed.

Lemma grows_getsize path : respects grows (getsize path).
Proof. intros s. unfold getsize. by case_match. Qed.

Lemma grows_getmtime path : respects grows (getmtime path).
Proof. intros s. unfold getmtime. by case_match. Qed.

Lemma grows_logging lv text a : respects grows (logging lv text a).
Proof. intros s. apply grows_world. Qed.

Lemma grows_to_excel df : respects grows (to_excel df).
Proof. intros s. apply grows_world. Qed.

Lemma grows_cache (f : gmap string row -> gmap string row) :
  respects grows (modify (on_self (fun m =>
    set_metadata_cache (f (metadata_cache m)) m))).
Proof. intros s. by split. Qed.

Lemma grows_backup : respects grows backup_current_metadata.
Proof.
  intros s. rewrite Backups.backup_current_metadata_run. cbn [snd].
  destruct (excel_file (world s)); [|done].
  apply (grows_world s (fun w => set_backup_files _ (tick w))).
Qed.

Lemma grows_remove_existing_entry path :
  respects grows (remove_existing_entry path).
Proof.
  intros s. unfold remove_existing_entry, mbind, M_bind, the_df, gets, lift.
  cbn [fst snd]. destruct (getitem _ _); by split.
Qed.

Lemma grows_add_entry metadata : respects grows (add_entry metadata).
Proof.
  intros s. unfold add_entry, mbind, M_bind, the_df, gets.
  split; [|done]. cbn. set_solver.
Qed.

Lemma grows_save_database : respects grows save_database.
Proof. intros s. rewrite Records.save_database_run. apply grows_world. Qed.

Hint Resolve grows_datetime_now grows_getsize grows_getmtime grows_logging
  grows_to_excel grows_backup grows_remove_existing_entry grows_add_entry
  grows_save_database : core.

Lemma grows_add_files_basic_metadata file_paths :
  respects grows (add_files_basic_metadata file_paths).
Proof.
  unfold add_files_basic_metadata, basic_metadata.
  Backups.respects_go; auto.
Qed.

Lemma grows_update_metadata file_path metadata :
  respects grows (update_metadata file_path metadata).
Proof.
  unfold update_metadata.
  Backups.respects_go; auto.
Qed.

Lemma grows_run_calls cs (st : state) : grows st (Caller.run_calls cs st).
Proof.
  revert st. induction cs as [|c cs IH]; intros st; [done|].
  cbn [Caller.run_calls]. etrans; [|apply IH].
  destruct c; [apply grows_add_files_basic_metadata|apply grows_update_metadata].
Qed.
End Proofs.
End Schema.

(** ** The answer of an unsorted query *)

Module Answered.
Import Py Pd Os MetadataModel SearchModel Answer ListFacts.
Section Proofs.
Context `{Unicode} `{Path} `{Re.Engine} `{Host} `{Repr}.

Lemma answer_unsorted params df fs :
  let text_search := lower (default "" (text params)) in
  filters params = Some fs ->
  Re.plain text_search = true ->
  isascii text_search = true ->
  (forall c r, c ∈ select_dtypes_object df -> r ∈ rows df ->
               isascii (str (cell c r)) = true) ->
  (forall c, c ∈ select_dtypes_object df -> c ∈ columns df) ->
  (forall field value,
     (field, value) ∈ fs -> criterion_truthy value = true ->
     value <> Scalar (VStr "All") -> field ∈ columns df) ->
  sort_by params = None ->
  answer params df
  = Ok {| columns := columns df;
          rows := filter (fun r =>
                    (bool_decide (text_search = "")
                     || mentions text_search (select_dtypes_object df) r)
                    && forallb (passes r) fs = true) (rows df) |}.
Proof.
  intros text_search Hfs Hp Hpat Hcells Hcols Hf Hs. unfold answer. cbn zeta.
  fold text_search. rewrite Hfs, Hs.
  assert ((if decide (text_search = "") then mret df
           else mask ← text_mask df text_search (select_dtypes_object df)
                                 (replicate (len df) false);
                mret (select df mask))
          = Ok {| columns := columns df;
                  rows := filter (fun r =>
                    bool_decide (text_search = "")
                    || mentions text_search (select_dtypes_object df) r = true)
                    (rows df) |}) as ->.
  { case_decide as He.
    - rewrite filter_all; [by destruct df|]. intros r _.
      by rewrite bool_decide_eq_true_2.
    - replace (replicate (len df) false)
        with ((fun _ : row => false) <$> rows df).
      2:{ unfold len. generalize (rows df). intros l.
          induction l as [|r l IH]; [done|].
          rewrite fmap_cons. cbn [length replicate]. by rewrite IH. }
      rewrite Answering.text_mask_run by done.
      cbn [mbind exc_bind mret exc_ret orb].
      rewrite (Answering.select_map df
                 (mentions text_search (select_dtypes_object df))).
      do 2 f_equal. apply list_filter_iff. intros r.
      by rewrite bool_decide_eq_false_2. }
  cbn [mbind exc_bind].
  assert (forall d, _apply_filters d fs = filter_loop d fs) as Happly.
  { intros d. unfold _apply_filters. case_bool_decide as He; [|done].
    by subst. }
  rewrite Happly, Answering.filter_loop_run by (cbn [columns]; exact Hf).
  cbn [mbind exc_bind _sort_results mret exc_ret columns rows].
  do 2 f_equal. rewrite list_filter_filter. apply list_filter_iff. intros r.
  rewrite andb_true_iff. tauto.
Qed.
End Proofs.
End Answered.

Import Py Pd Os.

(** ** No exception leaves a public method *)

Section PublicMethods.
Context `{Unicode} `{Path} `{Re.Engine} `{Host} `{SearchModel.Repr}.

Ltac handled :=
  apply Hoare.total_try_except; intros e s; eexists; reflexivity.

Lemma update_metadata_total file_path metadata :
  total (MetadataModel.update_metadata file_path metadata).
Proof. handled. Qed.

Lemma add_files_basic_metadata_total file_paths :
  total (MetadataModel.add_files_basic_metadata file_paths).
Proof. handled. Qed.

Lemma search_metadata_total search_terms :
  total (MetadataModel.search_metadata search_terms).
Proof. handled. Qed.

Lemma get_unique_values_total field :
  total (MetadataModel.get_unique_values field).
Proof. handled. Qed.

Lemma get_metadata_total file_path :
  total (MetadataModel.get_metadata file_path).
Proof. handled. Qed.

Lemma execute_search_total params :
  total (SearchModel.execute_search params).
Proof. handled. Qed.

Lemma manager_update_metadata_total file_path metadata :
  total (MetadataManager.update_metadata file_path metadata).
Proof. handled. Qed.

Lemma manager_add_files_basic_metadata_total file_paths :
  total (MetadataManager.add_files_basic_metadata file_paths).
Proof. handled. Qed.

End PublicMethods.

(** ** The safety gate *)

Section SafetyGate.
Context `{Unicode} `{Path} `{Re.Engine}.

(** C3.  On a protected path [update_metadata] returns [False] and its
    only effect is one warning in the log: the record set, the metadata
    cache, the spreadsheet and the backup directory are what they were.
    This holds for the method of [MetadataModel] and for the one of
    [MetadataManager]. *)
Theorem update_protected_path_is_noop
    (st : Obj MetadataModel.t) (file_path : string) (metadata : row) :
  AccessSafety.is_protected_path (MetadataModel.safety (self st)) file_path
    = true ->
  exists (st1 st2 : Obj MetadataModel.t) (text1 text2 : string),
    MetadataModel.update_metadata file_path metadata st = (Ok false, st1) /\
    MetadataManager.update_metadata file_path metadata st = (Ok false, st2) /\
    (forall st', st' = st1 \/ st' = st2 ->
       self st' = self st /\
       backup_files (world st') = backup_files (world st) /\
       excel_file (world st') = excel_file (world st) /\
       files (world st') = files (world st) /\
       clock_reads (world st') = clock_reads (world st)) /\
    log (world st1)
      = (log (world st) ++ [{| levelname := WARNING; msg := text1;
                               args := [LogPath file_path] |}])%list /\
    log (world st2)
      = (log (world st) ++ [{| levelname := WARNING; msg := text2;
                               args := [LogPath file_path] |}])%list.
Proof.
  intros Hp.
  eexists _, _, _, _.
  unfold MetadataModel.update_metadata, MetadataManager.update_metadata,
    try_except, mbind, M_bind, gets.
  rewrite Hp. simpl.
  split; [reflexivity|]. split; [reflexivity|].
  split; [|split; reflexivity].
  intros st' [->| ->]; simpl; auto.
Qed.

End SafetyGate.


(** ** Retention of backups *)

Section BackupRetention.
Context `{Unicode} `{Path} `{Re.Engine}.


End BackupRetention.

(** ** Records and backups under [add] and [update] *)

Section AddAndUpdate.
Context `{Unicode} `{Path} `{Re.Engine}.

(** After [add_files_basic_metadata] on files that exist, every listed
    path has exactly one record, however many it had, and the other paths
    have the records they had. *)
Lemma add_files_basic_metadata_count
    (st : Obj MetadataModel.t) (file_paths : list string) (q : string) :
  (forall p, p ∈ file_paths -> is_Some (files (world st) !! p)) ->
  "file_path" ∈ columns (MetadataModel.metadata_df (self st)) ->
  (MetadataModel.add_files_basic_metadata file_paths st).1 = Ok true /\
  Rows.count_path q (MetadataModel.metadata_df
     (self (MetadataModel.add_files_basic_metadata file_paths st).2))
  = if decide (q ∈ file_paths) then 1%nat
    else Rows.count_path q (MetadataModel.metadata_df (self st)).
Proof.
  intros Hf Hc. rewrite Records.add_files_basic_metadata_run by done.
  rewrite Records.save_database_run. split; [done|].
  cbn [snd on_world self].
  destruct (Records.backup_current_metadata_frame st) as (Hs & Hfiles & _).
  rewrite Records.added_all_count by (by rewrite Hfiles).
  by rewrite Hs.
Qed.

(** [MetadataModel.update_metadata] on a writable path removes the records
    keyed by the path it is given and adds the record it is given, under
    whatever path that record carries. *)
Lemma update_metadata_count
    (st : Obj MetadataModel.t) (file_path : string) (metadata : row)
    (q : string) :
  AccessSafety.is_protected_path (MetadataModel.safety (self st)) file_path
    = false ->
  "file_path" ∈ columns (MetadataModel.metadata_df (self st)) ->
  (MetadataModel.update_metadata file_path metadata st).1 = Ok true /\
  Rows.count_path q (MetadataModel.metadata_df
     (self (MetadataModel.update_metadata file_path metadata st).2))
  = ((if decide (q = file_path) then 0
      else Rows.count_path q (MetadataModel.metadata_df (self st)))
     + (if decide (Rows.keyed q metadata) then 1 else 0))%nat.
Proof.
  intros Hp Hc. rewrite Records.update_metadata_run by done.
  rewrite Records.save_database_run. split; [done|].
  cbn [snd on_world self].
  destruct (Records.backup_current_metadata_frame
              (Effects.updated file_path metadata st)) as (-> & _).
  unfold Effects.updated. cbn [on_self self MetadataModel.metadata_df
    MetadataModel.set_metadata_cache MetadataModel.set_metadata_df].
  rewrite Records.count_replace_row. f_equal.
  destruct (decide (Rows.keyed q metadata)) as [Hk|Hk].
  - rewrite decide_True; [done|]. by apply Records.keyed_stamped.
  - rewrite decide_False; [done|]. by rewrite Records.keyed_stamped.
Qed.

(** [MetadataManager.update_metadata] writes the path into the record:
    the path it is given ends with exactly one record. *)
Lemma manager_update_metadata_count
    (st : Obj MetadataModel.t) (file_path : string) (metadata : row)
    (q : string) :
  AccessSafety.is_protected_path (MetadataModel.safety (self st)) file_path
    = false ->
  "file_path" ∈ columns (MetadataModel.metadata_df (self st)) ->
  (MetadataManager.update_metadata file_path metadata st).1 = Ok true /\
  Rows.count_path q (MetadataModel.metadata_df
     (self (MetadataManager.update_metadata file_path metadata st).2))
  = if decide (q = file_path) then 1%nat
    else Rows.count_path q (MetadataModel.metadata_df (self st)).
Proof.
  intros Hp Hc. rewrite Records.manager_update_metadata_run by done.
  rewrite Records.save_database_run. split; [done|].
  cbn [snd on_world self]. rewrite Records.manager_backup_run.
  cbn [snd BackupDir.with_backups on_world self Effects.manager_updated on_self
    MetadataModel.metadata_df MetadataModel.set_metadata_cache
    MetadataModel.set_metadata_df].
  rewrite Records.count_replace_row.
  destruct (decide (q = file_path)) as [->|Hne].
  - rewrite decide_True; [done|]. by apply Records.keyed_manager_stamped.
  - rewrite decide_False; [lia|]. by rewrite Records.keyed_manager_stamped.
Qed.

(** The table written to the backup directory by a call, when the
    spreadsheet is there: [add_files_basic_metadata] writes the table it
    found, [update_metadata] the table it has just changed. *)
Lemma add_files_basic_metadata_backup
    (st : Obj MetadataModel.t) (file_paths : list string) :
  is_Some (excel_file (world st)) ->
  (forall p, p ∈ file_paths -> is_Some (files (world st) !! p)) ->
  "file_path" ∈ columns (MetadataModel.metadata_df (self st)) ->
  backup_files (world (MetadataModel.add_files_basic_metadata file_paths st).2)
  = BackupDir.prune 10
      (<[BackupDir.backup_name (clock (world st) (clock_reads (world st)))
         := MetadataModel.metadata_df (self st)]> (backup_files (world st))).
Proof.
  intros [x Hx] Hf Hc. rewrite Records.add_files_basic_metadata_run by done.
  rewrite Records.save_database_run. cbn [snd on_world world backup_files
    set_excel_file].
  destruct (Records.added_all_frame file_paths
              (MetadataModel.backup_current_metadata st).2) as (_ & -> & _).
  rewrite Backups.backup_current_metadata_run, Hx. done.
Qed.

Lemma update_metadata_backup
    (st : Obj MetadataModel.t) (file_path : string) (metadata : row) :
  is_Some (excel_file (world st)) ->
  AccessSafety.is_protected_path (MetadataModel.safety (self st)) file_path
    = false ->
  "file_path" ∈ columns (MetadataModel.metadata_df (self st)) ->
  let st' := (MetadataModel.update_metadata file_path metadata st).2 in
  MetadataModel.metadata_df (self st')
  = Rows.replace_row file_path (Effects.stamped st metadata)
      (MetadataModel.metadata_df (self st)) /\
  backup_files (world st')
  = BackupDir.prune 10
      (<[BackupDir.backup_name (clock (world st) (S (clock_reads (world st))))
         := MetadataModel.metadata_df (self st')]> (backup_files (world st))).
Proof.
  intros [x Hx] Hp Hc st'. unfold st'.
  rewrite Records.update_metadata_run by done.
  rewrite Records.save_database_run. cbn [snd on_world world self backup_files
    set_excel_file].
  rewrite Backups.backup_current_metadata_run.
  cbn [Effects.updated on_world on_self world self excel_file tick].
  rewrite Hx. done.
Qed.


End AddAndUpdate.

(** ** Searching the table *)

Section Searching.
Context `{Unicode} `{Path} `{Re.Engine} `{Host} `{SearchModel.Repr}.

(** C6, as the code has it.  For criteria on columns that exist,
    [search_metadata] returns exactly the rows that satisfy every
    non-empty criterion: membership for a list, and for a scalar a text
    cell in which the given text, read as a regular expression, is found
    with the letter case ignored (no row when it is no regular
    expression).  When the scalars are ASCII text without a character
    that is special in a regular expression and the text cells of their
    columns are ASCII, these are the rows whose cell is a text that
    contains the given text, whatever the case of the letters.  The store
    is left as it was. *)
Theorem search_metadata_conjunctive
    (st : Obj MetadataModel.t)
    (search_terms : list (string * MetadataModel.criterion)) :
  let df := MetadataModel.metadata_df (self st) in
  (forall field value,
     (field, value) ∈ search_terms -> field ∈ columns df) ->
  exists result,
    (MetadataModel.search_metadata search_terms st).1 = Ok result /\
    rows result = Criteria.kept Criteria.text_matches df search_terms /\
    self (MetadataModel.search_metadata search_terms st).2 = self st /\
    ((forall field v,
        (field, MetadataModel.Scalar v) ∈ search_terms ->
        Re.plain (str v) = true /\ isascii (str v) = true) ->
     (forall field v r s,
        (field, MetadataModel.Scalar v) ∈ search_terms -> r ∈ rows df ->
        cell field r = VStr s -> isascii s = true) ->
     rows result = Spec.search df search_terms).
Proof.
  intros df Hc. pose proof (Search.search_loop_rows _ _ Hc) as Hl.
  unfold MetadataModel.search_metadata, try_except, mbind, M_bind,
    MetadataModel.the_df, gets, lift.
  fold df. destruct (MetadataModel.search_loop df search_terms) as [result|e].
  - exists result. destruct Hl as [Hl _]. repeat split; [done..|].
    intros Hp Ha. by rewrite Hl, Search.kept_plain.
  - exists Pd.empty. cbn [fst snd rows Pd.empty]. rewrite Hl.
    repeat split; [done..|].
    intros Hp Ha. by rewrite <- (Search.kept_plain df search_terms), Hl.
Qed.

(** C7, as the code has it.  A criterion with a non-empty value on a
    column that is not there is not ignored: [search_metadata] logs the
    error and returns the empty table, and [execute_search], when the
    query is not in its cache, emits [searchError] in place of a result.
    A criterion is skipped when its value is empty, wherever it stands and
    whatever column it names. *)
Theorem nonexistent_column_is_not_ignored
    (st : Obj MetadataModel.t)
    (search_terms : list (string * MetadataModel.criterion))
    (sst : Obj SearchModel.t) (params : SearchModel.search_params)
    (fs : list (string * MetadataModel.criterion))
    (field : string) (value : MetadataModel.criterion) :
  MetadataModel.criterion_truthy value = true ->
  field ∉ columns (MetadataModel.metadata_df (self st)) ->
  (field, value) ∈ search_terms ->
  value <> MetadataModel.Scalar (VStr "All") ->
  field ∉ columns (MetadataModel.metadata_df
                     (SearchModel.metadata_model (self sst))) ->
  SearchModel.filters params = Some fs ->
  (field, value) ∈ fs ->
  Dict.get (SearchModel.repr params) (SearchModel.search_cache (self sst))
    = None ->
  (exists e,
     MetadataModel.search_metadata search_terms st
     = (Ok Pd.empty,
        on_world (add_log {| levelname := ERROR;
                             msg := "Error searching metadata: ";
                             args := [LogExn e] |}) st)) /\
  (exists e,
     SearchModel.execute_search params sst
     = (Ok tt,
        on_self (SearchModel.add_emitted (SearchModel.searchError e))
          (on_world (add_log {| levelname := ERROR; msg := "Search error: ";
                                args := [LogExn e] |})
             (on_self (SearchModel.add_emitted SearchModel.searchStarted)
                sst)))) /\
  (forall df before after f v,
     MetadataModel.criterion_truthy v = false ->
     MetadataModel.search_loop df (before ++ (f, v) :: after)%list
     = MetadataModel.search_loop df (before ++ after)%list).
Proof.
  intros Ht Hc Hin Hall Hc' Hfs Hin' Hmiss.
  split; [|split].
  - destruct (Missing.search_loop_missing _ search_terms field value Hc Hin Ht)
      as [e He].
    exists e.
    unfold MetadataModel.search_metadata, try_except, mbind, M_bind,
      MetadataModel.the_df, gets, lift.
    by rewrite He.
  - by eapply Executing.execute_search_missing.
  - intros df before after f v Hv. by apply Missing.search_loop_skips.
Qed.

(** C9, as the code has it.  For a column that exists, whose values that
    are not missing are all of one kind (all text, all numbers or all time
    stamps), [get_unique_values] returns these values, each once, in
    ascending order (the order of strings for text), and no missing value;
    when the column mixes kinds, [sorted] raises and the result is the
    empty list; so it is for a field that is not a column.  The store is
    left as it was. *)
Theorem get_unique_values_sorted
    (st : Obj MetadataModel.t) (field : string) :
  let df := MetadataModel.metadata_df (self st) in
  let present := unique (dropna (cell field <$> rows df)) in
  let call := MetadataModel.get_unique_values field st in
  self call.2 = self st /\
  if decide (field ∈ columns df) then
    if homogeneous present then
      exists l, call.1 = Ok l /\ Sorted value_le l /\ NoDup l /\
        (forall v, v ∈ l <->
                   v <> VNaN /\ exists r, r ∈ rows df /\ cell field r = v)
    else
      call.1 = Ok []
  else call.1 = Ok [].
Proof.
  intros df present call.
  unfold call, MetadataModel.get_unique_values, try_except, mbind, M_bind,
    MetadataModel.the_df, gets, lift, getitem.
  fold df. destruct (decide (field ∈ columns df)) as [Hc|Hc]; [|done].
  cbn [fst snd]. unfold sorted. fold present.
  destruct (homogeneous present) eqn:Hh; [|done].
  split; [done|]. exists (merge_sort value_le present).
  split; [done|]. split; [apply (Sorted_merge_sort _)|].
  split.
  - rewrite merge_sort_Permutation. apply Unique.NoDup_unique.
  - intros v. rewrite merge_sort_Permutation. unfold present.
    rewrite Unique.elem_of_unique, Unique.elem_of_dropna, list_elem_of_fmap.
    split.
    + intros [(r & -> & Hr) Hn]. split; [done|]. by exists r.
    + intros [Hn (r & Hr & <-)]. split; [|done]. by exists r.
Qed.

End Searching.

(** ** The search cache *)

Section SearchCache.
Context `{Unicode} `{Path} `{Re.Engine} `{Host} `{SearchModel.Repr}.

(** C8, as the code has it.  A cache of at most 100 entries has at most
    100 after [cache_results].  When it holds 100 and a new key comes, the
    51 oldest entries go and the 50 most recent stay, the new one last
    among them. *)
Theorem search_cache_keeps_the_last_fifty
    (st : Obj SearchModel.t) (cache_key : string) (results : DataFrame)
    (st0 : Obj SearchModel.t) (key0 : string) (results0 : DataFrame) :
  NoDup (Dict.keys (SearchModel.search_cache (self st))) ->
  length (SearchModel.search_cache (self st)) = 100%nat ->
  cache_key ∉ Dict.keys (SearchModel.search_cache (self st)) ->
  NoDup (Dict.keys (SearchModel.search_cache (self st0))) ->
  (length (SearchModel.search_cache (self st0)) <= 100)%nat ->
  let cache := SearchModel.search_cache (self st) in
  let kept := drop 51 (cache ++ [(cache_key, results)])%list in
  SearchModel.cache_results cache_key results st
    = (Ok tt, CacheOps.with_cache kept st) /\
  length kept = 50%nat /\
  kept = (drop 51 cache ++ [(cache_key, results)])%list /\
  Dict.get cache_key kept = Some results /\
  (length (SearchModel.search_cache
             (self (SearchModel.cache_results key0 results0 st0).2)) <= 100)%nat /\
  NoDup (Dict.keys (SearchModel.search_cache
                      (self (SearchModel.cache_results key0 results0 st0).2))).
Proof.
  intros Hnd Hlen Hfresh Hnd0 Hlen0 cache kept.
  change (NoDup (Dict.keys cache)) in Hnd.
  change (length cache = 100%nat) in Hlen.
  change (cache_key ∉ Dict.keys cache) in Hfresh.
  assert (Dict.set cache_key results cache
          = (cache ++ [(cache_key, results)])%list) as Hset
    by (by apply Cache.set_fresh).
  assert (NoDup (Dict.keys (cache ++ [(cache_key, results)])%list)) as Hnd'.
  { unfold Dict.keys. rewrite fmap_app. apply NoDup_app. split; [done|].
    split; [|apply NoDup_singleton].
    intros k Hk [->|Hn]%elem_of_cons; [done|]. by apply elem_of_nil in Hn. }
  split.
  { rewrite Cache.cache_results_run; fold cache; rewrite Hset; [|done].
    rewrite length_app, Hlen. cbn [length Nat.add].
    by rewrite decide_True by lia. }
  assert (kept = (drop 51 cache ++ [(cache_key, results)])%list) as Hkept.
  { unfold kept. rewrite drop_app_le by lia. done. }
  split; [unfold kept; rewrite length_drop, length_app, Hlen; done|].
  split; [done|].
  split.
  { rewrite Hkept. apply Cache.get_last. intros Hk. apply Hfresh.
    unfold Dict.keys in *. rewrite fmap_drop in Hk.
    by eapply subseteq_drop. }
  set (cache0 := Dict.set key0 results0 (SearchModel.search_cache (self st0))).
  assert (NoDup (Dict.keys cache0) /\ (length cache0 <= 101)%nat) as [Hn0 Hl0].
  { unfold cache0.
    destruct (decide (key0 ∈ Dict.keys (SearchModel.search_cache (self st0))))
      as [Hin|Hin].
    - destruct (Cache.set_present key0 results0 _ Hin) as [-> ->].
      split; [done|lia].
    - rewrite Cache.set_fresh by done. split.
      + unfold Dict.keys. rewrite fmap_app. apply NoDup_app. split; [done|].
        split; [|apply NoDup_singleton].
        intros k Hk [->|Hn]%elem_of_cons; [done|]. by apply elem_of_nil in Hn.
      + rewrite length_app. cbn [length]. lia. }
  rewrite Cache.cache_results_run by done. fold cache0.
  cbn [snd CacheOps.with_cache on_self self SearchModel.search_cache
    SearchModel.set_search_cache].
  destruct (decide (100 < length cache0)%nat).
  - split; [rewrite length_drop; lia|].
    unfold Dict.keys. rewrite fmap_drop.
    rewrite <- (take_drop (length cache0 - 50) (Dict.keys cache0)) in Hn0.
    by apply NoDup_app in Hn0 as (_ & _ & ?).
  - split; [lia|done].
Qed.

(** C10.  The calls that change the record set leave the search cache,
    the history and the signals sent as they were; so a query whose
    parameters are in the cache is answered, after any such calls, with
    the table cached for it, the table of the store not being read.  Only
    [clear_search_cache] empties the cache. *)
Theorem mutations_keep_the_search_cache
    (cs : list Caller.call) (st : Obj SearchModel.t)
    (params : SearchModel.search_params) (cached : DataFrame) :
  Dict.get (SearchModel.repr params) (SearchModel.search_cache (self st))
    = Some cached ->
  let st' := Caller.run_calls_under_search cs st in
  SearchModel.search_cache (self st') = SearchModel.search_cache (self st) /\
  SearchModel.emitted (self st') = SearchModel.emitted (self st) /\
  SearchModel.execute_search params st'
    = (Ok tt,
       on_self (SearchModel.add_emitted (SearchModel.searchCompleted cached))
         (on_self (SearchModel.add_emitted SearchModel.searchStarted) st')) /\
  SearchModel.emitted (self (SearchModel.execute_search params st').2)
    = (SearchModel.emitted (self st)
         ++ [SearchModel.searchStarted; SearchModel.searchCompleted cached])%list /\
  SearchModel.search_cache (self (SearchModel.clear_search_cache st').2) = [].
Proof.
  intros Hhit st'.
  destruct (Executing.run_calls_under_search_frame cs st) as (Hc & _ & He).
  fold st' in Hc, He.
  assert (SearchModel.execute_search params st'
    = (Ok tt,
       on_self (SearchModel.add_emitted (SearchModel.searchCompleted cached))
         (on_self (SearchModel.add_emitted SearchModel.searchStarted) st')))
    as Hrun.
  { apply Executing.execute_search_hit. by rewrite Hc. }
  split; [done|]. split; [done|]. split; [done|].
  split; [|done].
  rewrite Hrun. cbn [snd on_self self SearchModel.add_emitted SearchModel.emitted].
  rewrite He. by rewrite <- app_assoc.
Qed.

End SearchCache.

(** ** Records, the cache and the backups: further properties *)

Section StoreRecords.
Context `{Unicode} `{Path} `{Re.Engine}.





(** X5.  After [update_metadata] on a writable path, [get_metadata] for
    that path returns the record that was given, stamped with the time of
    the update, and changes nothing. *)
Theorem get_metadata_after_update
    (st : Obj MetadataModel.t) (file_path : string) (metadata : row) :
  AccessSafety.is_protected_path (MetadataModel.safety (self st)) file_path
    = false ->
  "file_path" ∈ columns (MetadataModel.metadata_df (self st)) ->
  let st' := (MetadataModel.update_metadata file_path metadata st).2 in
  MetadataModel.get_metadata file_path st'
  = (Ok (Some (<["last_modified" :=
                   VTime (clock (world st) (clock_reads (world st)))]> metadata)),
     st').
Proof.
  intros Hp Hc st'. apply Reading.get_metadata_hit. unfold st'.
  rewrite Records.update_metadata_run by done.
  rewrite Records.save_database_run. cbn [snd on_world self].
  destruct (Records.backup_current_metadata_frame
              (Effects.updated file_path metadata st)) as (-> & _).
  unfold Effects.updated. cbn [on_self self MetadataModel.metadata_cache
    MetadataModel.set_metadata_cache].
  by rewrite lookup_insert_eq.
Qed.

(** X6.  [get_metadata] for a path that is not in the cache reads the
    table: with no record for the path it returns [None] and changes
    nothing; otherwise it returns the first record for the path as a
    dictionary with one entry per column of the table (the missing value
    where the record has none), stores that dictionary in the cache under
    the path, touches nothing else, and a second call returns the same
    dictionary. *)
Theorem get_metadata_reads_the_first_record
    (st : Obj MetadataModel.t) (file_path : string) :
  MetadataModel.metadata_cache (self st) !! file_path = None ->
  "file_path" ∈ columns (MetadataModel.metadata_df (self st)) ->
  let df := MetadataModel.metadata_df (self st) in
  let call := MetadataModel.get_metadata file_path st in
  match Lookup.first_keyed file_path df with
  | None => call = (Ok None, st)
  | Some first =>
      exists metadata,
        call.1 = Ok (Some metadata) /\
        (forall c, metadata !! c
                   = if decide (c ∈ columns df) then Some (cell c first)
                     else None) /\
        world call.2 = world st /\
        MetadataModel.metadata_df (self call.2) = df /\
        MetadataModel.metadata_cache (self call.2)
        = <[file_path := metadata]> (MetadataModel.metadata_cache (self st)) /\
        MetadataModel.get_metadata file_path call.2
        = (Ok (Some metadata), call.2)
  end.
Proof.
  intros Hm Hc df call. unfold call.
  rewrite Reading.get_metadata_miss by done. fold df.
  destruct (Lookup.first_keyed file_path df) as [first|]; [|done].
  exists (Lookup.to_dict (columns df) first). cbn [fst snd].
  split; [done|]. split; [apply Reading.to_dict_lookup|].
  split; [done|]. split; [done|]. split; [done|].
  apply Reading.get_metadata_hit. cbn [on_self self MetadataModel.metadata_cache
    MetadataModel.set_metadata_cache].
  by rewrite lookup_insert_eq.
Qed.

(** X7.  [add_files_basic_metadata] never touches the metadata cache,
    whether it succeeds or not: a path that was cached is still answered
    by [get_metadata] with the cached record, also when the call has just
    replaced the record of that path in the table. *)
Theorem add_keeps_the_metadata_cache
    (st : Obj MetadataModel.t) (file_paths : list string)
    (file_path : string) (cached : row) :
  MetadataModel.metadata_cache (self st) !! file_path = Some cached ->
  let st' := (MetadataModel.add_files_basic_metadata file_paths st).2 in
  MetadataModel.metadata_cache (self st')
  = MetadataModel.metadata_cache (self st) /\
  MetadataModel.get_metadata file_path st' = (Ok (Some cached), st').
Proof.
  intros Hc st'.
  assert (MetadataModel.metadata_cache (self st')
          = MetadataModel.metadata_cache (self st)) as Heq.
  { set (R := fun s s' : Obj MetadataModel.t =>
                MetadataModel.metadata_cache (self s')
                = MetadataModel.metadata_cache (self s)).
    assert (PreOrder R) as HR.
    { split; [by intros ?|]. intros x y z Hxy Hyz. unfold R in *. congruence. }
    exact (Reading.keeps_add_files_basic_metadata R
             (fun _ _ => eq_refl) (fun _ _ => eq_refl) file_paths st). }
  split; [done|]. apply Reading.get_metadata_hit. by rewrite Heq.
Qed.

(** X8.  After [clear_cache], [get_metadata] answers from the table
    whatever the cache held: the first record for the path, or [None]. *)
Theorem clear_cache_makes_get_metadata_read_the_table
    (st : Obj MetadataModel.t) (file_path : string) :
  "file_path" ∈ columns (MetadataModel.metadata_df (self st)) ->
  let df := MetadataModel.metadata_df (self st) in
  (MetadataModel.get_metadata file_path (MetadataModel.clear_cache st).2).1
  = Ok (Lookup.to_dict (columns df) <$> Lookup.first_keyed file_path df).
Proof.
  intros Hc df.
  rewrite Reading.get_metadata_miss; [|done..].
  cbn [MetadataModel.clear_cache modify snd on_self self
    MetadataModel.metadata_df MetadataModel.set_metadata_cache]. fold df.
  by destruct (Lookup.first_keyed file_path df).
Qed.

(** X9.  A call of [update_metadata] that stops before its first
    assignment leaves the store as it was.  When the path is protected,
    or when the table has no [file_path] column, the call returns
    [False]; the table, the cache, the spreadsheet, the backup directory
    and the files are what they were, and the log has one more line: the
    warning about the protected file, or the error with the [KeyError]
    the missing column raises. *)
Theorem update_stopped_early_changes_nothing
    (st : Obj MetadataModel.t) (file_path : string) (metadata : row) :
  let call := MetadataModel.update_metadata file_path metadata st in
  let protected :=
    AccessSafety.is_protected_path (MetadataModel.safety (self st)) file_path in
  protected = true
    \/ "file_path" ∉ columns (MetadataModel.metadata_df (self st)) ->
  call.1 = Ok false /\
  self call.2 = self st /\
  excel_file (world call.2) = excel_file (world st) /\
  backup_files (world call.2) = backup_files (world st) /\
  files (world call.2) = files (world st) /\
  log (world call.2)
  = (log (world st)
       ++ [if protected
           then {| levelname := WARNING;
                   msg := "Attempted to update protected file metadata: ";
                   args := [LogPath file_path] |}
           else {| levelname := ERROR;
                   msg := "Error updating metadata for ";
                   args := [LogPath file_path;
                            LogExn (KeyError "file_path")] |}])%list.
Proof.
  intros call protected Hcause. unfold call.
  destruct protected eqn:Hp; unfold protected in Hp.
  - unfold MetadataModel.update_metadata, try_except, mbind, M_bind, gets.
    rewrite Hp. cbn. done.
  - destruct Hcause as [|Hc]; [done|].
    unfold MetadataModel.update_metadata, try_except, mbind, M_bind, gets.
    rewrite Hp. cbn [datetime_now fst snd].
    unfold MetadataModel.remove_existing_entry, MetadataModel.the_df, mbind,
      M_bind, gets, lift, getitem.
    cbn [on_world world self fst snd]. rewrite decide_False by done.
    cbn. done.
Qed.

End StoreRecords.

Section BackupDirectory.
Context `{Unicode} `{Path} `{Re.Engine}.

(** X10.  [cleanup_old_backups] is idempotent, and does nothing to a
    directory that holds no more than [max_backups] files. *)
Theorem cleanup_old_backups_is_idempotent
    (st : Obj MetadataModel.t) (max_backups : nat) :
  let once := (MetadataModel.cleanup_old_backups max_backups st).2 in
  (MetadataModel.cleanup_old_backups max_backups once).2 = once /\
  ((size (backup_files (world st)) <= max_backups)%nat -> once = st).
Proof.
  intros once.
  assert (forall b : gmap string DataFrame,
            (size b <= max_backups)%nat -> BackupDir.prune max_backups b = b)
    as Hid.
  { intros b Hb. unfold BackupDir.prune, BackupDir.doomed.
    rewrite Backups.sorted_names_length.
    by replace (size b - max_backups)%nat with 0%nat by lia. }
  unfold once. rewrite !Backups.cleanup_old_backups_run. cbn [snd]. split.
  - cbn [BackupDir.with_backups on_world world backup_files set_backup_files].
    rewrite Hid; [done|]. rewrite Backups.prune_size. lia.
  - intros Hb. rewrite Hid by done. apply Backups.with_backups_id.
Qed.



End BackupDirectory.

(** ** The checks of the safety gate and the reads of [MetadataManager] *)

Section SafetyChecks.
Context `{Unicode} `{Path} `{AccessChecks.Permissions}.

(** X13.  After [set_protected_paths], a path is protected exactly when
    the normal form of one of the given paths is a prefix, as a string, of
    its normal form.  So every given path is protected, so is every path
    whose normal form extends the normal form of a given one by any text
    (a separator or not), and with no path given nothing is protected. *)
Theorem protected_paths_are_prefixes (paths : list string) (path : string) :
  let gate := AccessSafety.set_protected_paths paths in
  (AccessSafety.is_protected_path gate path = true
   <-> exists p, p ∈ paths /\
                 String.prefix (normpath p) (normpath path) = true) /\
  (forall p, p ∈ paths -> AccessSafety.is_protected_path gate p = true) /\
  (forall p rest,
     p ∈ paths -> normpath path = normpath p +:+ rest ->
     AccessSafety.is_protected_path gate path = true) /\
  AccessSafety.is_protected_path (AccessSafety.set_protected_paths []) path
    = false.
Proof.
  intros gate. split; [apply Gate.is_protected_path_iff|]. split; [|split].
  - intros p Hp. apply Gate.is_protected_path_iff. exists p. split; [done|].
    apply Gate.prefix_refl.
  - intros p rest Hp Hn. apply Gate.is_protected_path_iff. exists p.
    split; [done|]. rewrite Hn. apply Gate.prefix_app.
  - apply not_true_is_false. intros Hq.
    apply Gate.is_protected_path_iff in Hq as (p & Hp & _).
    by apply elem_of_nil in Hp.
Qed.

(** X14.  [validate_operation] refuses nothing but [write]: for any
    other operation type, in any letter case, it returns [True] and logs
    nothing, on a protected path as on any other.  That holds for the
    eight operations other than [write] that [is_modification_operation]
    counts as modifying ([delete], [move], [rename], ...). *)
Theorem validate_operation_blocks_only_write
    {T : Type} (gate : AccessSafety.t) (path operation : string) (st : Obj T) :
  lower operation <> "write" ->
  AccessChecks.validate_operation gate path operation st = (Ok true, st) /\
  (AccessChecks.is_modification_operation operation = true
   <-> lower operation ∈ ["delete"; "move"; "rename"; "create";
                          "modify"; "update"; "save"; "edit"]).
Proof.
  intros Hw. split.
  - unfold AccessChecks.validate_operation.
    destruct (String.eqb_spec (lower operation) "write") as [He|He]; done.
  - unfold AccessChecks.is_modification_operation.
    rewrite bool_decide_eq_true. rewrite !elem_of_union, !elem_of_singleton.
    rewrite !elem_of_cons, elem_of_nil. tauto.
Qed.

End SafetyChecks.

Section ManagerReading.
Context `{Unicode} `{Path} `{Re.Engine} `{AccessChecks.Permissions}.

(** X15.  [MetadataManager.read_metadata] is read-only on the record
    set: whatever it returns, the table, the spreadsheet, the backup
    directory and the files are what they were.  For a file that does not
    exist or may not be read it returns [None] and changes nothing, also
    when the table or the cache holds a record for the path. *)
Theorem read_metadata_is_read_only
    (st : Obj MetadataModel.t) (file_path : string) :
  let call := ManagerReads.read_metadata file_path st in
  MetadataModel.metadata_df (self call.2) = MetadataModel.metadata_df (self st) /\
  excel_file (world call.2) = excel_file (world st) /\
  backup_files (world call.2) = backup_files (world st) /\
  files (world call.2) = files (world st) /\
  ((files (world st) !! file_path = None \/ AccessChecks.may_read file_path = false) ->
   call = (Ok None, st)).
Proof.
  intros call. unfold call. clear call.
  destruct (ManagerReads.read_metadata file_path st) as [r st'] eqn:Hcall.
  cbn [fst snd].
  unfold ManagerReads.read_metadata, try_except in Hcall.
  unfold mbind at 1, M_bind at 1 in Hcall.
  unfold AccessChecks.safe_read_operation, try_except, gets in Hcall.
  destruct (files (world st) !! file_path) as [f|] eqn:Hf.
  2:{ rewrite bool_decide_eq_false_2 in Hcall by (by intros [? ?]).
      cbn in Hcall. unfold mret, M_ret in Hcall. simplify_eq. repeat split; done. }
  rewrite bool_decide_eq_true_2 in Hcall by done.
  destruct (AccessChecks.may_read file_path) eqn:Hr; cbn [andb negb] in Hcall.
  2:{ cbn in Hcall. unfold mret, M_ret in Hcall. simplify_eq. repeat split; done. }
  unfold mbind, M_bind, MetadataModel.the_df, gets, lift, getitem in Hcall.
  destruct (MetadataModel.metadata_cache (self st) !! file_path) as [c|].
  { cbn in Hcall. unfold mret, M_ret in Hcall. simplify_eq. repeat split; try done.
    intros [Hn|Hn]; done. }
  cbn [fst snd] in Hcall. case_decide as Hc.
  2:{ cbn in Hcall. unfold mret, M_ret in Hcall. simplify_eq. repeat split; try done.
      intros [Hn|Hn]; done. }
  destruct (rows (select _ _)) as [|first l].
  - unfold ManagerReads.create_default_metadata, mbind, M_bind, gets,
      datetime_now in Hcall.
    cbn [fst snd on_world world files tick] in Hcall.
    rewrite Hf, bool_decide_eq_true_2 in Hcall by done. unfold getsize in Hcall.
    cbn [on_world world files tick] in Hcall. rewrite Hf in Hcall.
    cbn in Hcall. unfold mret, M_ret in Hcall. simplify_eq. repeat split; try done.
    intros [Hn|Hn]; done.
  - cbn in Hcall. unfold mret, M_ret in Hcall. simplify_eq. repeat split; try done.
    intros [Hn|Hn]; done.
Qed.

(** X16.  For a readable file with no record in the cache or in the
    table, [MetadataManager.read_metadata] returns a default record: the
    path, the status [Indexed], the size of the file, and three successive
    readings of the clock.  The record is not stored: the table and the
    cache are what they were. *)
Theorem read_metadata_of_an_unknown_file_is_a_default
    (st : Obj MetadataModel.t) (file_path : string) (f : FileStat) :
  files (world st) !! file_path = Some f ->
  AccessChecks.may_read file_path = true ->
  MetadataModel.metadata_cache (self st) !! file_path = None ->
  "file_path" ∈ columns (MetadataModel.metadata_df (self st)) ->
  Rows.count_path file_path (MetadataModel.metadata_df (self st)) = 0%nat ->
  let call := ManagerReads.read_metadata file_path st in
  let now := clock (world st) in
  let n := clock_reads (world st) in
  call.1 = Ok (Some (list_to_map
                       [ ("file_path", VStr file_path);
                         ("created_date", VTime (now n));
                         ("modified_date", VTime (now (S n)));
                         ("last_indexed", VTime (now (S (S n))));
                         ("status", VStr "Indexed");
                         ("file_size", VInt (st_size f)) ])) /\
  self call.2 = self st /\
  clock_reads (world call.2) = S (S (S n)).
Proof.
  intros Hf Hr Hm Hc Hn call now n.
  assert (call = (Ok (Some (list_to_map
                       [ ("file_path", VStr file_path);
                         ("created_date", VTime (now n));
                         ("modified_date", VTime (now (S n)));
                         ("last_indexed", VTime (now (S (S n))));
                         ("status", VStr "Indexed");
                         ("file_size", VInt (st_size f)) ])),
                  on_world tick (on_world tick (on_world tick st)))) as ->;
    [|done].
  unfold call, ManagerReads.read_metadata, try_except.
  unfold mbind at 1, M_bind at 1.
  unfold AccessChecks.safe_read_operation, try_except, gets.
  rewrite Hf, Hr, bool_decide_eq_true_2 by done. cbn [andb negb].
  unfold mbind, M_bind, MetadataModel.the_df, gets, lift, getitem.
  rewrite Hm. cbn [fst snd]. rewrite decide_True by done.
  rewrite Reading.rows_select_eq.
  unfold Rows.count_path in Hn. apply length_zero_iff_nil in Hn. rewrite Hn.
  unfold ManagerReads.create_default_metadata, mbind, M_bind, gets, datetime_now.
  cbn [fst snd on_world world files tick clock clock_reads].
  rewrite Hf, bool_decide_eq_true_2 by done. unfold getsize.
  cbn [on_world world files tick]. rewrite Hf. done.
Qed.

(** X17.  After [MetadataManager.update_metadata] on a writable path of
    a readable file, [read_metadata] for that path returns the record that
    was given, with [modified_date] stamped and [file_path] set, and
    changes nothing. *)
Theorem read_metadata_after_manager_update
    (st : Obj MetadataModel.t) (file_path : string) (metadata : row) :
  AccessSafety.is_protected_path (MetadataModel.safety (self st)) file_path
    = false ->
  "file_path" ∈ columns (MetadataModel.metadata_df (self st)) ->
  is_Some (files (world st) !! file_path) ->
  AccessChecks.may_read file_path = true ->
  let st' := (MetadataManager.update_metadata file_path metadata st).2 in
  ManagerReads.read_metadata file_path st'
  = (Ok (Some (<["file_path" := VStr file_path]>
                 (<["modified_date" :=
                      VTime (clock (world st) (clock_reads (world st)))]>
                    metadata))),
     st').
Proof.
  intros Hp Hc Hf Hr st'.
  assert (files (world st') = files (world st) /\
          MetadataModel.metadata_cache (self st') !! file_path
          = Some (Effects.manager_stamped file_path st metadata)) as [Hfiles Hcache].
  { unfold st'. rewrite Records.manager_update_metadata_run by done.
    rewrite Records.save_database_run. cbn [snd on_world self world files set_excel_file].
    rewrite Records.manager_backup_run.
    cbn [snd BackupDir.with_backups on_world self world files set_backup_files tick
      Effects.manager_updated on_self
      MetadataModel.metadata_cache MetadataModel.set_metadata_cache].
    by rewrite lookup_insert_eq. }
  unfold ManagerReads.read_metadata, try_except.
  unfold mbind at 1, M_bind at 1.
  unfold AccessChecks.safe_read_operation, try_except, gets.
  rewrite Hfiles, Hr, bool_decide_eq_true_2 by done. cbn [andb negb].
  unfold mbind, M_bind, gets. by rewrite Hcache.
Qed.

End ManagerReading.

(** ** The steps of a search *)

Section SearchSteps.
Context `{Unicode} `{Path} `{Re.Engine} `{Host} `{SearchModel.Repr}.

(** X18.  Whatever the criteria (patterns the engine refuses and
    columns that are not there included), [search_metadata] returns a
    table whose rows are rows of the table of the store, in their order,
    with its columns or with none at all; it changes neither the store
    nor the spreadsheet, the backups or the files. *)
Theorem search_metadata_returns_rows_of_the_table
    (st : Obj MetadataModel.t)
    (search_terms : list (string * MetadataModel.criterion)) :
  let df := MetadataModel.metadata_df (self st) in
  let call := MetadataModel.search_metadata search_terms st in
  exists result,
    call.1 = Ok result /\
    rows result `sublist_of` rows df /\
    (columns result = columns df \/ result = Pd.empty) /\
    self call.2 = self st /\
    files (world call.2) = files (world st) /\
    excel_file (world call.2) = excel_file (world st) /\
    backup_files (world call.2) = backup_files (world st).
Proof.
  intros df call. unfold call, MetadataModel.search_metadata, try_except,
    mbind, M_bind, MetadataModel.the_df, gets, lift. fold df.
  destruct (MetadataModel.search_loop df search_terms) as [result|e] eqn:Hl.
  - exists result. apply Narrowing.search_loop_sublist in Hl as [Hl1 Hl2].
    cbn. repeat split; auto.
  - exists Pd.empty. cbn. repeat split; auto. apply sublist_nil_l.
Qed.

(** X19.  [_apply_filters], when the columns named by the filters it
    applies exist, returns the rows that pass every filter, in their
    order, with the columns of the table: a filter whose value is empty or
    is ["All"] passes every row, a list passes the rows whose cell is in
    the list, any other value the rows whose cell equals it. *)
Theorem apply_filters_keeps_the_rows_passing_every_filter
    (df : DataFrame) (filters : list (string * MetadataModel.criterion)) :
  (forall field value,
     (field, value) ∈ filters ->
     MetadataModel.criterion_truthy value = true ->
     value <> MetadataModel.Scalar (VStr "All") ->
     field ∈ columns df) ->
  SearchModel._apply_filters df filters
  = Ok {| columns := columns df;
          rows := filter (fun r => forallb (Answer.passes r) filters = true)
                         (rows df) |}.
Proof.
  intros Hc. unfold SearchModel._apply_filters. case_bool_decide as He.
  - subst. cbn [mret exc_ret forallb]. rewrite ListFacts.filter_all by done.
    by destruct df.
  - by apply Answering.filter_loop_run.
Qed.

(** X20.  [_build_search_query] returns, for the empty text, the table
    of the store; for a lower-cased text that is ASCII and has no
    character special in a regular expression, on a table whose [object]
    columns hold ASCII text, it returns the rows where the text of some
    [object] column ([str] of the cell, in lower case) contains the
    lower-cased text.  It changes nothing. *)
Theorem build_search_query_keeps_the_rows_mentioning_the_text
    (st : Obj SearchModel.t) (params : SearchModel.search_params) :
  let text_search := lower (default "" (SearchModel.text params)) in
  let df := MetadataModel.metadata_df (SearchModel.metadata_model (self st)) in
  Re.plain text_search = true ->
  isascii text_search = true ->
  (forall c r, c ∈ select_dtypes_object df -> r ∈ rows df ->
               isascii (str (cell c r)) = true) ->
  (forall c, c ∈ select_dtypes_object df -> c ∈ columns df) ->
  SearchModel._build_search_query params st
  = (Ok (if decide (text_search = "") then df
         else {| columns := columns df;
                 rows := filter
                   (fun r => Answer.mentions text_search
                               (select_dtypes_object df) r = true)
                   (rows df) |}),
     st).
Proof.
  intros text_search df Hp Hpat Hcells Hc.
  rewrite Answering.build_search_query_answer. cbn zeta.
  fold text_search df. case_decide as He; [done|].
  replace (replicate (len df) false) with ((fun _ : row => false) <$> rows df).
  2:{ unfold len. generalize (rows df). intros l.
      induction l as [|r l IH]; [done|].
      rewrite fmap_cons. cbn [length replicate]. by rewrite IH. }
  rewrite Answering.text_mask_run by done.
  cbn [mbind exc_bind mret exc_ret orb]. f_equal. f_equal.
  apply (Answering.select_map df
           (Answer.mentions text_search (select_dtypes_object df))).
Qed.

(** X21.  [execute_search] on a query that is not in the cache leaves
    the store alone and either completes or fails as a whole.  When the
    three steps give a table, [searchStarted] and [searchCompleted] with
    that table are emitted, the table is in the cache under the key of the
    query, the history has a new first entry with the time and the number
    of rows (its last entry dropped when it was full), and nothing is
    logged.  When a step raises, [searchStarted] and [searchError] are
    emitted, the error is logged, and the cache and the history are what
    they were. *)
Theorem execute_search_on_a_miss
    (st : Obj SearchModel.t) (params : SearchModel.search_params) :
  Dict.get (SearchModel.repr params) (SearchModel.search_cache (self st))
    = None ->
  NoDup (Dict.keys (SearchModel.search_cache (self st))) ->
  let df := MetadataModel.metadata_df (SearchModel.metadata_model (self st)) in
  let st' := (SearchModel.execute_search params st).2 in
  SearchModel.metadata_model (self st') = SearchModel.metadata_model (self st) /\
  match Answer.answer params df with
  | Ok results =>
      SearchModel.emitted (self st')
      = (SearchModel.emitted (self st)
           ++ [SearchModel.searchStarted;
               SearchModel.searchCompleted results])%list /\
      Dict.get (SearchModel.repr params) (SearchModel.search_cache (self st'))
      = Some results /\
      SearchModel.search_history (self st')
      = Answer.recorded
          {| SearchModel.params := params;
             SearchModel.timestamp := clock (world st) (clock_reads (world st));
             SearchModel.results_count := len results |}
          (SearchModel.search_history (self st))
          (SearchModel.max_history (self st)) /\
      log (world st') = log (world st)
  | Raise e =>
      SearchModel.emitted (self st')
      = (SearchModel.emitted (self st)
           ++ [SearchModel.searchStarted; SearchModel.searchError e])%list /\
      SearchModel.search_cache (self st') = SearchModel.search_cache (self st) /\
      SearchModel.search_history (self st')
      = SearchModel.search_history (self st) /\
      log (world st')
      = (log (world st)
           ++ [{| levelname := ERROR; msg := "Search error: ";
                  args := [LogExn e] |}])%list
  end.
Proof.
  intros Hmiss Hnd df st'. unfold st'.
  rewrite Answering.execute_search_miss by done. fold df.
  pose proof (Answering.get_None _ _ Hmiss) as Hfresh.
  destruct (Answer.answer params df) as [results|e]; cbn [snd].
  - destruct (Answering.cached_fresh (SearchModel.repr params) results
                (SearchModel.search_cache (self st)) Hnd Hfresh)
      as (_ & _ & _ & Hget).
    cbn. rewrite <- app_assoc. repeat split; done.
  - cbn. rewrite <- app_assoc. repeat split; done.
Qed.

(** X22.  A search that completed is answered again with the same
    table: when [execute_search] ended with [searchCompleted], the same
    query ends with [searchCompleted] of the same table after any calls of
    [add_files_basic_metadata] and [update_metadata] on the store. *)
Theorem a_completed_search_is_answered_again
    (st : Obj SearchModel.t) (params : SearchModel.search_params)
    (cs : list Caller.call) (results : DataFrame) :
  NoDup (Dict.keys (SearchModel.search_cache (self st))) ->
  let st1 := (SearchModel.execute_search params st).2 in
  last (SearchModel.emitted (self st1))
    = Some (SearchModel.searchCompleted results) ->
  let st2 := Caller.run_calls_under_search cs st1 in
  SearchModel.emitted (self (SearchModel.execute_search params st2).2)
  = (SearchModel.emitted (self st1)
       ++ [SearchModel.searchStarted;
           SearchModel.searchCompleted results])%list.
Proof.
  intros Hnd st1 Hlast st2.
  assert (Dict.get (SearchModel.repr params)
            (SearchModel.search_cache (self st1)) = Some results) as Hhit.
  { unfold st1 in *.
    destruct (Dict.get (SearchModel.repr params)
                (SearchModel.search_cache (self st))) as [cached|] eqn:Hget.
    - rewrite (Executing.execute_search_hit params cached) in * by done.
      cbn in *. rewrite last_snoc in Hlast. by simplify_eq.
    - rewrite Answering.execute_search_miss in * by done.
      pose proof (Answering.get_None _ _ Hget) as Hfresh.
      destruct (Answer.answer params _) as [r|e]; cbn [snd] in *.
      + destruct (Answering.cached_fresh (SearchModel.repr params) r
                    (SearchModel.search_cache (self st)) Hnd Hfresh)
          as (_ & _ & _ & Hc).
        cbn in Hlast. rewrite last_snoc in Hlast. simplify_eq. exact Hc.
      + cbn in Hlast. rewrite last_snoc in Hlast. by simplify_eq. }
  destruct (Executing.run_calls_under_search_frame cs st1) as (Hc & _ & He).
  fold st2 in Hc, He.
  rewrite (Executing.execute_search_hit params results) by (by rewrite Hc).
  cbn. rewrite He. by rewrite <- app_assoc.
Qed.

(** X23.  [execute_search] keeps the cache and the history within
    their bounds: when the keys of the cache are distinct, the cache holds
    at most 100 entries and the history at most [max_history], the same
    holds after the call, and [max_history] is what it was. *)
Theorem execute_search_keeps_cache_and_history_bounded
    (st : Obj SearchModel.t) (params : SearchModel.search_params) :
  NoDup (Dict.keys (SearchModel.search_cache (self st))) ->
  (length (SearchModel.search_cache (self st)) <= 100)%nat ->
  (length (SearchModel.search_history (self st))
   <= SearchModel.max_history (self st))%nat ->
  let st' := (SearchModel.execute_search params st).2 in
  NoDup (Dict.keys (SearchModel.search_cache (self st'))) /\
  (length (SearchModel.search_cache (self st')) <= 100)%nat /\
  (length (SearchModel.search_history (self st'))
   <= SearchModel.max_history (self st'))%nat /\
  SearchModel.max_history (self st') = SearchModel.max_history (self st).
Proof.
  intros Hnd Hlen Hhist st'. unfold st'.
  destruct (Dict.get (SearchModel.repr params)
              (SearchModel.search_cache (self st))) as [cached|] eqn:Hget.
  - rewrite (Executing.execute_search_hit params cached) by done. by cbn.
  - rewrite Answering.execute_search_miss by done.
    pose proof (Answering.get_None _ _ Hget) as Hfresh.
    destruct (Answer.answer params _) as [r|e]; cbn [snd]; [|by cbn].
    destruct (Answering.cached_fresh (SearchModel.repr params) r
                (SearchModel.search_cache (self st)) Hnd Hfresh)
      as (_ & Hn & Hl & _).
    cbn. split; [done|]. split; [by apply Hl|]. split; [|done].
    unfold Answer.recorded. case_decide as Hd; [|cbn [length] in *; lia].
    rewrite removelast_firstn_len, length_take. cbn [length] in *. lia.
Qed.

End SearchSteps.

(** ** Suggestions and popular searches *)

Section SuggestionsAndPopularity.
Context `{Unicode} `{Path} `{Re.Engine} `{Host} `{SearchModel.Repr}.

(** X24.  When [get_search_suggestions] returns, it has changed nothing
    and gives at most ten distinct suggestions, none for a text of fewer
    than two characters.  Each suggestion is the text of a past search
    whose lower-cased form contains the lower-cased given text, or the
    text of a cell of an [object] column in whose lower-cased form the
    lower-cased given text, read as a regular expression, is found; when
    the two texts are ASCII and the given one has no special character,
    the cell contains it, letter case apart.  If a past search matches,
    the first suggestion is the text of the most recent matching
    search. *)
Theorem search_suggestions_are_few_and_distinct
    (st : Obj SearchModel.t) (partial_text : string)
    (suggestions : list string) :
  (Suggestions.get_search_suggestions partial_text st).1 = Ok suggestions ->
  let history := SearchModel.search_history (self st) in
  let df := MetadataModel.metadata_df (SearchModel.metadata_model (self st)) in
  (Suggestions.get_search_suggestions partial_text st).2 = st /\
  (length suggestions <= 10)%nat /\
  NoDup suggestions /\
  ((len_str partial_text < 2)%nat -> suggestions = []) /\
  (forall s, s ∈ suggestions ->
     (exists search,
        search ∈ history /\ SearchModel.text (SearchModel.params search) = Some s /\
        contains (lower partial_text) (lower s) = true) \/
     (exists c r matcher,
        c ∈ select_dtypes_object df /\ r ∈ rows df /\ s = str (cell c r) /\
        Re.compile false (lower partial_text) = Ok matcher /\
        matcher (lower s) = true /\
        (Re.plain (lower partial_text) = true ->
         isascii (lower partial_text) = true -> isascii s = true ->
         contains (lower partial_text) (lower s) = true))) /\
  (forall search,
     (2 <= len_str partial_text)%nat ->
     head (filter (fun search =>
             contains (lower partial_text)
                      (lower (Suggestions.text_of search)) = true) history)
       = Some search ->
     head suggestions = Some (Suggestions.text_of search)).
Proof.
  intros Hcall history df.
  unfold Suggestions.get_search_suggestions in *.
  case_decide as Hlen.
  { cbn in Hcall. simplify_eq. split; [done|]. split; [cbn; lia|].
    split; [constructor|]. split; [done|].
    split; [by intros s ?%elem_of_nil|]. intros; lia. }
  unfold mbind, M_bind, gets, lift, SearchModel.store_df, gets in *.
  fold history df in Hcall |- *.
  destruct (Suggestions.recent_matches partial_text history)
    as [recent|e] eqn:Hr; [|done].
  cbn [fst snd] in *.
  destruct (Suggestions.value_matches df partial_text (select_dtypes_object df))
    as [values|e] eqn:Hv; [|done].
  cbn in Hcall. simplify_eq. cbn [fst snd].
  split; [done|]. split; [rewrite length_take; lia|].
  split.
  { eapply sublist_NoDup; [apply Suggesting.NoDup_fromkeys|apply sublist_take]. }
  split; [intros; lia|]. split.
  - intros s Hs. apply elem_of_take in Hs as (i & Hs & _).
    apply list_elem_of_lookup_2, Suggesting.elem_of_fromkeys, elem_of_app in Hs
      as [Hs|Hs].
    + left. by eapply Suggesting.recent_matches_elem.
    + right.
      destruct (Suggesting.value_matches_elem _ _ _ _ _ Hv Hs)
        as (c & r & matcher & Hc & Hrow & -> & Hm & Hhit).
      exists c, r, matcher. repeat split; [done..|].
      intros Hp Hpat Hcell. rewrite <- Hhit.
      symmetry. apply (Suggesting.compile_plain_case _ _ _ Hp Hpat); [|done].
      by apply Answering.isascii_lower.
  - intros search _ Hhead.
    pose proof (Suggesting.recent_matches_head _ _ _ Hr) as Hh.
    rewrite Hhead in Hh. cbn in Hh.
    destruct recent as [|t recent]; [done|]. by simplify_eq/=.
Qed.

(** X25.  [get_popular_searches] changes nothing and returns at most
    five entries, for distinct non-empty texts, each with the number of
    searches of its text in the history and the time of the most recent
    of them, in descending order of that number and, for equal numbers, of
    that time.  A non-empty text of the history is among them unless five
    texts were searched at least as often. *)
Theorem popular_searches_are_the_five_most_searched (st : Obj SearchModel.t) :
  let history := SearchModel.search_history (self st) in
  exists popular_searches,
    Suggestions.get_popular_searches st = (Ok popular_searches, st) /\
    (length popular_searches <= 5)%nat /\
    NoDup (Suggestions.popular_text <$> popular_searches) /\
    (forall x, x ∈ popular_searches ->
       Suggestions.popular_text x <> "" /\
       Suggestions.count x
       = length (Suggestions.searched (Suggestions.popular_text x) history) /\
       SearchModel.timestamp
         <$> head (Suggestions.searched (Suggestions.popular_text x) history)
       = Some (Suggestions.last_used x)) /\
    StronglySorted Suggestions.key_ge popular_searches /\
    (forall search,
       search ∈ history -> Suggestions.text_of search <> "" ->
       (exists x, x ∈ popular_searches /\
                  Suggestions.popular_text x = Suggestions.text_of search) \/
       (length popular_searches = 5%nat /\
        forall x, x ∈ popular_searches ->
          (length (Suggestions.searched (Suggestions.text_of search) history)
           <= Suggestions.count x)%nat)).
Proof.
  intros history.
  set (counts := foldl Suggestions.tally [] history).
  set (all := Suggestions.sorted_reverse counts.*2).
  exists (take 5 all). split; [done|].
  assert (forall x, x ∈ all <->
            Suggestions.entry_of (Suggestions.popular_text x) history = Some x)
    as Hall.
  { intros x. unfold all. rewrite Suggesting.sorted_reverse_perm.
    apply Suggesting.elem_of_tally. }
  assert (StronglySorted Suggestions.key_ge all) as Hsorted
    by apply Suggesting.sorted_reverse_sorted.
  assert (NoDup (Suggestions.popular_text <$> all)) as Hnd.
  { unfold all. rewrite Suggesting.sorted_reverse_perm.
    apply Suggesting.NoDup_tally_texts. }
  split; [rewrite length_take; lia|].
  split.
  { rewrite fmap_take. eapply sublist_NoDup; [exact Hnd|apply sublist_take]. }
  split.
  { intros [xt xc xl] Hx. apply elem_of_take in Hx as (i & Hx & _).
    apply list_elem_of_lookup_2, Hall in Hx.
    cbn [Suggestions.popular_text Suggestions.count Suggestions.last_used] in *.
    unfold Suggestions.entry_of in Hx. case_decide as Ht; [done|].
    split; [done|].
    destruct (Suggestions.searched xt history) as [|first others]; [done|].
    by simplify_eq. }
  split.
  { rewrite <- (take_drop 5 all) in Hsorted.
    by apply StronglySorted_app_1_l in Hsorted. }
  intros search Hin Ht.
  set (t := Suggestions.text_of search) in *.
  assert (exists x, x ∈ all /\ Suggestions.popular_text x = t /\
                    Suggestions.count x
                    = length (Suggestions.searched t history))
    as (x & Hx & Hxt & Hxc).
  { destruct (Suggestions.searched t history) as [|first others] eqn:Hs.
    - exfalso. assert (search ∈ Suggestions.searched t history) as Hs'.
      { unfold Suggestions.searched. apply list_elem_of_filter. by split. }
      rewrite Hs in Hs'. by apply elem_of_nil in Hs'.
    - eexists {| Suggestions.popular_text := t;
                 Suggestions.count := S (length others);
                 Suggestions.last_used := SearchModel.timestamp first |}.
      split; [|by split]. apply Hall. cbn [Suggestions.popular_text].
      unfold Suggestions.entry_of. rewrite decide_False by done.
      by rewrite Hs. }
  rewrite <- (take_drop 5 all) in Hx. apply elem_of_app in Hx as [Hx|Hx].
  { left. by exists x. }
  right. split.
  { rewrite length_take. apply list_elem_of_lookup_1 in Hx as [i Hi].
    apply lookup_lt_Some in Hi. rewrite length_drop in Hi. lia. }
  intros y Hy. rewrite <- Hxc.
  rewrite <- (take_drop 5 all) in Hsorted.
  pose proof (StronglySorted_app_1_elem_of _ _ _ _ _ Hsorted Hy Hx) as Hge.
  unfold Suggestions.key_ge, Suggestions.key_lt in Hge. lia.
Qed.

End SuggestionsAndPopularity.

(** ** Sequences of calls, and searches from end to end *)

Section Sequences.
Context `{Unicode} `{Path} `{Re.Engine} `{Host} `{SearchModel.Repr}.


(** X27.  After [clear_search_cache] the next [execute_search] answers
    from the table of the store as it is now: it ends with
    [searchCompleted] of what the three steps give on that table, or with
    [searchError] of what they raise. *)
Theorem clear_search_cache_makes_the_next_search_fresh
    (st : Obj SearchModel.t) (params : SearchModel.search_params) :
  let df := MetadataModel.metadata_df (SearchModel.metadata_model (self st)) in
  let st' := (SearchModel.execute_search params
                (SearchModel.clear_search_cache st).2).2 in
  last (SearchModel.emitted (self st'))
  = Some (match Answer.answer params df with
          | Ok results => SearchModel.searchCompleted results
          | Raise e => SearchModel.searchError e
          end).
Proof.
  intros df st'. unfold st'.
  rewrite Answering.execute_search_miss; [|done|constructor].
  cbn [SearchModel.clear_search_cache modify snd on_self self
    SearchModel.metadata_model SearchModel.set_search_cache]. fold df.
  destruct (Answer.answer params df); cbn; by rewrite last_snoc.
Qed.

(** X28.  [execute_search] on a query that is not in the cache, with no
    sort key, an ASCII text without special characters, filters on
    columns that exist and a table whose [object] columns hold ASCII
    text, ends with [searchCompleted] of the rows of the store that
    mention the text in some [object] column (all rows for the empty text)
    and pass every filter, in the order of the table. *)
Theorem execute_search_emits_the_matching_rows
    (st : Obj SearchModel.t) (params : SearchModel.search_params)
    (filters : list (string * MetadataModel.criterion)) :
  let text_search := lower (default "" (SearchModel.text params)) in
  let df := MetadataModel.metadata_df (SearchModel.metadata_model (self st)) in
  Dict.get (SearchModel.repr params) (SearchModel.search_cache (self st))
    = None ->
  NoDup (Dict.keys (SearchModel.search_cache (self st))) ->
  SearchModel.filters params = Some filters ->
  SearchModel.sort_by params = None ->
  Re.plain text_search = true ->
  isascii text_search = true ->
  (forall c r, c ∈ select_dtypes_object df -> r ∈ rows df ->
               isascii (str (cell c r)) = true) ->
  (forall c, c ∈ select_dtypes_object df -> c ∈ columns df) ->
  (forall field value,
     (field, value) ∈ filters ->
     MetadataModel.criterion_truthy value = true ->
     value <> MetadataModel.Scalar (VStr "All") ->
     field ∈ columns df) ->
  last (SearchModel.emitted (self (SearchModel.execute_search params st).2))
  = Some (SearchModel.searchCompleted
            {| columns := columns df;
               rows := filter (fun r =>
                 (bool_decide (text_search = "")
                  || Answer.mentions text_search (select_dtypes_object df) r)
                 && forallb (Answer.passes r) filters = true) (rows df) |}).
Proof.
  intros text_search df Hmiss Hnd Hfs Hs Hp Hpat Hcells Hcols Hf.
  rewrite Answering.execute_search_miss by done. fold df.
  rewrite (Answered.answer_unsorted params df filters) by done.
  cbn. by rewrite last_snoc.
Qed.

End Sequences.

(** ** The set-up of the store *)

Section SettingUp.
Context `{Unicode} `{Path} `{Re.Engine} `{SetUp.Excel}.

(** X29.  [setup_model] never raises and makes no backup.  On an
    [excel_path] with no directory in front, such as the default
    [metadata.xlsx], its first line fails ([os.makedirs] of the empty
    path), the error is logged, and [create_new_database] replaces the
    table and the spreadsheet by the empty one, whatever the spreadsheet
    held.  With a directory in front, the table is what [pd.read_excel]
    reads from the spreadsheet when there is one, the spreadsheet staying
    as it is, and a new empty table and spreadsheet are created when
    there is none, with nothing logged. *)
Theorem setup_model_without_a_directory_resets_the_database
    (st : Obj MetadataModel.t) (excel_path : string) :
  let call := SetUp.setup_model excel_path st in
  let fresh := of_columns MetadataModel.schema in
  call.1 = Ok tt /\
  backup_files (world call.2) = backup_files (world st) /\
  if decide (dirname excel_path = "") then
    MetadataModel.metadata_df (self call.2) = fresh /\
    excel_file (world call.2) = Some fresh /\
    log (world call.2)
    = (log (world st)
         ++ [{| levelname := ERROR;
                msg := "Error initializing metadata model: ";
                args := [LogExn (OSError "")] |}])%list
  else
    match excel_file (world st) with
    | Some df =>
        MetadataModel.metadata_df (self call.2) = SetUp.read_back df /\
        excel_file (world call.2) = Some df
    | None =>
        MetadataModel.metadata_df (self call.2) = fresh /\
        excel_file (world call.2) = Some fresh
    end /\
    log (world call.2) = log (world st).
Proof.
  intros call fresh.
  assert (call
          = if decide (dirname excel_path = "") then
              (Ok tt,
               on_world (set_excel_file (Some fresh))
                 (on_self (MetadataModel.set_metadata_df fresh)
                    (on_world (add_log {| levelname := ERROR;
                        msg := "Error initializing metadata model: ";
                        args := [LogExn (OSError "")] |}) st)))
            else
              match excel_file (world st) with
              | Some df =>
                  (Ok tt,
                   on_self (MetadataModel.set_metadata_df (SetUp.read_back df))
                           st)
              | None =>
                  (Ok tt,
                   on_world (set_excel_file (Some fresh))
                     (on_self (MetadataModel.set_metadata_df fresh) st))
              end) as ->.
  { unfold call, SetUp.setup_model, try_except, SetUp.makedirs.
    destruct (decide (dirname excel_path = "")) as [->|Hd].
    - reflexivity.
    - rewrite decide_False by done.
      destruct st as [[fs [df|] bs ck n lg] m]; reflexivity. }
  destruct (decide (dirname excel_path = "")).
  - repeat split; reflexivity.
  - destruct (excel_file (world st)) eqn:Hx; cbn; rewrite ?Hx; repeat split; reflexivity.
Qed.

End SettingUp.

(** * The properties on the example store *)

Module Examples.
Import Example MetadataModel.

Ltac by_evaluation :=
  intros; apply (bool_decide_unpack _); vm_compute; exact I.

Lemma update_protected_path_is_noop_witness :
  AccessSafety.is_protected_path (MetadataModel.safety (self Example.store))
    "/net/plan.dwg" = true /\
  (MetadataModel.update_metadata "/net/plan.dwg"
     (Example.edited "/net/plan.dwg" "Civil") Example.store).1 = Ok false.
Proof.
  split; [vm_compute; reflexivity|].
  destruct (update_protected_path_is_noop Example.store "/net/plan.dwg"
              (Example.edited "/net/plan.dwg" "Civil"))
    as (st1 & st2 & text1 & text2 & H1 & _); [vm_compute; reflexivity|].
  rewrite H1. reflexivity.
Defined.


(** C1, on the example store.  [update_metadata] takes its backup after it
    has replaced the row: the table of the store is empty before the
    call, and the backup the call writes holds the new row; it is the very
    table the call then saves, not the table as it was before the
    mutation.  [add_files_basic_metadata] on the same store writes the
    empty table it found. *)
Theorem update_backup_holds_the_new_row :
  let before := metadata_df (self store) in
  let call := update_metadata "/home/u/a.dwg" (edited "/home/u/a.dwg" "Civil")
                              store in
  let after := metadata_df (self call.2) in
  call.1 = Ok true /\
  rows before = [] /\
  rows after = [<["last_modified" := VTime (noon 10)]>
                  (edited "/home/u/a.dwg" "Civil")] /\
  backup_files (world call.2)
    = {[ "metadata_backup_20240517_120011.xlsx" := after ]} /\
  excel_file (world call.2) = Some after /\
  backup_files (world (add_files_basic_metadata ["/home/u/a.dwg"] store).2)
    = {[ "metadata_backup_20240517_120010.xlsx" := before ]}.
Proof. by_evaluation. Qed.



(** C5, on the example store.  [MetadataModel.update_metadata] stores the
    record under the path the record carries, not under the path of the
    call: with a record for [/home/u/b.pdf] in the table, updating
    [/home/u/a.dwg] with a record whose [file_path] is [/home/u/b.pdf]
    leaves two records for the one and none for the other.
    [MetadataManager.update_metadata], which writes the path of the call
    into the record, leaves one for each. *)
Theorem update_with_foreign_path_duplicates :
  let st1 := (add_files_basic_metadata ["/home/u/b.pdf"] store).2 in
  let record := edited "/home/u/b.pdf" "Civil" in
  let call := update_metadata "/home/u/a.dwg" record st1 in
  let sibling := MetadataManager.update_metadata "/home/u/a.dwg" record st1 in
  Rows.count_path "/home/u/b.pdf" (metadata_df (self st1)) = 1%nat /\
  call.1 = Ok true /\
  Rows.count_path "/home/u/b.pdf" (metadata_df (self call.2)) = 2%nat /\
  Rows.count_path "/home/u/a.dwg" (metadata_df (self call.2)) = 0%nat /\
  sibling.1 = Ok true /\
  Rows.count_path "/home/u/b.pdf" (metadata_df (self sibling.2)) = 1%nat /\
  Rows.count_path "/home/u/a.dwg" (metadata_df (self sibling.2)) = 1%nat.
Proof. by_evaluation. Qed.

Lemma search_metadata_conjunctive_witness :
  exists result,
    (search_metadata civil_terms indexed).1 = Ok result /\
    rows result
    = Criteria.kept Criteria.text_matches (metadata_df (self indexed))
        civil_terms /\
    rows result = Spec.search (metadata_df (self indexed)) civil_terms /\
    self (search_metadata civil_terms indexed).2 = self indexed.
Proof.
  destruct (search_metadata_conjunctive indexed civil_terms)
    as (result & Hcall & Hrows & Hself & Hplain).
  - intros field value Hin. apply (bool_decide_unpack _).
    apply elem_of_cons in Hin as [[= -> ->]|Hin]; [vm_compute; exact I|].
    apply elem_of_cons in Hin as [[= -> ->]|Hin]; [vm_compute; exact I|].
    apply elem_of_cons in Hin as [[= -> ->]|Hin]; [vm_compute; exact I|].
    exfalso. eapply elem_of_nil, Hin.
  - exists result. split; [exact Hcall|]. split; [exact Hrows|].
    split; [|exact Hself]. apply Hplain.
    + intros field v Hin.
      apply elem_of_cons in Hin as [[= -> ->]|Hin];
        [split; vm_compute; reflexivity|].
      apply elem_of_cons in Hin as [[=]|Hin].
      apply elem_of_cons in Hin as [[= -> ->]|Hin];
        [split; vm_compute; reflexivity|].
      exfalso. eapply elem_of_nil, Hin.
    + intros field v r s Hin Hr Hcell.
      change s with (str (VStr s)). rewrite <- Hcell.
      apply (Search.checked_cells (metadata_df (self indexed))
               ["department"; "area"]); [vm_compute; reflexivity| |exact Hr].
      apply elem_of_cons in Hin as [[= -> ->]|Hin]; [left|].
      apply elem_of_cons in Hin as [[=]|Hin].
      apply elem_of_cons in Hin as [[= -> ->]|Hin]; [right; left|].
      exfalso. eapply elem_of_nil, Hin.
Defined.

(** The search of the witness finds the one record in [Civil]. *)
Example search_finds_civil :
  length <$> (rows <$> returned (search_metadata civil_terms indexed))
    = Some 1%nat.
Proof. by_evaluation. Qed.

(** C6 as stated fails on a scalar that is a regular expression: the
    department column exists, no department contains a dot, and the
    criterion ["."] keeps the record whose department is [Civil] (and not
    the one whose department is empty). *)
Lemma search_scalar_is_a_pattern_counterexample :
  "department" ∈ columns (metadata_df (self indexed)) /\
  Spec.search (metadata_df (self indexed))
    [("department", Scalar (VStr "."))] = [] /\
  (fun result => cell "department" <$> rows result)
    <$> returned (search_metadata [("department", Scalar (VStr "."))] indexed)
  = Some [VStr "Civil"].
Proof. by_evaluation. Qed.

Lemma nonexistent_column_is_not_ignored_witness :
  (exists e,
     search_metadata [("ghost", Scalar (VStr "x"))] indexed
     = (Ok Pd.empty,
        on_world (add_log {| levelname := ERROR;
                             msg := "Error searching metadata: ";
                             args := [LogExn e] |}) indexed)) /\
  (exists e,
     SearchModel.execute_search ghost_query searching
     = (Ok tt,
        on_self (SearchModel.add_emitted (SearchModel.searchError e))
          (on_world (add_log {| levelname := ERROR; msg := "Search error: ";
                                args := [LogExn e] |})
             (on_self (SearchModel.add_emitted SearchModel.searchStarted)
                searching)))).
Proof.
  pose proof (nonexistent_column_is_not_ignored indexed
    [("ghost", Scalar (VStr "x"))] searching ghost_query
    [("ghost", Scalar (VStr "x"))] "ghost" (Scalar (VStr "x"))) as HT.
  destruct HT as (H1 & H2 & _).
  - vm_compute. reflexivity.
  - apply (bool_decide_unpack _). vm_compute. exact I.
  - left.
  - discriminate.
  - apply (bool_decide_unpack _). vm_compute. exact I.
  - reflexivity.
  - left.
  - vm_compute. reflexivity.
  - split; assumption.
Defined.

(** C7 as stated fails: with the criterion on the column that is not there
    the search returns no row, without it the two records. *)
Lemma nonexistent_column_counterexample :
  ("ghost" ∉ columns (metadata_df (self indexed))) /\
  length <$> (rows <$> returned
     (search_metadata [("ghost", Scalar (VStr "x"))] indexed)) = Some 0%nat /\
  length <$> (rows <$> returned (search_metadata [] indexed)) = Some 2%nat /\
  SearchModel.emitted
    (self (SearchModel.execute_search ghost_query searching).2)
  = [SearchModel.searchStarted; SearchModel.searchError (KeyError "ghost")].
Proof. by_evaluation. Qed.

(** C9 as stated fails on a column that mixes kinds: [file_size] is a
    column, it holds the number 10 and the text [20.0 B], neither missing,
    and [get_unique_values] returns the empty list. *)
Lemma unique_values_of_mixed_column_counterexample :
  "file_size" ∈ columns (metadata_df (self indexed)) /\
  cell "file_size" <$> rows (metadata_df (self indexed))
    = [VInt 10; VStr "20.0 B"] /\
  returned (get_unique_values "file_size" indexed) = Some [].
Proof. by_evaluation. Qed.

(** On the columns of one kind the values come out in order. *)
Example unique_departments :
  returned (get_unique_values "department" indexed)
    = Some [VStr ""; VStr "Civil"] /\
  returned (get_unique_values "file_name" indexed)
    = Some [VStr "a.dwg"] /\
  returned (get_unique_values "ghost" indexed) = Some [].
Proof. by_evaluation. Qed.

Lemma search_cache_keeps_the_last_fifty_witness :
  SearchModel.cache_results "new" (metadata_df (self indexed)) full
    = (Ok tt,
       CacheOps.with_cache
         (drop 51 (hundred ++ [("new", metadata_df (self indexed))])%list)
         full) /\
  length (drop 51 (hundred ++ [("new", metadata_df (self indexed))])%list)
    = 50%nat.
Proof.
  pose proof (search_cache_keeps_the_last_fifty full "new"
    (metadata_df (self indexed)) full "7" Pd.empty) as HT.
  destruct HT as (H1 & H2 & _).
  - apply (bool_decide_unpack _). vm_compute. exact I.
  - vm_compute. reflexivity.
  - apply (bool_decide_unpack _). vm_compute. exact I.
  - apply (bool_decide_unpack _). vm_compute. exact I.
  - vm_compute. lia.
  - split; assumption.
Defined.

(** C8 as stated fails: after the 101st entry the cache holds 50 entries,
    not 51: the query [50], the 51st oldest, is gone with the 50 before
    it, and [51] is the oldest one left. *)
Lemma search_cache_eviction_counterexample :
  length (SearchModel.search_cache (self full)) = 100%nat /\
  Dict.keys (SearchModel.search_cache
    (self (SearchModel.cache_results "new" Pd.empty full).2))
  = ((pretty <$> seq 51 49) ++ ["new"])%list /\
  length (SearchModel.search_cache
    (self (SearchModel.cache_results "new" Pd.empty full).2)) = 50%nat /\
  Dict.mem "50" (SearchModel.search_cache (self full)) = true /\
  Dict.mem "50" (SearchModel.search_cache
    (self (SearchModel.cache_results "new" Pd.empty full).2)) = false.
Proof. by_evaluation. Qed.

Lemma mutations_keep_the_search_cache_witness :
  let cs := [Caller.AddBasic ["/net/plan.dwg"];
             Caller.Update "/home/u/a.dwg" (edited "/home/u/a.dwg" "Civil")] in
  let st := (SearchModel.execute_search civil_query searching).2 in
  let cached := metadata_df (self indexed) in
  SearchModel.emitted
    (self (SearchModel.execute_search civil_query
             (Caller.run_calls_under_search cs st)).2)
  = (SearchModel.emitted (self st)
       ++ [SearchModel.searchStarted;
           SearchModel.searchCompleted
             (select cached (eq (cell "department" <$> rows cached)
                                (VStr "Civil")))])%list.
Proof.
  intros cs st cached.
  apply (mutations_keep_the_search_cache cs st civil_query).
  vm_compute. reflexivity.
Defined.

(** After the two calls the store holds two records in [Civil]; the
    cached answer still holds one. *)
Example cached_answer_is_stale :
  let cs := [Caller.AddBasic ["/net/plan.dwg"];
             Caller.Update "/home/u/a.dwg" (edited "/home/u/a.dwg" "Civil")] in
  let st := (SearchModel.execute_search civil_query searching).2 in
  let st' := Caller.run_calls_under_search cs st in
  length <$> (rows <$> returned (search_metadata
     [("department", Scalar (VStr "Civil"))]
     {| world := world st'; self := SearchModel.metadata_model (self st') |}))
  = Some 2%nat /\
  (fun sg => match sg with
             | SearchModel.searchCompleted results => Some (len results)
             | _ => None
             end) <$> SearchModel.emitted
       (self (SearchModel.execute_search civil_query st').2)
  = [None; Some 1%nat; None; Some 1%nat].
Proof. by_evaluation. Qed.

Lemma get_unique_values_sorted_witness :
  self (get_unique_values "department" indexed).2 = self indexed.
Proof.
  exact (proj1 (get_unique_values_sorted indexed "department")).
Defined.

End Examples.

(** * The further properties on the example store *)

Module MoreExamples.
Import Example Sample MetadataModel.

Ltac by_evaluation :=
  intros; apply (bool_decide_unpack _); vm_compute; exact I.

Ltac listed Hq :=
  repeat (apply elem_of_cons in Hq as [->|Hq]; [vm_compute; exact I|]);
  exfalso; eapply elem_of_nil, Hq.





Lemma get_metadata_after_update_witness :
  (get_metadata "/home/u/a.dwg"
     (update_metadata "/home/u/a.dwg" (edited "/home/u/a.dwg" "Civil")
        store).2).1
  = Ok (Some (<["last_modified" := VTime (noon 10)]>
                (edited "/home/u/a.dwg" "Civil"))).
Proof.
  rewrite (get_metadata_after_update store "/home/u/a.dwg"
             (edited "/home/u/a.dwg" "Civil")).
  - reflexivity.
  - vm_compute. reflexivity.
  - by_evaluation.
Defined.

Lemma get_metadata_reads_the_first_record_witness :
  exists metadata,
    (get_metadata "/home/u/a.dwg" indexed).1 = Ok (Some metadata) /\
    metadata !! "file_size" = Some (VInt 10) /\
    metadata !! "ghost" = None.
Proof.
  pose proof (get_metadata_reads_the_first_record indexed "/home/u/a.dwg") as HT.
  assert (Lookup.first_keyed "/home/u/a.dwg" (metadata_df (self indexed))
          = Some (basic_record "/home/u/a.dwg" 10 (noon 11) (noon 1))) as Hfirst
    by by_evaluation.
  cbn zeta in HT. rewrite Hfirst in HT.
  destruct HT as (metadata & H1 & H2 & _).
  - vm_compute. reflexivity.
  - by_evaluation.
  - exists metadata. split; [exact H1|]. rewrite !H2. split.
    + rewrite decide_True by by_evaluation. vm_compute. reflexivity.
    + rewrite decide_False; [reflexivity|]. by_evaluation.
Defined.

Lemma add_keeps_the_metadata_cache_witness :
  let cached := <["last_modified" := VTime (noon 13)]>
                  (saved_form "/home/u/b.pdf" "Civil" "20.0 B") in
  (get_metadata "/home/u/b.pdf"
     (add_files_basic_metadata ["/home/u/b.pdf"] indexed).2).1
  = Ok (Some cached).
Proof.
  intros cached.
  destruct (add_keeps_the_metadata_cache indexed ["/home/u/b.pdf"]
              "/home/u/b.pdf" cached) as [_ H2].
  - by_evaluation.
  - rewrite H2. reflexivity.
Defined.

Lemma clear_cache_makes_get_metadata_read_the_table_witness :
  (get_metadata "/home/u/gone.doc" (clear_cache indexed).2).1 = Ok None.
Proof.
  rewrite (clear_cache_makes_get_metadata_read_the_table indexed
             "/home/u/gone.doc").
  - vm_compute. reflexivity.
  - by_evaluation.
Defined.

(** On a store whose table has no column at all, as after a failed
    read of the spreadsheet in [MetadataManager]. *)
Lemma update_stopped_early_changes_nothing_witness :
  let bare := on_self (set_metadata_df Pd.empty) store in
  let call := update_metadata "/home/u/a.dwg" (edited "/home/u/a.dwg" "Civil")
                              bare in
  call.1 = Ok false /\
  self call.2 = self bare /\
  excel_file (world call.2) = excel_file (world bare) /\
  backup_files (world call.2) = backup_files (world bare) /\
  files (world call.2) = files (world bare) /\
  log (world call.2)
  = [{| levelname := ERROR; msg := "Error updating metadata for ";
        args := [LogPath "/home/u/a.dwg"; LogExn (KeyError "file_path")] |}].
Proof.
  intros bare call.
  destruct (update_stopped_early_changes_nothing bare "/home/u/a.dwg"
              (edited "/home/u/a.dwg" "Civil"))
    as (H1 & H2 & H3 & H4 & H5 & H6).
  - right. by_evaluation.
  - split; [exact H1|]. split; [exact H2|]. split; [exact H3|].
    split; [exact H4|]. split; [exact H5|exact H6].
Defined.


Lemma validate_operation_blocks_only_write_witness :
  AccessSafety.is_protected_path (safety (self store)) "/net/plan.dwg" = true /\
  AccessChecks.is_modification_operation "Delete" = true /\
  (AccessChecks.validate_operation (safety (self store)) "/net/plan.dwg"
     "Delete" store).1 = Ok true.
Proof.
  split; [vm_compute; reflexivity|]. split; [vm_compute; reflexivity|].
  destruct (validate_operation_blocks_only_write (safety (self store))
              "/net/plan.dwg" "Delete" store) as [H1 _].
  - vm_compute. discriminate.
  - rewrite H1. reflexivity.
Defined.

Lemma read_metadata_of_an_unknown_file_is_a_default_witness :
  (ManagerReads.read_metadata "/home/u/a.dwg" store).1
  = Ok (Some (list_to_map
                [ ("file_path", VStr "/home/u/a.dwg");
                  ("created_date", VTime (noon 10));
                  ("modified_date", VTime (noon 11));
                  ("last_indexed", VTime (noon 12));
                  ("status", VStr "Indexed");
                  ("file_size", VInt 10) ])) /\
  self (ManagerReads.read_metadata "/home/u/a.dwg" store).2 = self store.
Proof.
  destruct (read_metadata_of_an_unknown_file_is_a_default store "/home/u/a.dwg"
              {| st_size := 10; st_mtime := noon 1 |}) as (H1 & H2 & _).
  - vm_compute. reflexivity.
  - reflexivity.
  - vm_compute. reflexivity.
  - by_evaluation.
  - vm_compute. reflexivity.
  - split; [exact H1 | exact H2].
Defined.

Lemma read_metadata_after_manager_update_witness :
  (ManagerReads.read_metadata "/home/u/a.dwg"
     (MetadataManager.update_metadata "/home/u/a.dwg"
        (edited "/home/u/b.pdf" "Civil") store).2).1
  = Ok (Some (<["file_path" := VStr "/home/u/a.dwg"]>
                (<["modified_date" := VTime (noon 10)]>
                   (edited "/home/u/b.pdf" "Civil")))).
Proof.
  rewrite (read_metadata_after_manager_update store "/home/u/a.dwg"
             (edited "/home/u/b.pdf" "Civil")).
  - reflexivity.
  - vm_compute. reflexivity.
  - by_evaluation.
  - by_evaluation.
  - reflexivity.
Defined.

Lemma apply_filters_keeps_the_rows_passing_every_filter_witness :
  SearchModel._apply_filters (metadata_df (self indexed))
    [("department", Scalar (VStr "Civil")); ("area", Scalar (VStr "All"));
     ("ghost", Scalar (VStr ""))]
  = Ok civil_rows.
Proof.
  rewrite apply_filters_keeps_the_rows_passing_every_filter.
  - by_evaluation.
  - intros field value Hin Ht Hall. apply (bool_decide_unpack _).
    apply elem_of_cons in Hin as [[= -> ->]|Hin]; [vm_compute; exact I|].
    apply elem_of_cons in Hin as [[= -> ->]|Hin];
      [exfalso; apply Hall; reflexivity|].
    apply elem_of_cons in Hin as [[= -> ->]|Hin];
      [exfalso; vm_compute in Ht; discriminate Ht|].
    exfalso. eapply elem_of_nil, Hin.
Defined.

Lemma build_search_query_keeps_the_rows_mentioning_the_text_witness :
  (SearchModel._build_search_query (text_query "Civ") searching).1
  = Ok civil_rows.
Proof.
  rewrite build_search_query_keeps_the_rows_mentioning_the_text.
  - by_evaluation.
  - vm_compute. reflexivity.
  - vm_compute. reflexivity.
  - apply Search.checked_cells. vm_compute. reflexivity.
  - apply Forall_forall. by_evaluation.
Defined.

Lemma execute_search_on_a_miss_witness :
  SearchModel.emitted
    (self (SearchModel.execute_search civil_query searching).2)
  = [SearchModel.searchStarted; SearchModel.searchCompleted civil_rows] /\
  length (SearchModel.search_history
            (self (SearchModel.execute_search civil_query searching).2))
  = 1%nat.
Proof.
  pose proof (execute_search_on_a_miss searching civil_query) as HT.
  assert (Answer.answer civil_query
            (metadata_df (SearchModel.metadata_model (self searching)))
          = Ok civil_rows) as Ha by by_evaluation.
  cbn zeta in HT. rewrite Ha in HT.
  destruct HT as (_ & H1 & _ & H3 & _).
  - vm_compute. reflexivity.
  - by_evaluation.
  - split; [exact H1|]. rewrite H3. reflexivity.
Defined.

Lemma a_completed_search_is_answered_again_witness :
  let cs := [Caller.AddBasic ["/net/plan.dwg"];
             Caller.Update "/home/u/a.dwg" (edited "/home/u/a.dwg" "Civil")] in
  let st1 := (SearchModel.execute_search civil_query searching).2 in
  SearchModel.emitted
    (self (SearchModel.execute_search civil_query
             (Caller.run_calls_under_search cs st1)).2)
  = (SearchModel.emitted (self st1)
       ++ [SearchModel.searchStarted;
           SearchModel.searchCompleted civil_rows])%list.
Proof.
  intros cs st1.
  apply (a_completed_search_is_answered_again searching civil_query cs civil_rows).
  - by_evaluation.
  - by_evaluation.
Defined.

Lemma execute_search_keeps_cache_and_history_bounded_witness :
  (length (SearchModel.search_cache
             (self (SearchModel.execute_search (text_query "new") full).2))
   <= 100)%nat.
Proof.
  destruct (execute_search_keeps_cache_and_history_bounded full
              (text_query "new")) as (_ & H2 & _).
  - by_evaluation.
  - vm_compute. lia.
  - vm_compute. lia.
  - exact H2.
Defined.

(** The suggestions for [ci] after the three searches: the text [Civ]
    of the searches, then the department [Civil] of a record. *)
Lemma search_suggestions_are_few_and_distinct_witness :
  let st := after_searches in
  let partial_text := "ci" in
  let suggestions := ["Civ"; "Civil"] in
  let history := SearchModel.search_history (self st) in
  let df := metadata_df (SearchModel.metadata_model (self st)) in
  (Suggestions.get_search_suggestions partial_text st).1 = Ok suggestions /\
  (Suggestions.get_search_suggestions partial_text st).2 = st /\
  (length suggestions <= 10)%nat /\
  NoDup suggestions /\
  ((len_str partial_text < 2)%nat -> suggestions = []) /\
  (forall s, s ∈ suggestions ->
     (exists search,
        search ∈ history /\ SearchModel.text (SearchModel.params search) = Some s /\
        contains (lower partial_text) (lower s) = true) \/
     (exists c r matcher,
        c ∈ select_dtypes_object df /\ r ∈ rows df /\ s = str (cell c r) /\
        Re.compile false (lower partial_text) = Ok matcher /\
        matcher (lower s) = true /\
        (Re.plain (lower partial_text) = true ->
         isascii (lower partial_text) = true -> isascii s = true ->
         contains (lower partial_text) (lower s) = true))) /\
  (forall search,
     (2 <= len_str partial_text)%nat ->
     head (filter (fun search =>
             contains (lower partial_text)
                      (lower (Suggestions.text_of search)) = true) history)
       = Some search ->
     head suggestions = Some (Suggestions.text_of search)).
Proof.
  intros st partial_text suggestions history df.
  assert ((Suggestions.get_search_suggestions partial_text st).1
          = Ok suggestions) as Hcall by by_evaluation.
  split; [exact Hcall|].
  exact (search_suggestions_are_few_and_distinct st partial_text suggestions
           Hcall).
Defined.

Lemma execute_search_emits_the_matching_rows_witness :
  last (SearchModel.emitted
          (self (SearchModel.execute_search civil_text_query searching).2))
  = Some (SearchModel.searchCompleted civil_rows).
Proof.
  rewrite (execute_search_emits_the_matching_rows searching civil_text_query
             [("department", Scalar (VStr "Civil"));
              ("area", Scalar (VStr "All"))]).
  - by_evaluation.
  - vm_compute. reflexivity.
  - by_evaluation.
  - reflexivity.
  - reflexivity.
  - vm_compute. reflexivity.
  - vm_compute. reflexivity.
  - apply Search.checked_cells. vm_compute. reflexivity.
  - apply Forall_forall. by_evaluation.
  - intros field value Hin Ht Hall. apply (bool_decide_unpack _).
    apply elem_of_cons in Hin as [[= -> ->]|Hin]; [vm_compute; exact I|].
    apply elem_of_cons in Hin as [[= -> ->]|Hin];
      [exfalso; apply Hall; reflexivity|].
    exfalso. eapply elem_of_nil, Hin.
Defined.

(** The three searches above, as the two aids see them: the suggestions
    for [dw] start with the query that was made and go on with the cells
    that hold it; a pattern the engine refuses leaves
    [get_search_suggestions] as an exception; and [Civ], after_searches twice,
    comes before [dwg]. *)
Example suggestions_and_popular_searches :
  (Suggestions.get_search_suggestions "dw" after_searches).1
    = Ok ["dwg"; ".dwg"; "a.dwg"; "/home/u/a.dwg"] /\
  (Suggestions.get_search_suggestions "((" after_searches).1 = Raise ReError /\
  (fun l : list Suggestions.popular =>
     (fun x => (Suggestions.popular_text x, Suggestions.count x)) <$> l)
    <$> returned (Suggestions.get_popular_searches after_searches)
  = Some [("Civ", 2%nat); ("dwg", 1%nat)].
Proof. by_evaluation. Qed.

(** The store of the example, set up again on its two records: under
    the name [metadata.xlsx] the table and the spreadsheet come out
    empty and no backup is made; under a name with a directory in front
    the two records are read back, the department that was the empty
    text missing. *)
Example setup_model_on_the_example_store :
  let bare := (SetUp.setup_model "metadata.xlsx" indexed).2 in
  let placed := (SetUp.setup_model "/data/metadata.xlsx" indexed).2 in
  cell "department" <$> rows (metadata_df (self indexed))
    = [VStr ""; VStr "Civil"] /\
  len (metadata_df (self bare)) = 0%nat /\
  excel_file (world bare) = Some (of_columns schema) /\
  backup_files (world bare) = backup_files (world indexed) /\
  cell "department" <$> rows (metadata_df (self placed))
    = [VNaN; VStr "Civil"] /\
  excel_file (world placed) = excel_file (world indexed).
Proof. by_evaluation. Qed.

End MoreExamples.
